(** * portfolio-backend: the file-backed record store, the archival job and
      the account flows of [server.js], embedded in Rocq.

    The development follows the layout of the repository:
    - [JSON values] and the two built-ins [JSON.stringify(v, null, 2)] and
      [JSON.parse] that [loadData]/[saveData] go through;
    - the data directory ([Disk]) with [loadData]/[saveData];
    - the CRUD handlers of [server.js] over [projects.json],
      [education.json], [skills.json] and [messages.json];
    - [archiveOldMessages] of [utils/archiveMessages.js];
    - the account collection with the login and password-reset handlers,
      and [initializeDefaultUser];
    - the statistics routes over [stats.json] with [incrementCounter] and
      the count functions, the theme preference over [users.json], and
      the router of [routes/personal-info.js].

    The values of the model are the JSON values whose numbers are
    integers.  [JSON_parse] reads the texts that have such a value, and
    [is_json] is the grammar itself: it tells, among the texts the model
    has no value for, those that [JSON.parse] rejects from those it reads.
    What is proved about stored data is stated for files the model has the
    value of and for files that are missing or hold no JSON; the record
    store itself is given over any values and their serializer.

    Definitions come first; the properties follow in the second half. *)

From Stdlib Require Import ZArith String Ascii List Bool Lia.
From Stdlib Require Import DecimalString DecimalZ DecimalPos DecimalFacts Sorted.
From stdpp Require Import gmap strings list.

Local Open Scope Z_scope.
Local Open Scope string_scope.
Local Open Scope list_scope.

(* ===================================================================== *)
(** * 1. JSON values as the handlers see them                               *)
(* ===================================================================== *)

(** A parsed JSON document.  Numbers are the integer-valued ones (ids are
    strings; years, levels and counters are integers); an object keeps its
    members in property order. *)
Unset Elimination Schemes.
Inductive json : Type :=
| JNull
| JBool (b : bool)
| JNum (n : Z)
| JStr (s : string)
| JArr (items : list json)
| JObj (members : list (string * json)).
Set Elimination Schemes.

(** [!!v] of JavaScript. *)
Definition truthy (v : json) : bool :=
  match v with
  | JNull => false
  | JBool b => b
  | JNum n => negb (n =? 0)%Z
  | JStr s => negb (String.eqb s "")
  | JArr _ | JObj _ => true
  end.

(** [!!x] for a value that may be [undefined]. *)
Definition truthy_opt (v : option json) : bool :=
  match v with Some x => truthy x | None => false end.

(** [Array.isArray]. *)
Definition isArray (v : json) : bool :=
  match v with JArr _ => true | _ => false end.

(** [o[k]] on an object's member list: [None] is [undefined].  An object
    of the language has no two members of one name; on a list that has,
    the first one is read. *)
Fixpoint obj_get (k : string) (ms : list (string * json)) : option json :=
  match ms with
  | [] => None
  | (k', v) :: ms' => if String.eqb k k' then Some v else obj_get k ms'
  end.

(** [o[k] = v]: an existing property keeps its place, a new one goes last. *)
Fixpoint obj_set (k : string) (v : json) (ms : list (string * json))
  : list (string * json) :=
  match ms with
  | [] => [(k, v)]
  | (k', v') :: ms' =>
      if String.eqb k k' then (k, v) :: ms' else (k', v') :: obj_set k v ms'
  end.

(** [{...a, ...b}]: the properties of [b] assigned over [a] in order. *)
Definition obj_spread (a b : list (string * json)) : list (string * json) :=
  fold_left (fun acc kv => obj_set (fst kv) (snd kv) acc) b a.

(** [v.k] for a parsed value [v] that is not [null]: primitives and arrays
    have none of the properties the handlers read ([id], [read],
    [createdAt], [skills], [certificate], [image]). *)
Definition prop (k : string) (v : json) : option json :=
  match v with
  | JObj ms => obj_get k ms
  | _ => None
  end.

(** [a === b] where [b] is a string: only an equal string passes. *)
Definition strict_eq_str (a : option json) (s : string) : bool :=
  match a with
  | Some (JStr s') => String.eqb s' s
  | _ => false
  end.

(* ===================================================================== *)
(** * 2. [JSON.stringify(v, null, 2)] and [JSON.parse]                      *)
(* ===================================================================== *)

Definition nl : string := String (ascii_of_nat 10) "".
Definition dquote : ascii := ascii_of_nat 34.
Definition backslash : ascii := ascii_of_nat 92.

Definition hex_digit (n : nat) : ascii :=
  match n with
  | 0%nat => "0" | 1%nat => "1" | 2%nat => "2" | 3%nat => "3"
  | 4%nat => "4" | 5%nat => "5" | 6%nat => "6" | 7%nat => "7"
  | 8%nat => "8" | 9%nat => "9" | 10%nat => "a" | 11%nat => "b"
  | 12%nat => "c" | 13%nat => "d" | 14%nat => "e" | _ => "f"
  end%char.

(** QuoteJSONString, one character: the two-character escapes, [\u00xx]
    for the other control characters, everything else as it is. *)
Definition escape_char (c : ascii) : string :=
  let n := nat_of_ascii c in
  if Ascii.eqb c dquote then String backslash (String dquote "")
  else if Ascii.eqb c backslash then String backslash (String backslash "")
  else if (n =? 8)%nat then String backslash "b"
  else if (n =? 12)%nat then String backslash "f"
  else if (n =? 10)%nat then String backslash "n"
  else if (n =? 13)%nat then String backslash "r"
  else if (n =? 9)%nat then String backslash "t"
  else if (n <? 32)%nat then
    String backslash
      (String "u" (String "0" (String "0"
         (String (hex_digit (n / 16)) (String (hex_digit (n mod 16)) "")))))
  else String c "".

Fixpoint escape (s : string) : string :=
  match s with
  | "" => ""
  | String c s' => escape_char c +:+ escape s'
  end.

Definition quote (s : string) : string :=
  String dquote (escape s +:+ String dquote "").

(** Decimal text of an integer, as [Number::toString] prints the integers
    below 10^21 in size. *)
Definition string_of_Z (n : Z) : string := NilZero.string_of_int (Z.to_int n).

(** [parts.join(sep)]. *)
Fixpoint join (sep : string) (parts : list string) : string :=
  match parts with
  | [] => ""
  | [p] => p
  | p :: ps => p +:+ sep +:+ join sep ps
  end.

(** SerializeJSONProperty with gap of two spaces; [ind] is the current
    indentation.  The properties of an object are printed in the order of
    the list, which is the order of the language for names that are no
    array indices. *)
Fixpoint stringify_at (ind : string) (v : json) : string :=
  match v with
  | JNull => "null"
  | JBool true => "true"
  | JBool false => "false"
  | JNum n => string_of_Z n
  | JStr s => quote s
  | JArr [] => "[]"
  | JArr xs =>
      let ind' := ind +:+ "  " in
      "[" +:+ nl +:+ ind' +:+
      join ("," +:+ nl +:+ ind') (map (stringify_at ind') xs) +:+
      nl +:+ ind +:+ "]"
  | JObj [] => "{}"
  | JObj ms =>
      let ind' := ind +:+ "  " in
      "{" +:+ nl +:+ ind' +:+
      join ("," +:+ nl +:+ ind')
        (map (fun kv => quote (fst kv) +:+ ": " +:+ stringify_at ind' (snd kv)) ms)
      +:+ nl +:+ ind +:+ "}"
  end.

Definition JSON_stringify (v : json) : string := stringify_at "" v.

(** JSON white space. *)
Definition is_ws (c : ascii) : bool :=
  let n := nat_of_ascii c in
  (n =? 32)%nat || (n =? 9)%nat || (n =? 10)%nat || (n =? 13)%nat.

Fixpoint skip_ws (s : string) : string :=
  match s with
  | String c s' => if is_ws c then skip_ws s' else s
  | "" => ""
  end.

Definition hex_value (c : ascii) : option nat :=
  let n := nat_of_ascii c in
  if ((48 <=? n) && (n <=? 57))%nat then Some (n - 48)%nat
  else if ((97 <=? n) && (n <=? 102))%nat then Some (n - 87)%nat
  else if ((65 <=? n) && (n <=? 70))%nat then Some (n - 55)%nat
  else None.

(** The character a two-character escape stands for. *)
Definition unescape_simple (e : ascii) : option ascii :=
  if Ascii.eqb e dquote then Some dquote
  else if Ascii.eqb e backslash then Some backslash
  else if Ascii.eqb e "/" then Some "/"%char
  else if Ascii.eqb e "b" then Some (ascii_of_nat 8)
  else if Ascii.eqb e "f" then Some (ascii_of_nat 12)
  else if Ascii.eqb e "n" then Some (ascii_of_nat 10)
  else if Ascii.eqb e "r" then Some (ascii_of_nat 13)
  else if Ascii.eqb e "t" then Some (ascii_of_nat 9)
  else None.

(** The code unit of the four hexadecimal digits of a [\uXXXX] escape. *)
Definition hex4 (h1 h2 h3 h4 : ascii) : option N :=
  match hex_value h1, hex_value h2, hex_value h3, hex_value h4 with
  | Some a, Some b, Some c, Some d =>
      Some (((N.of_nat a * 16 + N.of_nat b) * 16 + N.of_nat c) * 16 + N.of_nat d)%N
  | _, _, _, _ => None
  end.

(** The UTF-8 bytes of a code point (strings are byte strings here). *)
Definition utf8_bytes (code : N) : string :=
  (if code <? 128 then String (ascii_of_N code) ""
   else if code <? 2048 then
     String (ascii_of_N (192 + code / 64))
       (String (ascii_of_N (128 + code mod 64)) "")
   else if code <? 65536 then
     String (ascii_of_N (224 + code / 4096))
       (String (ascii_of_N (128 + (code / 64) mod 64))
          (String (ascii_of_N (128 + code mod 64)) ""))
   else
     String (ascii_of_N (240 + code / 262144))
       (String (ascii_of_N (128 + (code / 4096) mod 64))
          (String (ascii_of_N (128 + (code / 64) mod 64))
             (String (ascii_of_N (128 + code mod 64)) ""))))%N.

(** The two halves of a code point above U+FFFF: D800 to DBFF, then DC00
    to DFFF. *)
Definition is_high_surrogate (code : N) : bool :=
  ((55296 <=? code) && (code <=? 56319))%N.
Definition is_low_surrogate (code : N) : bool :=
  ((56320 <=? code) && (code <=? 57343))%N.

(** The characters of a string literal after its opening quote, up to the
    closing one.  A [\uXXXX] escape gives the bytes of its code point, two
    escapes that are the halves of one code point give the bytes of that
    one; a half on its own is a string this model does not have. *)
Fixpoint parse_string_body (s : string) : option (string * string) :=
  match s with
  | "" => None
  | String c s' =>
      if Ascii.eqb c dquote then Some ("", s')
      else if Ascii.eqb c backslash then
        match s' with
        | "" => None
        | String e s'' =>
            if Ascii.eqb e "u" then
              match s'' with
              | String h1 (String h2 (String h3 (String h4 s5))) =>
                  match hex4 h1 h2 h3 h4 with
                  | Some code =>
                      if is_high_surrogate code then
                        match s5 with
                        | String b (String u (String l1 (String l2 (String l3
                            (String l4 s6))))) =>
                            if Ascii.eqb b backslash && Ascii.eqb u "u" then
                              match hex4 l1 l2 l3 l4 with
                              | Some low =>
                                  if is_low_surrogate low then
                                    match parse_string_body s6 with
                                    | Some (str, r) =>
                                        Some (utf8_bytes
                                                (65536 + (code - 55296) * 1024
                                                 + (low - 56320))%N
                                              +:+ str, r)
                                    | None => None
                                    end
                                  else None
                              | None => None
                              end
                            else None
                        | _ => None
                        end
                      else if is_low_surrogate code then None
                      else
                        match parse_string_body s5 with
                        | Some (str, r) => Some (utf8_bytes code +:+ str, r)
                        | None => None
                        end
                  | None => None
                  end
              | _ => None
              end
            else
              match unescape_simple e with
              | Some ch =>
                  match parse_string_body s'' with
                  | Some (str, r) => Some (String ch str, r)
                  | None => None
                  end
              | None => None
              end
        end
      else if (nat_of_ascii c <? 32)%nat then None
      else
        match parse_string_body s' with
        | Some (str, r) => Some (String c str, r)
        | None => None
        end
  end.

Definition digit_cons (c : ascii) : option (Decimal.uint -> Decimal.uint) :=
  match c with
  | "0" => Some Decimal.D0 | "1" => Some Decimal.D1 | "2" => Some Decimal.D2
  | "3" => Some Decimal.D3 | "4" => Some Decimal.D4 | "5" => Some Decimal.D5
  | "6" => Some Decimal.D6 | "7" => Some Decimal.D7 | "8" => Some Decimal.D8
  | "9" => Some Decimal.D9
  | _ => None
  end%char.

(** The longest run of decimal digits at the head of [s]. *)
Fixpoint read_digits (s : string) : Decimal.uint * string :=
  match s with
  | "" => (Decimal.Nil, "")
  | String c s' =>
      match digit_cons c with
      | Some k => let '(d, r) := read_digits s' in (k d, r)
      | None => (Decimal.Nil, s)
      end
  end.

(** A JSON integer part: at least one digit, no leading zero. *)
Definition canonical_digits (d : Decimal.uint) : bool :=
  match d with
  | Decimal.Nil => false
  | Decimal.D0 Decimal.Nil => true
  | Decimal.D0 _ => false
  | _ => true
  end.

(** What may not follow the integer part of a number in this model: a
    fraction or an exponent. *)
Definition starts_fraction (s : string) : bool :=
  match s with
  | String c _ => Ascii.eqb c "." || Ascii.eqb c "e" || Ascii.eqb c "E"
  | "" => false
  end.

Definition parse_number (s : string) : option (json * string) :=
  let '(neg, s1) :=
    match s with
    | String c r => if Ascii.eqb c "-" then (true, r) else (false, s)
    | "" => (false, s)
    end in
  let '(d, r) := read_digits s1 in
  if canonical_digits d && negb (starts_fraction r) then
    Some (JNum (Z.of_int (if neg then Decimal.Neg d else Decimal.Pos d)), r)
  else None.

(** [expect lit s]: [s] with the literal [lit] taken off its head. *)
Fixpoint expect (lit s : string) : option string :=
  match lit with
  | "" => Some s
  | String c lit' =>
      match s with
      | String c' s' => if Ascii.eqb c c' then expect lit' s' else None
      | "" => None
      end
  end.

(** The JSON grammar by recursive descent; [fuel] bounds the nesting and
    the number of elements, and [JSON_parse] gives it the input length. *)
Fixpoint parse_value (fuel : nat) (s : string) : option (json * string) :=
  match fuel with
  | O => None
  | S f =>
      match skip_ws s with
      | "" => None
      | String c r as s0 =>
          if Ascii.eqb c "n" then
            match expect "ull" r with Some r' => Some (JNull, r') | None => None end
          else if Ascii.eqb c "t" then
            match expect "rue" r with Some r' => Some (JBool true, r') | None => None end
          else if Ascii.eqb c "f" then
            match expect "alse" r with Some r' => Some (JBool false, r') | None => None end
          else if Ascii.eqb c dquote then
            match parse_string_body r with
            | Some (str, r') => Some (JStr str, r')
            | None => None
            end
          else if Ascii.eqb c "[" then
            match skip_ws r with
            | String c' r' =>
                if Ascii.eqb c' "]" then Some (JArr [], r')
                else
                  match parse_elements f r with
                  | Some (xs, r'') => Some (JArr xs, r'')
                  | None => None
                  end
            | "" => None
            end
          else if Ascii.eqb c "{" then
            match skip_ws r with
            | String c' r' =>
                if Ascii.eqb c' "}" then Some (JObj [], r')
                else
                  match parse_members f r with
                  | Some (ms, r'') => Some (JObj ms, r'')
                  | None => None
                  end
            | "" => None
            end
          else parse_number s0
      end
  end
with parse_elements (fuel : nat) (s : string) : option (list json * string) :=
  match fuel with
  | O => None
  | S f =>
      match parse_value f s with
      | Some (v, r) =>
          match skip_ws r with
          | String c r' =>
              if Ascii.eqb c "," then
                match parse_elements f r' with
                | Some (vs, r'') => Some (v :: vs, r'')
                | None => None
                end
              else if Ascii.eqb c "]" then Some ([v], r')
              else None
          | "" => None
          end
      | None => None
      end
  end
with parse_members (fuel : nat) (s : string)
  : option (list (string * json) * string) :=
  match fuel with
  | O => None
  | S f =>
      match skip_ws s with
      | String q r0 =>
          if Ascii.eqb q dquote then
            match parse_string_body r0 with
            | Some (k, r1) =>
                match skip_ws r1 with
                | String co r2 =>
                    if Ascii.eqb co ":" then
                      match parse_value f r2 with
                      | Some (v, r) =>
                          match skip_ws r with
                          | String c r' =>
                              if Ascii.eqb c "," then
                                match parse_members f r' with
                                | Some (ms, r'') => Some ((k, v) :: ms, r'')
                                | None => None
                                end
                              else if Ascii.eqb c "}" then Some ([(k, v)], r')
                              else None
                          | "" => None
                          end
                      | None => None
                      end
                    else None
                | "" => None
                end
            | None => None
            end
          else None
      | "" => None
      end
  end.

(** [JSON.parse]: one value, then nothing but white space.  [None] is the
    [SyntaxError], and also a text whose value the model does not have:
    [is_json] below tells the two apart. *)
Definition JSON_parse (s : string) : option json :=
  match parse_value (S (String.length s)) s with
  | Some (v, r) =>
      match skip_ws r with
      | "" => Some v
      | _ => None
      end
  | None => None
  end.

(** The fuel [parse_value] needs to read back the text of [v]. *)
Fixpoint need (v : json) : nat :=
  match v with
  | JArr xs => S (list_sum (map (fun x => S (need x)) xs))
  | JObj ms => S (list_sum (map (fun kv => S (need (snd kv))) ms))
  | _ => 1
  end.

(** Indentation is made of white space only. *)
Fixpoint all_ws (s : string) : bool :=
  match s with
  | "" => true
  | String c s' => is_ws c && all_ws s'
  end.

(** ** The texts [JSON.parse] accepts

    [JSON_parse] above reads the texts whose values this model has: it
    gives [None] on a number with a fraction or an exponent and on a
    string with half a surrogate pair, which [JSON.parse] reads.
    [is_json] is the whole grammar, without the values: a text it refuses
    is one [JSON.parse] throws [SyntaxError] on.  It reads the text once, from
    left to right, knowing where it stands and which brackets are open. *)
Inductive Place : Type :=
| BeforeValue
| BeforeFirstElement
| BeforeFirstMember
| BeforeName
| BeforeColon
| AfterValue
| InString (name : bool)
| InEscape (name : bool)
| InHex (name : bool) (due : nat)
| InLiteral (rest : string)
| AfterMinus
| AfterZero
| InInteger
| AfterPoint
| InFraction
| AfterE
| AfterSign
| InExponent.

Inductive Bracket : Type := Square | Curly.

Definition is_digit (c : ascii) : bool :=
  match digit_cons c with Some _ => true | None => false end.

Definition is_hex (c : ascii) : bool :=
  match hex_value c with Some _ => true | None => false end.

(** The first character of a value. *)
Definition start_value (open : list Bracket) (c : ascii)
  : option (Place * list Bracket) :=
  if Ascii.eqb c dquote then Some (InString false, open)
  else if Ascii.eqb c "[" then Some (BeforeFirstElement, Square :: open)
  else if Ascii.eqb c "{" then Some (BeforeFirstMember, Curly :: open)
  else if Ascii.eqb c "-" then Some (AfterMinus, open)
  else if Ascii.eqb c "0" then Some (AfterZero, open)
  else if is_digit c then Some (InInteger, open)
  else if Ascii.eqb c "t" then Some (InLiteral "rue", open)
  else if Ascii.eqb c "f" then Some (InLiteral "alse", open)
  else if Ascii.eqb c "n" then Some (InLiteral "ull", open)
  else None.

(** What may follow a value: white space, a comma inside a bracket, or
    the bracket's closing character. *)
Definition after_value (open : list Bracket) (c : ascii)
  : option (Place * list Bracket) :=
  if is_ws c then Some (AfterValue, open)
  else if Ascii.eqb c "," then
    match open with
    | Square :: _ => Some (BeforeValue, open)
    | Curly :: _ => Some (BeforeName, open)
    | [] => None
    end
  else if Ascii.eqb c "]" then
    match open with Square :: rest => Some (AfterValue, rest) | _ => None end
  else if Ascii.eqb c "}" then
    match open with Curly :: rest => Some (AfterValue, rest) | _ => None end
  else None.

Definition is_exponent_mark (c : ascii) : bool := Ascii.eqb c "e" || Ascii.eqb c "E".

Definition scan_step (p : Place) (open : list Bracket) (c : ascii)
  : option (Place * list Bracket) :=
  match p with
  | BeforeValue => if is_ws c then Some (BeforeValue, open) else start_value open c
  | BeforeFirstElement =>
      if is_ws c then Some (BeforeFirstElement, open)
      else if Ascii.eqb c "]" then
        match open with Square :: rest => Some (AfterValue, rest) | _ => None end
      else start_value open c
  | BeforeFirstMember =>
      if is_ws c then Some (BeforeFirstMember, open)
      else if Ascii.eqb c "}" then
        match open with Curly :: rest => Some (AfterValue, rest) | _ => None end
      else if Ascii.eqb c dquote then Some (InString true, open)
      else None
  | BeforeName =>
      if is_ws c then Some (BeforeName, open)
      else if Ascii.eqb c dquote then Some (InString true, open)
      else None
  | BeforeColon =>
      if is_ws c then Some (BeforeColon, open)
      else if Ascii.eqb c ":" then Some (BeforeValue, open)
      else None
  | AfterValue => after_value open c
  | InString name =>
      if Ascii.eqb c dquote then Some (if name then BeforeColon else AfterValue, open)
      else if Ascii.eqb c backslash then Some (InEscape name, open)
      else if (nat_of_ascii c <? 32)%nat then None
      else Some (InString name, open)
  | InEscape name =>
      if Ascii.eqb c "u" then Some (InHex name 4, open)
      else
        match unescape_simple c with
        | Some _ => Some (InString name, open)
        | None => None
        end
  | InHex name due =>
      if is_hex c then
        match due with
        | O => None
        | S O => Some (InString name, open)
        | S k => Some (InHex name k, open)
        end
      else None
  | InLiteral rest =>
      match rest with
      | String x rest' =>
          if Ascii.eqb c x then
            Some (match rest' with "" => AfterValue | _ => InLiteral rest' end, open)
          else None
      | "" => None
      end
  | AfterMinus =>
      if Ascii.eqb c "0" then Some (AfterZero, open)
      else if is_digit c then Some (InInteger, open)
      else None
  | AfterZero =>
      if Ascii.eqb c "." then Some (AfterPoint, open)
      else if is_exponent_mark c then Some (AfterE, open)
      else after_value open c
  | InInteger =>
      if is_digit c then Some (InInteger, open)
      else if Ascii.eqb c "." then Some (AfterPoint, open)
      else if is_exponent_mark c then Some (AfterE, open)
      else after_value open c
  | AfterPoint => if is_digit c then Some (InFraction, open) else None
  | InFraction =>
      if is_digit c then Some (InFraction, open)
      else if is_exponent_mark c then Some (AfterE, open)
      else after_value open c
  | AfterE =>
      if Ascii.eqb c "+" || Ascii.eqb c "-" then Some (AfterSign, open)
      else if is_digit c then Some (InExponent, open)
      else None
  | AfterSign => if is_digit c then Some (InExponent, open) else None
  | InExponent => if is_digit c then Some (InExponent, open) else after_value open c
  end.

(** The places where a text may end: after its one value. *)
Definition complete (p : Place) : bool :=
  match p with
  | AfterValue | AfterZero | InInteger | InFraction | InExponent => true
  | _ => false
  end.

Fixpoint scan (p : Place) (open : list Bracket) (s : string) : bool :=
  match s with
  | "" => complete p && match open with [] => true | _ :: _ => false end
  | String c s' =>
      match scan_step p open c with
      | Some (p', open') => scan p' open' s'
      | None => false
      end
  end.

Definition is_json (s : string) : bool := scan BeforeValue [] s.

(** The places that pass over white space. *)
Definition skips_ws (p : Place) : bool :=
  match p with
  | BeforeValue | BeforeFirstElement | BeforeFirstMember | BeforeName
  | BeforeColon | AfterValue => true
  | _ => false
  end.

(** What follows a printed value: the end of the text, a comma or a line
    break. *)
Definition delim (s : string) : bool :=
  match s with
  | "" => true
  | String c _ => Ascii.eqb c "," || (nat_of_ascii c =? 10)%nat
  end.

(** The first character of a printed value: not white space, and none of
    the closing brackets. *)
Definition value_head (s : string) : bool :=
  match s with
  | "" => false
  | String c _ => negb (is_ws c) && negb (Ascii.eqb c "]") && negb (Ascii.eqb c "}")
  end.

(** The first character of a number. *)
Definition number_head (c : ascii) : bool :=
  match digit_cons c with Some _ => true | None => Ascii.eqb c "-" end.

(** [v] is read back from its own text, whatever follows it. *)
Definition reads_back (v : json) : Prop :=
  forall (ind rest : string) (fuel : nat),
    all_ws ind = true -> delim rest = true -> (need v <= fuel)%nat ->
    parse_value fuel (stringify_at ind v +:+ rest) = Some (v, rest).

(* ===================================================================== *)
(** * 3. The host platform                                                  *)
(* ===================================================================== *)

(** The libraries [server.js] requires are interfaces here: [jsonwebtoken],
    [bcrypt], the regular expressions of the database's [$regex] operator
    and the [Date] object.  A function that can throw returns an option. *)

(** [jsonwebtoken] and [bcrypt]. *)
Class Crypto : Type := {
  (** [jwt.sign(payload, secret, { expiresIn })] called when the clock reads
      [now] (milliseconds); [expiresIn] is in seconds. *)
  jwt_sign : forall (payload : list (string * json)) (secret : string)
                    (expiresIn now : Z), option string;
  (** [jwt.verify(token, secret)] when the clock reads [now]: the payload,
      or [None] when it throws. *)
  jwt_verify : forall (token secret : string) (now : Z), option json;
  (** [bcrypt.hash(data, 10)] with the salt it drew. *)
  bcrypt_hash : forall (salt data : string), string;
  (** [bcrypt.compare(data, hash)]. *)
  bcrypt_compare : forall (data hash : string), bool
}.

(** [new RegExp(source, 'i')]: the strings it matches, or [None] when the
    source is no pattern (the constructor throws). *)
Class Regex : Type := {
  regex_i : forall (source : string), option (string -> bool)
}.

(** The database driver's reading of [{ username: v }] when [v] is no
    string: the stored names the cast filter selects, or [None] when the
    value cannot be cast (the query rejects). *)
Class Driver : Type := {
  cast_filter : forall (v : json), option (string -> bool)
}.

(** The [Date] object.  Time values are milliseconds since the epoch. *)
Class Calendar : Type := {
  (** The time value of [new Date(v)]; [None] is an invalid date. *)
  Date_value : option json -> option Z;
  (** [new Date(t).toISOString()]. *)
  toISOString : Z -> string;
  (** [new Date(t).getFullYear()]. *)
  getFullYear : Z -> Z;
  (** [new Date(t).getMonth()]. *)
  getMonth : Z -> Z;
  (** The time value after [d.setDate(d.getDate() - n)] for [d = new Date(t)]. *)
  setDate_back : forall (n t : Z), Z
}.

(** [JSON.stringify(v, null, 2)] and [JSON.parse] are built into the
    language.  The record store hands values to the one and texts to the
    other and looks into neither, so it is written over any values that
    come with the two; [null] is what [loadData] answers when it has no
    value.  [parse] gives [None] where [JSON.parse] throws. *)
Class Serializer (value : Type) : Type := {
  null : value;
  stringify : value -> string;
  parse : string -> option value
}.

(** The values of this model, with the printer and the reader of part 2. *)
#[export] Instance json_serializer : Serializer json :=
  {| null := JNull; stringify := JSON_stringify; parse := JSON_parse |}.

Definition day_ms : Z := 86400000.

(** A host whose local calendar days all have 24 hours (UTC, or a zone with
    no clock change in the window). *)
Definition whole_days `{Calendar} : Prop :=
  forall n t, setDate_back n t = t - n * day_ms.

(* ===================================================================== *)
(** * 4. State, errors and the handler monad                                *)
(* ===================================================================== *)

(** A document of the [User] collection, with the fields the login and
    reset handlers read or write.  The avatar, settings and mail template
    fields only style pages and mails and are left out. *)
Record User : Type := mkUser {
  _id : string;
  username : string;
  password : string;
  email : string;
  resetToken : option string;
  resetTokenExpires : option Z
}.

(** A mail handed to the transport: the reset mail, a fixed page around
    the reset link, or the notification of a new message. *)
Inductive Mail : Type :=
| ResetMail (to link : string)
| MessageNotification (message : json).

(** The data directory maps a file name to its content; [writes] lists
    the files [fs.writeFile] was called on, latest first; the collection
    keeps its documents in their natural order; [outbox] holds the mails
    the transport accepted, latest first; [ticks] counts the clock readings
    taken so far. *)
Record World : Type := mkWorld {
  disk : gmap string string;
  writes : list string;
  users : list User;
  outbox : list Mail;
  ticks : nat
}.

Definition set_disk (d : gmap string string) (w : World) : World :=
  {| disk := d; writes := writes w; users := users w; outbox := outbox w;
     ticks := ticks w |}.

Definition set_writes (l : list string) (w : World) : World :=
  {| disk := disk w; writes := l; users := users w; outbox := outbox w;
     ticks := ticks w |}.

Definition set_users (us : list User) (w : World) : World :=
  {| disk := disk w; writes := writes w; users := us; outbox := outbox w;
     ticks := ticks w |}.

Definition set_outbox (ms : list Mail) (w : World) : World :=
  {| disk := disk w; writes := writes w; users := users w; outbox := ms;
     ticks := ticks w |}.

Definition set_ticks (n : nat) (w : World) : World :=
  {| disk := disk w; writes := writes w; users := users w; outbox := outbox w;
     ticks := n |}.

(** What the surroundings decide during one request or one job run. *)
Record Env : Type := mkEnv {
  clock : nat -> Z;            (* the n-th reading of the clock *)
  write_ok : string -> bool;   (* does [fs.writeFile] on this file succeed *)
  mail_ok : bool;              (* does [transporter.sendMail] succeed *)
  port : string;               (* [process.env.PORT || 3001] *)
  asset_removed : string -> bool;
    (* do [fs.access] and [fs.unlink] on this path under [public/] succeed *)
  salt : string                (* the salt [bcrypt.hash] draws *)
}.

Inductive error : Type :=
| TypeError                    (* a method of a value that has none, a property of null *)
| Error (message : string).    (* [new Error(message)] and library errors *)

Inductive result (A : Type) : Type :=
| Ok (a : A)
| Throw (e : error).
Arguments Ok {A} a.
Arguments Throw {A} e.

(** Pure code that may throw. *)
Definition rbind {A B : Type} (r : result A) (k : A -> result B) : result B :=
  match r with
  | Ok a => k a
  | Throw e => Throw e
  end.

(** Code that reads the environment, changes the world and may throw. *)
Definition M (A : Type) : Type := Env -> World -> result A * World.

Definition ret {A : Type} (a : A) : M A := fun _ w => (Ok a, w).

Definition bind {A B : Type} (m : M A) (k : A -> M B) : M B :=
  fun env w =>
    match m env w with
    | (Ok a, w') => k a env w'
    | (Throw e, w') => (Throw e, w')
    end.

Definition throw {A : Type} (e : error) : M A := fun _ w => (Throw e, w).

(** [try { body } catch (e) { handler }]: what [body] did to the world
    before it threw stays done. *)
Definition try_catch {A : Type} (body : M A) (handler : error -> M A) : M A :=
  fun env w =>
    match body env w with
    | (Ok a, w') => (Ok a, w')
    | (Throw e, w') => handler e env w'
    end.

Definition lift {A : Type} (r : result A) : M A := fun _ w => (r, w).

Declare Scope handler_scope.
Delimit Scope handler_scope with handler.
Notation "x <- m ;; k" := (bind m (fun x => k))
  (at level 100, m at level 99, right associativity) : handler_scope.
Notation "m ;;; k" := (bind m (fun _ => k))
  (at level 100, right associativity) : handler_scope.
Local Open Scope handler_scope.

(** [Date.now()] / [new Date()]: the next reading of the clock. *)
Definition now : M Z :=
  fun env w =>
    (Ok (clock env (ticks w)), set_ticks (S (ticks w)) w).

(** An HTTP response: status and JSON body. *)
Record Response : Type := mkResponse {
  status : Z;
  body : json
}.

Definition json_response (code : Z) (b : json) : Response :=
  {| status := code; body := b |}.

(** [res.status(code).json({ error: message })]. *)
Definition error_response (code : Z) (message : string) : Response :=
  json_response code (JObj [("error", JStr message)]).

(** [res.json({ message })]. *)
Definition message_response (message : string) : Response :=
  json_response 200 (JObj [("message", JStr message)]).

(* ===================================================================== *)
(** * 5. The generic record store: [loadData] and [saveData]                *)
(* ===================================================================== *)

(** [fs.readFile(path.join(__dirname, 'data', filename))]: rejects when
    there is no such file. *)
Definition readFile (filename : string) : M string :=
  fun _ w =>
    match disk w !! filename with
    | Some data => (Ok data, w)
    | None => (Throw (Error "ENOENT"), w)
    end.

(** [fs.writeFile(path, text)]: the whole file is replaced, or the write
    is rejected and the file stays as it was. *)
Definition writeFile (filename text : string) : M unit :=
  fun env w =>
    let w1 := set_writes (filename :: writes w) w in
    if write_ok env filename then
      (Ok tt, set_disk (<[filename := text]> (disk w1)) w1)
    else (Throw (Error "EACCES"), w1).

(** [JSON.parse(data)], throwing on a syntax error. *)
Definition JSON_parse_throw {value : Type} `{Serializer value} (data : string) : M value :=
  match parse data with
  | Some v => ret v
  | None => throw (Error "SyntaxError")
  end.

(** [loadData] of [server.js]: the parsed content, [null] on any error. *)
Definition loadData {value : Type} `{Serializer value} (filename : string) : M value :=
  try_catch
    (data <- readFile filename ;;
     JSON_parse_throw data)
    (fun _ => ret null).

(** [saveData] of [server.js]: the pretty-printed value replaces the file;
    the boolean tells whether the write went through. *)
Definition saveData {value : Type} `{Serializer value} (filename : string) (data : value)
  : M bool :=
  try_catch
    (writeFile filename (stringify data) ;;;
     ret true)
    (fun _ => ret false).

(** [x || d]. *)
Definition or_else (x d : json) : json := if truthy x then x else d.

(** The states a data file can be in, as the model reads it: there is no
    such file, the file has a text the model reads no value from, or it
    has the text of a value. *)
Inductive FileState : Type :=
| Missing
| Unparsable (text : string)
| Parsed (v : json).

Definition file_state (d : gmap string string) (filename : string) : FileState :=
  match d !! filename with
  | None => Missing
  | Some text =>
      match JSON_parse text with
      | Some v => Parsed v
      | None => Unparsable text
      end
  end.

(** What [loadData] hands to its caller in each state. *)
Definition loaded_value (st : FileState) : json :=
  match st with
  | Parsed v => v
  | Missing | Unparsable _ => JNull
  end.

(* ===================================================================== *)
(** * 6. JavaScript strings and arrays as the handlers use them             *)
(* ===================================================================== *)

(** White space for [String.prototype.trim] and [parseInt]: WhiteSpace and
    LineTerminator of ECMAScript.  Strings are UTF-8 here, so a white-space
    code point is one, two or three bytes.  The one-byte ones: TAB, LF, VT,
    FF, CR and the space. *)
Definition is_js_space (c : ascii) : bool :=
  let n := nat_of_ascii c in ((9 <=? n) && (n <=? 13))%nat || (n =? 32)%nat.

(** U+00A0, the no-break space: [C2 A0]. *)
Definition is_js_space2 (c1 c2 : ascii) : bool :=
  ((nat_of_ascii c1 =? 194) && (nat_of_ascii c2 =? 160))%nat.

(** The three-byte ones: U+1680 [E1 9A 80]; U+2000 to U+200A
    [E2 80 80] to [E2 80 8A]; U+2028, U+2029 and U+202F [E2 80 A8],
    [E2 80 A9], [E2 80 AF]; U+205F [E2 81 9F]; U+3000 [E3 80 80]; and
    U+FEFF [EF BB BF]. *)
Definition is_js_space3 (c1 c2 c3 : ascii) : bool :=
  let a := nat_of_ascii c1 in
  let b := nat_of_ascii c2 in
  let c := nat_of_ascii c3 in
  ((a =? 225) && (b =? 154) && (c =? 128)
   || (a =? 226) && (b =? 128)
      && ((128 <=? c) && (c <=? 138) || (c =? 168) || (c =? 169) || (c =? 175))
   || (a =? 226) && (b =? 129) && (c =? 159)
   || (a =? 227) && (b =? 128) && (c =? 128)
   || (a =? 239) && (b =? 187) && (c =? 191))%nat.

Fixpoint ltrim (s : string) : string :=
  match s with
  | "" => ""
  | String c1 s1 =>
      if is_js_space c1 then ltrim s1
      else
        match s1 with
        | String c2 s2 =>
            if is_js_space2 c1 c2 then ltrim s2
            else
              match s2 with
              | String c3 s3 => if is_js_space3 c1 c2 c3 then ltrim s3 else s
              | "" => s
              end
        | "" => s
        end
  end.

(** A string ends where what is left of it is white space only. *)
Fixpoint rtrim (s : string) : string :=
  match s with
  | "" => ""
  | String c s' => if String.eqb (ltrim s) "" then "" else String c (rtrim s')
  end.

(** [s.trim()]. *)
Definition trim (s : string) : string := rtrim (ltrim s).

Definition has_key (k : string) (ms : list (string * json)) : bool :=
  match obj_get k ms with Some _ => true | None => false end.

(** The string a value turns into when it is added to or joined: an array
    joins its elements with commas, [null] elements giving nothing; an
    object gives [[object Object]], unless it has a [toString] property of
    its own, which a parsed object can only have as a value that cannot be
    called, and then the conversion throws. *)
Fixpoint js_text (v : json) : result string :=
  match v with
  | JNull => Ok "null"
  | JBool true => Ok "true"
  | JBool false => Ok "false"
  | JNum n => Ok (string_of_Z n)
  | JStr s => Ok s
  | JArr xs =>
      (fix texts (l : list json) : result string :=
         match l with
         | [] => Ok ""
         | x :: rest =>
             rbind (match x with JNull => Ok "" | _ => js_text x end) (fun s =>
             match rest with
             | [] => Ok s
             | _ :: _ => rbind (texts rest) (fun r => Ok (s +:+ "," +:+ r))
             end)
         end) xs
  | JObj ms => if has_key "toString" ms then Throw TypeError else Ok "[object Object]"
  end.

(** [s.split(c)] for a one-character separator. *)
Fixpoint split_on (c : ascii) (s : string) : list string :=
  match s with
  | "" => [""]
  | String x s' =>
      match split_on c s' with
      | p :: ps => if Ascii.eqb x c then "" :: p :: ps else String x p :: ps
      | [] => [String x ""]
      end
  end.

(** ToString of a parsed value, as [JSON.parse] and [parseInt] apply it to
    an argument that is no string. *)
Fixpoint to_String (v : json) : string :=
  match v with
  | JNull => "null"
  | JBool true => "true"
  | JBool false => "false"
  | JNum n => string_of_Z n
  | JStr s => s
  | JArr xs =>
      join "," (map (fun x => match x with JNull => "" | _ => to_String x end) xs)
  | JObj _ => "[object Object]"
  end.

(** ToString of a value that may be undefined. *)
Definition to_String_opt (v : option json) : string :=
  match v with Some x => to_String x | None => "undefined" end.

(** The digits of [s] in [radix] up to the first character that is none,
    most significant first, folded into [acc]; the boolean tells whether
    any digit was read. *)
Fixpoint read_radix (radix : nat) (s : string) (acc : Z) (any : bool) : Z * bool :=
  match s with
  | "" => (acc, any)
  | String c s' =>
      match hex_value c with
      | Some d =>
          if (d <? radix)%nat then read_radix radix s' (acc * Z.of_nat radix + Z.of_nat d) true
          else (acc, any)
      | None => (acc, any)
      end
  end.

(** [parseInt(s)]: [None] is NaN. *)
Definition parseInt (s : string) : option Z :=
  let s1 := ltrim s in
  let '(neg, s2) :=
    match s1 with
    | String c r =>
        if Ascii.eqb c "-" then (true, r)
        else if Ascii.eqb c "+" then (false, r) else (false, s1)
    | "" => (false, s1)
    end in
  let '(radix, s3) :=
    match s2 with
    | String z (String x r) =>
        if Ascii.eqb z "0" && (Ascii.eqb x "x" || Ascii.eqb x "X") then (16%nat, r)
        else (10%nat, s2)
    | _ => (10%nat, s2)
    end in
  match read_radix radix s3 0 false with
  | (n, true) => Some (if neg then - n else n)
  | (_, false) => None
  end.

(** A number that may be NaN, as it is serialized: NaN becomes [null]. *)
Definition number_or_null (n : option Z) : json :=
  match n with Some z => JNum z | None => JNull end.

(** An object literal: a property whose value is undefined is left out, as
    the serializer leaves it out of the file and of the response. *)
Fixpoint object_literal (fields : list (string * option json)) : list (string * json) :=
  match fields with
  | [] => []
  | (k, Some v) :: fs => (k, v) :: object_literal fs
  | (_, None) :: fs => object_literal fs
  end.

(** [v.k] inside a callback over the elements of an array: reading a
    property of [null] throws. *)
Definition member (k : string) (v : json) : result (option json) :=
  match v with
  | JNull => Throw TypeError
  | _ => Ok (prop k v)
  end.

(** The receiver of an array method ([filter], [find], [findIndex], [push],
    [unshift], [reduce]): any other value has no such method. *)
Definition as_array (v : json) : result (list json) :=
  match v with
  | JArr xs => Ok xs
  | _ => Throw TypeError
  end.

(** The receiver of a string method ([trim], [split]). *)
Definition as_string (v : json) : result string :=
  match v with
  | JStr s => Ok s
  | _ => Throw TypeError
  end.

(** [xs.filter(cb)]. *)
Fixpoint filter_r (cb : json -> result bool) (xs : list json) : result (list json) :=
  match xs with
  | [] => Ok []
  | x :: xs' =>
      rbind (cb x) (fun keep =>
      rbind (filter_r cb xs') (fun rest =>
      Ok (if keep then x :: rest else rest)))
  end.

(** [xs.findIndex(cb)]: [None] is [-1].  The callback is not run past the
    first hit. *)
Fixpoint findIndex_r (cb : json -> result bool) (xs : list json) : result (option nat) :=
  match xs with
  | [] => Ok None
  | x :: xs' =>
      rbind (cb x) (fun hit =>
      if hit then Ok (Some 0%nat)
      else rbind (findIndex_r cb xs') (fun r => Ok (option_map S r)))
  end.

(** [xs.find(cb)]: [None] is [undefined]. *)
Fixpoint find_r (cb : json -> result bool) (xs : list json) : result (option json) :=
  match xs with
  | [] => Ok None
  | x :: xs' =>
      rbind (cb x) (fun hit => if hit then Ok (Some x) else find_r cb xs')
  end.

(** [p => p.id === id]. *)
Definition id_is (id : string) (p : json) : result bool :=
  rbind (member "id" p) (fun v => Ok (strict_eq_str v id)).

(** [p => p.id !== id]. *)
Definition id_is_not (id : string) (p : json) : result bool :=
  rbind (member "id" p) (fun v => Ok (negb (strict_eq_str v id))).

(** [error.message]. *)
Definition message_of (e : error) : string :=
  match e with
  | TypeError => "TypeError"
  | Error m => m
  end.

(* ===================================================================== *)
(** * 7. Requests and the authentication middleware                         *)
(* ===================================================================== *)

Record Request : Type := mkRequest {
  authorization : option string;    (* the Authorization header *)
  params_id : string;               (* req.params.id *)
  req_body : list (string * json);  (* req.body *)
  req_file : option string          (* req.file.filename of a stored upload *)
}.

(** [req.body.k]. *)
Definition field (k : string) (req : Request) : option json :=
  obj_get k (req_body req).

Definition JWT_SECRET : string := "your-secret-key".

(** [Date.now().toString()]. *)
Definition fresh_id : M string :=
  t <- now ;; ret (string_of_Z t).

(** [new Date().toISOString()]. *)
Definition timestamp `{Calendar} : M string :=
  t <- now ;; ret (toISOString t).

(** [authenticateToken]: the handler runs only behind a bearer token that
    verifies. *)
Definition authenticateToken `{Crypto} (next : Request -> M Response)
  (req : Request) : M Response :=
  let token :=
    match authorization req with
    | Some authHeader =>
        if String.eqb authHeader "" then None
        else nth_error (split_on " " authHeader) 1
    | None => None
    end in
  match token with
  | Some tok =>
      if String.eqb tok "" then ret (error_response 401 "Authentication required")
      else
        t <- now ;;
        match jwt_verify tok JWT_SECRET t with
        | Some _ => next req
        | None => ret (error_response 403 "Invalid or expired token")
        end
  | None => ret (error_response 401 "Authentication required")
  end.

(* ===================================================================== *)
(** * 8. Projects                                                           *)
(* ===================================================================== *)

(** The [try] block of [GET /api/projects]. *)
Definition get_projects_try (req : Request) : M Response :=
  projects <- loadData "projects.json" ;;
  ret (json_response 200 (if isArray projects then projects else JArr [])).

(** [GET /api/projects]. *)
Definition get_projects (req : Request) : M Response :=
  try_catch
    (get_projects_try req)
    (fun _ => ret (error_response 500 "Failed to load projects")).

(** [GET /api/projects/:id]. *)
Definition get_project (req : Request) : M Response :=
  try_catch
    (projects <- loadData "projects.json" ;;
     match projects with
     | JArr xs =>
         found <- lift (find_r (id_is (params_id req)) xs) ;;
         match found with
         | Some project => ret (json_response 200 project)
         | None => ret (error_response 404 "Project not found")
         end
     | _ => ret (error_response 500 "Failed to load projects data")
     end)
    (fun _ => ret (error_response 500 "Failed to load project details")).

(** [req.body.technologies ? req.body.technologies.split(',').map(t =>
    t.trim()).filter(Boolean) : []]. *)
Definition technologies_list (v : option json) : result json :=
  if truthy_opt v then
    match v with
    | Some (JStr s) =>
        Ok (JArr (map JStr (List.filter (fun t => negb (String.eqb t ""))
                              (map trim (split_on "," s)))))
    | _ => Throw TypeError
    end
  else Ok (JArr []).

(** [x || d] for a value that may be undefined. *)
Definition or_default (x : option json) (d : json) : json :=
  match x with
  | Some v => or_else v d
  | None => d
  end.

(** [POST /api/projects], behind [authenticateToken] and the upload
    middleware. *)
Definition post_project `{Calendar} (req : Request) : M Response :=
  try_catch
    (loaded <- loadData "projects.json" ;;
     let projects := or_else loaded (JArr []) in
     let projectsArray := match projects with JArr xs => xs | _ => [] end in
     id <- fresh_id ;;
     technologies <- lift (technologies_list (field "technologies" req)) ;;
     createdAt <- timestamp ;;
     let newProject := JObj (object_literal
       [("id", Some (JStr id));
        ("title", field "title" req);
        ("description", field "description" req);
        ("technologies", Some technologies);
        ("image", Some (match req_file req with
                        | Some filename => JStr ("/assets/images/" +:+ filename)
                        | None => or_default (field "existingImage" req) JNull
                        end));
        ("githubLink", Some (or_default (field "githubLink" req) (JStr "")));
        ("liveLink", Some (or_default (field "liveLink" req) (JStr "")));
        ("createdAt", Some (JStr createdAt))]) in
     saved <- saveData "projects.json" (JArr (projectsArray ++ [newProject])) ;;
     if saved then ret (json_response 201 newProject)
     else throw (Error "Failed to save project data"))
    (fun _ => ret (error_response 500 "Failed to create project")).

(** [!v || v.trim() === ''] of the validation in [PUT /api/projects/:id]. *)
Definition blank (v : option json) : result bool :=
  if truthy_opt v then
    match v with
    | Some (JStr s) => Ok (String.eqb (trim s) "")
    | _ => Throw TypeError
    end
  else Ok true.

(** [v.trim()] for a field that passed the validation. *)
Definition trimmed (v : option json) : result json :=
  match v with
  | Some (JStr s) => Ok (JStr (trim s))
  | _ => Throw TypeError
  end.

(** [arr[index] = x]. *)
Definition set_nth (index : nat) (x : json) (xs : list json) : list json :=
  <[index := x]> xs.

(** The members of [arr[index]] once [index] came out of [findIndex] on
    [p.id === id]: an element with an [id] is an object. *)
Definition members_at (index : nat) (xs : list json) : list (string * json) :=
  match xs !! index with
  | Some (JObj ms) => ms
  | _ => []
  end.

(** [path.join(__dirname, '..', 'public', v)]: throws unless [v] is a
    string. *)
Definition public_path (v : option json) : result string :=
  match v with
  | Some (JStr s) => Ok s
  | _ => Throw TypeError
  end.

(** The image of an updated project: the new upload, else the path the
    form sent back, else the stored one.  On a new upload the old image
    file is removed inside a [try]; its [catch] block logs [oldFilePath],
    a constant of the [try] block that is out of scope there, so any
    failure to remove the file leaves the handler with a ReferenceError. *)
Definition updated_image (req : Request) (old : list (string * json)) : M json :=
  match req_file req with
  | Some filename =>
      let image := "/assets/images/" +:+ filename in
      let oldImagePath := obj_get "image" old in
      if truthy_opt oldImagePath && negb (strict_eq_str oldImagePath image) then
        fun env w =>
          match public_path oldImagePath with
          | Ok oldFilePath =>
              if asset_removed env oldFilePath then (Ok (JStr image), w)
              else (Throw (Error "oldFilePath is not defined"), w)
          | Throw _ => (Throw (Error "oldFilePath is not defined"), w)
          end
      else ret (JStr image)
  | None =>
      let existingImage := field "existingImage" req in
      if truthy_opt existingImage then
        match existingImage with
        | Some (JStr s) =>
            if negb (String.eqb s "undefined") && negb (String.eqb s "null")
               && negb (String.eqb (trim s) "")
            then ret (JStr s)
            else ret (or_default (obj_get "image" old) JNull)
        | _ => throw TypeError
        end
      else ret (or_default (obj_get "image" old) JNull)
  end.

(** [PUT /api/projects/:id], behind [authenticateToken] and the upload
    middleware. *)
Definition put_project `{Calendar} (req : Request) : M Response :=
  try_catch
    (loaded <- loadData "projects.json" ;;
     match or_else loaded (JArr []) with
     | JArr projects =>
         found <- lift (findIndex_r (id_is (params_id req)) projects) ;;
         match found with
         | None => ret (error_response 404 "Project not found")
         | Some index =>
             no_title <- lift (blank (field "title" req)) ;;
             no_description <- lift (blank (field "description" req)) ;;
             no_technologies <- lift (blank (field "technologies" req)) ;;
             let errors :=
               (if no_title then ["Title is required."] else []) ++
               (if no_description then ["Description is required."] else []) ++
               (if no_technologies then ["Technologies are required."] else []) in
             match errors with
             | _ :: _ =>
                 ret (error_response 400 ("Validation failed: " +:+ join " " errors))
             | [] =>
                 let old := members_at index projects in
                 title <- lift (trimmed (field "title" req)) ;;
                 description <- lift (trimmed (field "description" req)) ;;
                 technologies <- lift (technologies_list (field "technologies" req)) ;;
                 updatedAt <- timestamp ;;
                 image <- updated_image req old ;;
                 let updatedProjectData :=
                   obj_set "image" image
                     (obj_spread old
                        [("title", title);
                         ("description", description);
                         ("technologies", technologies);
                         ("githubLink", or_default (field "githubLink" req) (JStr ""));
                         ("liveLink", or_default (field "liveLink" req) (JStr ""));
                         ("updatedAt", JStr updatedAt)]) in
                 saved <- saveData "projects.json"
                            (JArr (set_nth index (JObj updatedProjectData) projects)) ;;
                 if saved then ret (json_response 200 (JObj updatedProjectData))
                 else throw (Error "Failed to save updated project data to projects.json")
             end
         end
     | _ => ret (error_response 500 "Failed to load projects data for update")
     end)
    (fun e => ret (error_response 500
                     (if String.eqb (message_of e) ""
                      then "Failed to update project. Check server logs."
                      else message_of e))).

(** [DELETE /api/projects/:id], behind [authenticateToken]. *)
Definition delete_project (req : Request) : M Response :=
  try_catch
    (loaded <- loadData "projects.json" ;;
     projects <- lift (as_array (or_else loaded (JArr []))) ;;
     filteredProjects <- lift (filter_r (id_is_not (params_id req)) projects) ;;
     if (length projects =? length filteredProjects)%nat
     then ret (error_response 404 "Project not found")
     else
       saveData "projects.json" (JArr filteredProjects) ;;;
       ret (message_response "Project deleted successfully"))
    (fun _ => ret (error_response 500 "Failed to delete project")).

(* ===================================================================== *)
(** * 9. Education                                                          *)
(* ===================================================================== *)

(** [GET /api/public/education] and, behind [authenticateToken],
    [GET /api/education]. *)
Definition get_education (req : Request) : M Response :=
  try_catch
    (education <- loadData "education.json" ;;
     ret (json_response 200 (or_else education (JArr []))))
    (fun _ => ret (error_response 500 "Failed to load education entries")).

(** [GET /api/education/:id], behind [authenticateToken]. *)
Definition get_education_entry (req : Request) : M Response :=
  try_catch
    (loaded <- loadData "education.json" ;;
     education <- lift (as_array (or_else loaded (JArr []))) ;;
     found <- lift (find_r (id_is (params_id req)) education) ;;
     match found with
     | Some entry => ret (json_response 200 entry)
     | None => ret (error_response 404 "Education entry not found")
     end)
    (fun _ => ret (error_response 500 "Failed to load education entry")).

(** The arrays a form sends as JSON text:
    [try { x = v ? JSON.parse(v) : [] } catch (e) { x = v ? v.split(',').map(h
    => h.trim()) : [] }]. *)
Definition parse_list (v : option json) : result json :=
  if truthy_opt v then
    match JSON_parse (to_String_opt v) with
    | Some parsed => Ok parsed
    | None =>
        match v with
        | Some (JStr s) => Ok (JArr (map JStr (map trim (split_on "," s))))
        | _ => Throw TypeError
        end
    end
  else Ok (JArr []).

(** [o[k] = v] where [v] may be undefined: the serializer drops such a
    property. *)
Definition obj_assign (k : string) (v : option json) (ms : list (string * json))
  : list (string * json) :=
  match v with
  | Some x => obj_set k x ms
  | None => List.filter (fun kv => negb (String.eqb (fst kv) k)) ms
  end.

(** [req.body.isCurrent === 'true']. *)
Definition is_true_text (v : option json) : json :=
  JBool (strict_eq_str v "true").

(** [POST /api/education], behind [authenticateToken] and the certificate
    upload. *)
Definition post_education `{Calendar} (req : Request) : M Response :=
  try_catch
    (loaded <- loadData "education.json" ;;
     let education := or_else loaded (JArr []) in
     highlights <- lift (parse_list (field "highlights" req)) ;;
     skills <- lift (parse_list (field "skills" req)) ;;
     id <- fresh_id ;;
     createdAt <- timestamp ;;
     let newEntry := object_literal
       [("id", Some (JStr id));
        ("year", Some (number_or_null (parseInt (to_String_opt (field "year" req)))));
        ("title", field "title" req);
        ("institution", field "institution" req);
        ("description", Some (or_default (field "description" req) (JStr "")));
        ("highlights", Some highlights);
        ("skills", Some skills);
        ("isCurrent", Some (is_true_text (field "isCurrent" req)));
        ("createdAt", Some (JStr createdAt))] in
     let newEntry :=
       match req_file req with
       | Some filename => obj_set "certificate" (JStr ("/assets/certificates/" +:+ filename)) newEntry
       | None => newEntry
       end in
     entries <- lift (as_array education) ;;
     saveData "education.json" (JArr (entries ++ [JObj newEntry])) ;;;
     ret (json_response 200 (JObj newEntry)))
    (fun _ => ret (error_response 500 "Failed to create education entry")).

(** Removing a stored certificate file: the path is joined outside the
    inner [try], the removal itself never throws. *)
Definition remove_certificate (old : list (string * json)) : result unit :=
  if truthy_opt (obj_get "certificate" old) then
    rbind (public_path (obj_get "certificate" old)) (fun _ => Ok tt)
  else Ok tt.

(** [PUT /api/education/:id], behind [authenticateToken] and the
    certificate upload. *)
Definition put_education `{Calendar} (req : Request) : M Response :=
  try_catch
    (loaded <- loadData "education.json" ;;
     education <- lift (as_array (or_else loaded (JArr []))) ;;
     found <- lift (findIndex_r (id_is (params_id req)) education) ;;
     match found with
     | None => ret (error_response 404 "Education entry not found")
     | Some index =>
         highlights <- lift (parse_list (field "highlights" req)) ;;
         skills <- lift (parse_list (field "skills" req)) ;;
         let old := members_at index education in
         updatedAt <- timestamp ;;
         let updatedEntry :=
           obj_set "updatedAt" (JStr updatedAt)
             (obj_set "isCurrent" (is_true_text (field "isCurrent" req))
                (obj_set "skills" skills
                   (obj_set "highlights" highlights
                      (obj_set "description" (or_default (field "description" req) (JStr ""))
                         (obj_assign "institution" (field "institution" req)
                            (obj_assign "title" (field "title" req)
                               (obj_set "year"
                                  (number_or_null (parseInt (to_String_opt (field "year" req))))
                                  old))))))) in
         updatedEntry <-
           match req_file req with
           | Some filename =>
               lift (remove_certificate old) ;;;
               ret (obj_set "certificate" (JStr ("/assets/certificates/" +:+ filename))
                      updatedEntry)
           | None =>
               let certificate := field "certificate" req in
               if truthy_opt certificate && negb (strict_eq_str certificate "undefined")
               then ret (obj_assign "certificate" certificate updatedEntry)
               else ret updatedEntry
           end ;;
         saveData "education.json" (JArr (set_nth index (JObj updatedEntry) education)) ;;;
         ret (json_response 200 (JObj updatedEntry))
     end)
    (fun _ => ret (error_response 500 "Failed to update education entry")).

(** [DELETE /api/education/:id], behind [authenticateToken]. *)
Definition delete_education (req : Request) : M Response :=
  try_catch
    (loaded <- loadData "education.json" ;;
     education <- lift (as_array (or_else loaded (JArr []))) ;;
     found <- lift (find_r (id_is (params_id req)) education) ;;
     match found with
     | None => ret (error_response 404 "Education entry not found")
     | Some entryToDelete =>
         lift (remove_certificate
                 (match entryToDelete with JObj ms => ms | _ => [] end)) ;;;
         filteredEducation <- lift (filter_r (id_is_not (params_id req)) education) ;;
         saveData "education.json" (JArr filteredEducation) ;;;
         ret (message_response "Education entry deleted successfully")
     end)
    (fun _ => ret (error_response 500 "Failed to delete education entry")).

(* ===================================================================== *)
(** * 10. Technologies (on [skills.json])                                   *)
(* ===================================================================== *)

(** [GET /api/technologies], behind [authenticateToken]. *)
Definition get_technologies (req : Request) : M Response :=
  try_catch
    (skills <- loadData "skills.json" ;;
     ret (json_response 200 (or_else skills (JArr []))))
    (fun _ => ret (error_response 500 "Failed to load technologies")).

(** [{ id: Date.now().toString(), ...req.body, createdAt: new
    Date().toISOString() }]. *)
Definition new_record `{Calendar} (req : Request) : M (list (string * json)) :=
  id <- fresh_id ;;
  createdAt <- timestamp ;;
  ret (obj_set "createdAt" (JStr createdAt)
         (obj_spread [("id", JStr id)] (req_body req))).

(** [{ ...old, ...req.body, updatedAt: new Date().toISOString() }]. *)
Definition merged_record `{Calendar} (old : list (string * json)) (req : Request)
  : M (list (string * json)) :=
  updatedAt <- timestamp ;;
  ret (obj_set "updatedAt" (JStr updatedAt) (obj_spread old (req_body req))).

(** [POST /api/technologies], behind [authenticateToken]. *)
Definition post_technology `{Calendar} (req : Request) : M Response :=
  try_catch
    (loaded <- loadData "skills.json" ;;
     let skills := or_else loaded (JArr []) in
     newSkill <- new_record req ;;
     entries <- lift (as_array skills) ;;
     saveData "skills.json" (JArr (entries ++ [JObj newSkill])) ;;;
     ret (json_response 200 (JObj newSkill)))
    (fun _ => ret (error_response 500 "Failed to create technology")).

(** [PUT /api/technologies/:id], behind [authenticateToken]. *)
Definition put_technology `{Calendar} (req : Request) : M Response :=
  try_catch
    (loaded <- loadData "skills.json" ;;
     skills <- lift (as_array (or_else loaded (JArr []))) ;;
     found <- lift (findIndex_r (id_is (params_id req)) skills) ;;
     match found with
     | None => ret (error_response 404 "Technology not found")
     | Some index =>
         updatedSkill <- merged_record (members_at index skills) req ;;
         saveData "skills.json" (JArr (set_nth index (JObj updatedSkill) skills)) ;;;
         ret (json_response 200 (JObj updatedSkill))
     end)
    (fun _ => ret (error_response 500 "Failed to update technology")).

(** [DELETE /api/technologies/:id], behind [authenticateToken]: the rest
    is saved under a [skills] property. *)
Definition delete_technology (req : Request) : M Response :=
  try_catch
    (loaded <- loadData "skills.json" ;;
     skills <- lift (as_array (or_else loaded (JArr []))) ;;
     filteredSkills <- lift (filter_r (id_is_not (params_id req)) skills) ;;
     if (length skills =? length filteredSkills)%nat
     then ret (error_response 404 "Technology not found")
     else
       saveData "skills.json" (JObj [("skills", JArr filteredSkills)]) ;;;
       ret (message_response "Technology deleted successfully"))
    (fun _ => ret (error_response 500 "Failed to delete technology")).

(* ===================================================================== *)
(** * 11. Skills (on [skills.json], under a [skills] property)              *)
(* ===================================================================== *)

Definition empty_skills : json := JObj [("skills", JArr [])].

(** [GET /api/skills]. *)
Definition get_skills (req : Request) : M Response :=
  try_catch
    (skills <- loadData "skills.json" ;;
     ret (json_response 200 (or_else skills empty_skills)))
    (fun _ => ret (error_response 500 "Failed to load skills data")).

(** [!skills || !skills.skills]. *)
Definition no_skills (skills : json) : bool :=
  negb (truthy skills) || negb (truthy_opt (prop "skills" skills)).

(** [skills.skills] as the receiver of an array method. *)
Definition skills_array (skills : json) : result (list json) :=
  match prop "skills" skills with
  | Some v => as_array v
  | None => Throw TypeError
  end.

(** [skills.skills = xs] on the loaded object. *)
Definition with_skills (skills : json) (xs : list json) : json :=
  match skills with
  | JObj ms => JObj (obj_set "skills" (JArr xs) ms)
  | _ => skills
  end.

(** [GET /api/skills/:id], behind [authenticateToken]. *)
Definition get_skill (req : Request) : M Response :=
  try_catch
    (skills <- loadData "skills.json" ;;
     if no_skills skills then ret (error_response 404 "Skills data not found")
     else
       entries <- lift (skills_array skills) ;;
       found <- lift (find_r (id_is (params_id req)) entries) ;;
       match found with
       | Some skill => ret (json_response 200 (JObj [("skill", skill)]))
       | None => ret (error_response 404 "Skill not found")
       end)
    (fun _ => ret (error_response 500 "Failed to load skill data")).

(** [POST /api/skills], behind [authenticateToken]. *)
Definition post_skill `{Calendar} (req : Request) : M Response :=
  try_catch
    (loaded <- loadData "skills.json" ;;
     let skills := or_else loaded empty_skills in
     newSkill <- new_record req ;;
     entries <- lift (skills_array skills) ;;
     saveData "skills.json" (with_skills skills (entries ++ [JObj newSkill])) ;;;
     ret (json_response 200 (JObj newSkill)))
    (fun _ => ret (error_response 500 "Failed to create skill")).

(** [PUT /api/skills/:id], behind [authenticateToken]. *)
Definition put_skill `{Calendar} (req : Request) : M Response :=
  try_catch
    (skills <- loadData "skills.json" ;;
     if no_skills skills then ret (error_response 404 "Skills data not found")
     else
       entries <- lift (skills_array skills) ;;
       found <- lift (findIndex_r (id_is (params_id req)) entries) ;;
       match found with
       | None => ret (error_response 404 "Skill not found")
       | Some index =>
           updated <- merged_record (members_at index entries) req ;;
           saveData "skills.json"
             (with_skills skills (set_nth index (JObj updated) entries)) ;;;
           ret (json_response 200 (JObj updated))
       end)
    (fun _ => ret (error_response 500 "Failed to update skill")).

(** [DELETE /api/skills/:id], behind [authenticateToken]. *)
Definition delete_skill (req : Request) : M Response :=
  try_catch
    (skills <- loadData "skills.json" ;;
     if no_skills skills then ret (error_response 404 "Skills data not found")
     else
       entries <- lift (skills_array skills) ;;
       filteredSkills <- lift (filter_r (id_is_not (params_id req)) entries) ;;
       if (length filteredSkills =? length entries)%nat
       then ret (error_response 404 "Skill not found")
       else
         saveData "skills.json" (JObj [("skills", JArr filteredSkills)]) ;;;
         ret (message_response "Skill deleted successfully"))
    (fun _ => ret (error_response 500 "Failed to delete skill")).

(* ===================================================================== *)
(** * 12. Messages                                                          *)
(* ===================================================================== *)

(** [transporter.sendMail(mailOptions)]. *)
Definition sendMail (mail : Mail) : M unit :=
  fun env w =>
    if mail_ok env then (Ok tt, set_outbox (mail :: outbox w) w)
    else (Throw (Error "sendMail"), w).

(** [`${x}`]: the text of a substitution of a template literal. *)
Definition template_text (x : option json) : result string :=
  match x with
  | None => Ok "undefined"
  | Some v => js_text v
  end.

Fixpoint template_texts (xs : list (option json)) : result (list string) :=
  match xs with
  | [] => Ok []
  | x :: rest =>
      rbind (template_text x) (fun s =>
      rbind (template_texts rest) (fun ss => Ok (s :: ss)))
  end.

(** The substitutions of [mailOptions], in the order its template literals
    evaluate them: the name for the subject, then for the body the name, the
    address, the company or ['Not specified'], the project type, the
    timeline and the message.  One that cannot be turned into a string
    throws. *)
Definition notification_texts (newMessage : list (string * json))
  : result (list string) :=
  template_texts
    [obj_get "name" newMessage;
     obj_get "name" newMessage;
     obj_get "email" newMessage;
     Some (or_default (obj_get "company" newMessage) (JStr "Not specified"));
     obj_get "projectType" newMessage;
     obj_get "timeline" newMessage;
     obj_get "message" newMessage].

(** [POST /api/messages]: the message is saved, the notification is put
    together, then it is mailed. *)
Definition post_message `{Calendar} (req : Request) : M Response :=
  try_catch
    (loaded <- loadData "messages.json" ;;
     let messages := or_else loaded (JArr []) in
     record <- new_record req ;;
     let newMessage := obj_set "read" (JBool false) record in
     entries <- lift (as_array messages) ;;
     saveData "messages.json" (JArr (JObj newMessage :: entries)) ;;;
     lift (notification_texts newMessage) ;;;
     sendMail (MessageNotification (JObj newMessage)) ;;;
     ret (json_response 201 (JObj newMessage)))
    (fun _ => ret (error_response 500 "Failed to create message")).

(** [new Date(b.createdAt) - new Date(a.createdAt)]: [None] is NaN. *)
Definition newer_first `{Calendar} (a b : json) : result (option Z) :=
  rbind (member "createdAt" b) (fun cb =>
  rbind (member "createdAt" a) (fun ca =>
  Ok (match Date_value cb, Date_value ca with
      | Some tb, Some ta => Some (tb - ta)
      | _, _ => None
      end))).

(** One step of a stable sort: [x] goes before the first element the
    comparator puts it strictly before. *)
Fixpoint insert_sorted (cmp : json -> json -> result (option Z)) (x : json)
  (sorted : list json) : result (list json) :=
  match sorted with
  | [] => Ok [x]
  | y :: rest =>
      rbind (cmp x y) (fun c =>
      match c with
      | Some d =>
          if (d <? 0)%Z then Ok (x :: y :: rest)
          else rbind (insert_sorted cmp x rest) (fun r => Ok (y :: r))
      | None => rbind (insert_sorted cmp x rest) (fun r => Ok (y :: r))
      end)
  end.

(** [messages.sort(cmp)] as a stable sort; on dates that are all valid the
    comparator is an order and every stable sort gives this list. *)
Definition sort_r (cmp : json -> json -> result (option Z)) (xs : list json)
  : result (list json) :=
  fold_left (fun acc x => rbind acc (insert_sorted cmp x)) xs (Ok []).

(** [GET /api/messages], behind [authenticateToken]. *)
Definition get_messages `{Calendar} (req : Request) : M Response :=
  try_catch
    (loaded <- loadData "messages.json" ;;
     messages <- lift (as_array (or_else loaded (JArr []))) ;;
     sorted <- lift (sort_r newer_first messages) ;;
     ret (json_response 200 (JArr sorted)))
    (fun _ => ret (error_response 500 "Failed to load messages")).

(** [m => !m.read]. *)
Definition unread (m : json) : result bool :=
  rbind (member "read" m) (fun v => Ok (negb (truthy_opt v))).

(** [GET /api/messages/unread-count], behind [authenticateToken]. *)
Definition get_unread_count (req : Request) : M Response :=
  try_catch
    (loaded <- loadData "messages.json" ;;
     messages <- lift (as_array (or_else loaded (JArr []))) ;;
     unreadMessages <- lift (filter_r unread messages) ;;
     ret (json_response 200 (JObj [("count", JNum (Z.of_nat (length unreadMessages)))])))
    (fun _ => ret (error_response 500 "Failed to get unread count")).

(** [GET /api/messages/:id], behind [authenticateToken]. *)
Definition get_message (req : Request) : M Response :=
  try_catch
    (loaded <- loadData "messages.json" ;;
     messages <- lift (as_array (or_else loaded (JArr []))) ;;
     found <- lift (find_r (id_is (params_id req)) messages) ;;
     match found with
     | Some message => ret (json_response 200 message)
     | None => ret (error_response 404 "Message not found")
     end)
    (fun _ => ret (error_response 500 "Failed to load message")).

(** [PUT /api/messages/:id/read], behind [authenticateToken]. *)
Definition put_message_read `{Calendar} (req : Request) : M Response :=
  try_catch
    (loaded <- loadData "messages.json" ;;
     messages <- lift (as_array (or_else loaded (JArr []))) ;;
     found <- lift (findIndex_r (id_is (params_id req)) messages) ;;
     match found with
     | None => ret (error_response 404 "Message not found")
     | Some index =>
         readAt <- timestamp ;;
         let message :=
           JObj (obj_set "readAt" (JStr readAt)
                   (obj_set "read" (JBool true) (members_at index messages))) in
         saveData "messages.json" (JArr (set_nth index message messages)) ;;;
         ret (json_response 200 message)
     end)
    (fun _ => ret (error_response 500 "Failed to mark message as read")).

(** [DELETE /api/messages/:id], behind [authenticateToken]. *)
Definition delete_message (req : Request) : M Response :=
  try_catch
    (loaded <- loadData "messages.json" ;;
     messages <- lift (as_array (or_else loaded (JArr []))) ;;
     filteredMessages <- lift (filter_r (id_is_not (params_id req)) messages) ;;
     if (length messages =? length filteredMessages)%nat
     then ret (error_response 404 "Message not found")
     else
       saveData "messages.json" (JArr filteredMessages) ;;;
       ret (message_response "Message deleted successfully"))
    (fun _ => ret (error_response 500 "Failed to delete message")).

(* ===================================================================== *)
(** * 13. The archival job ([utils/archiveMessages.js])                     *)
(* ===================================================================== *)

Module archiveMessages.

(** [loadData] of the job: [null] when the file is missing and on any
    other error. *)
Definition loadData {value : Type} `{Serializer value} (filename : string) : M value :=
  try_catch
    (data <- readFile filename ;;
     JSON_parse_throw data)
    (fun _ => ret null).

(** [saveData] of the job: the directory is made sure of, then the file
    is replaced; [write_ok] stands for both steps. *)
Definition saveData {value : Type} `{Serializer value} (filename : string) (data : value)
  : M bool :=
  try_catch
    (writeFile filename (stringify data) ;;;
     ret true)
    (fun _ => ret false).

(** [messageDate < thirtyDaysAgo && message.read] for one message. *)
Definition is_old `{Calendar} (thirtyDaysAgo : Z) (message : json) : result bool :=
  rbind (member "createdAt" message) (fun createdAt =>
  match Date_value createdAt with
  | Some messageDate =>
      if (messageDate <? thirtyDaysAgo)%Z
      then Ok (truthy_opt (prop "read" message))
      else Ok false
  | None => Ok false
  end).

(** The [reduce] that sorts the messages into [oldMessages] and
    [currentMessages], each in the order of the file. *)
Fixpoint split_messages (old : json -> result bool) (messages : list json)
  : result (list json * list json) :=
  match messages with
  | [] => Ok ([], [])
  | message :: rest =>
      rbind (old message) (fun o =>
      rbind (split_messages old rest) (fun acc =>
      Ok (if o then (message :: fst acc, snd acc)
          else (fst acc, message :: snd acc))))
  end.

Definition archive_name `{Calendar} (t : Z) : string :=
  "message-archive-" +:+ string_of_Z (getFullYear t) +:+ ".json".

(** [archiveOldMessages]. *)
Definition archiveOldMessages `{Calendar} : M unit :=
  try_catch
    (loaded <- loadData "messages.json" ;;
     let messages := or_else loaded (JArr []) in
     t <- now ;;
     let thirtyDaysAgo := setDate_back 30 t in
     entries <- lift (as_array messages) ;;
     parts <- lift (split_messages (is_old thirtyDaysAgo) entries) ;;
     let oldMessages := fst parts in
     let currentMessages := snd parts in
     match oldMessages with
     | [] => ret tt
     | _ :: _ =>
         t' <- now ;;
         let archiveFile := archive_name t' in
         loadedArchive <- loadData archiveFile ;;
         archive <- lift (as_array (or_else loadedArchive (JArr []))) ;;
         saveData archiveFile (JArr (archive ++ oldMessages)) ;;;
         saveData "messages.json" (JArr currentMessages) ;;;
         ret tt
     end)
    (fun _ => ret tt).

End archiveMessages.

(* ===================================================================== *)
(** * 14. Accounts: login and the password-reset flow                       *)
(* ===================================================================== *)

(** [User.find(filter)] and [User.findOne(filter)] on the collection. *)
Definition find_users (selects : User -> bool) : M (list User) :=
  fun _ w => (Ok (List.filter selects (users w)), w).

Definition findOne_user (selects : User -> bool) : M (option User) :=
  fun _ w => (Ok (List.find selects (users w)), w).

(** [user.save()]: the stored document with this [_id] is replaced. *)
Definition save_user (user : User) : M unit :=
  fun _ w =>
    (Ok tt,
     set_users (map (fun u => if String.eqb (_id u) (_id user) then user else u)
                  (users w)) w).

(** [bcrypt.hash(data, 10)] with the salt of this request. *)
Definition hash_with_salt `{Crypto} (data : string) : M string :=
  fun env w => (Ok (bcrypt_hash (salt env) data), w).

(** [jwt.sign(payload, JWT_SECRET, { expiresIn: '1h' })]: reads the clock
    for the issue time; [None] when it throws. *)
Definition sign_1h `{Crypto} (payload : list (string * json)) : M (option string) :=
  t <- now ;; ret (jwt_sign payload JWT_SECRET 3600 t).

Definition reset_payload (user : User) : list (string * json) :=
  [("userId", JStr (_id user)); ("email", JStr (email user))].

Definition session_payload (user : User) : list (string * json) :=
  [("userId", JStr (_id user)); ("username", JStr (username user))].

(** The characters [encodeURIComponent] leaves as they are. *)
Definition uri_unreserved (c : ascii) : bool :=
  let n := nat_of_ascii c in
  ((48 <=? n) && (n <=? 57))%nat || ((65 <=? n) && (n <=? 90))%nat ||
  ((97 <=? n) && (n <=? 122))%nat ||
  (n =? 45)%nat || (n =? 95)%nat || (n =? 46)%nat || (n =? 33)%nat ||
  (n =? 126)%nat || (n =? 42)%nat || (n =? 39)%nat || (n =? 40)%nat || (n =? 41)%nat.

Definition upper_hex (n : nat) : ascii :=
  if (n <? 10)%nat then ascii_of_nat (48 + n) else ascii_of_nat (55 + n).

(** [encodeURIComponent] on the bytes of a string. *)
Fixpoint encodeURIComponent (s : string) : string :=
  match s with
  | "" => ""
  | String c s' =>
      if uri_unreserved c then String c (encodeURIComponent s')
      else
        let n := nat_of_ascii c in
        String "%" (String (upper_hex (n / 16)) (String (upper_hex (n mod 16))
          (encodeURIComponent s')))
  end.

(** The link of the reset mail: the first 64 characters of the token. *)
Definition shortResetUrl (env_port resetToken : string) : string :=
  "http://localhost:" +:+ env_port +:+ "/reset-password.html?t=" +:+
  encodeURIComponent (String.substring 0 64 resetToken).

Definition get_port : M string := fun env w => (Ok (port env), w).

(** [POST /api/auth/request-password-reset]. *)
Definition request_password_reset `{Crypto} `{Regex} (req : Request) : M Response :=
  try_catch
    (let email_v := field "email" req in
     if negb (truthy_opt email_v) then ret (error_response 400 "Email is required")
     else
       match regex_i ("^" +:+ to_String_opt email_v +:+ "$") with
       | None => throw (Error "SyntaxError")
       | Some matches =>
           found <- findOne_user (fun u => matches (email u)) ;;
           match found with
           | None => ret (error_response 404 "No account found with this email address.")
           | Some user =>
               signed <- sign_1h (reset_payload user) ;;
               match signed with
               | None => throw (Error "jwt")
               | Some resetToken_v =>
                   hashedToken <- hash_with_salt resetToken_v ;;
                   t <- now ;;
                   save_user {| _id := _id user; username := username user;
                                password := password user; email := email user;
                                resetToken := Some hashedToken;
                                resetTokenExpires := Some (t + 3600000) |} ;;;
                   p <- get_port ;;
                   year <- now ;;
                   try_catch
                     (sendMail (ResetMail (to_String_opt email_v)
                                  (shortResetUrl p resetToken_v)) ;;;
                      ret (message_response
                        "If your email is registered, you will receive a password reset link shortly."))
                     (fun _ => ret (error_response 500 "Could not send password reset email."))
               end
           end
       end)
    (fun _ => ret (error_response 500 "An error occurred during the password reset process.")).

(** The loop of the consume endpoint: for each candidate in turn a token is
    signed afresh from its id and email, and the first one whose leading
    64 characters are the received token is the match; a signing error
    skips the candidate. *)
Fixpoint match_candidate `{Crypto} (token : string) (candidates : list User)
  : M (option User) :=
  match candidates with
  | [] => ret None
  | user :: rest =>
      signed <- sign_1h (reset_payload user) ;;
      match signed with
      | Some sampleToken =>
          if String.eqb token (String.substring 0 64 sampleToken)
          then ret (Some user)
          else match_candidate token rest
      | None => match_candidate token rest
      end
  end.

(** The filter of the candidate query at clock reading [t]:
    [{ resetToken: { $exists: true }, resetTokenExpires: { $gt: t } }]. *)
Definition active_reset (t : Z) (u : User) : bool :=
  match resetToken u, resetTokenExpires u with
  | Some _, Some expires => (t <? expires)%Z
  | _, _ => false
  end.

(** [!user.resetToken || !user.resetTokenExpires || new Date() >
    user.resetTokenExpires]; the clock is read only when both fields are
    there. *)
Definition reset_expired (user : User) : M bool :=
  match resetToken user, resetTokenExpires user with
  | Some h, Some expires =>
      if String.eqb h "" then ret true
      else t <- now ;; ret (expires <? t)%Z
  | _, _ => ret true
  end.

(** The end of the consume endpoint, once the loop has named
    [matchedUser]: the no-match answer, the expiry check, the new password. *)
Definition consume_reset `{Crypto} (password_v : option json) (matchedUser : option User)
  : M Response :=
  match matchedUser with
  | None => ret (error_response 400 "Invalid or expired password reset token.")
  | Some user =>
      expired <- reset_expired user ;;
      if expired then ret (error_response 400 "Password reset token has expired.")
      else
        new_password <-
          lift (match password_v with Some v => as_string v | None => Throw TypeError end) ;;
        hashedPassword <- hash_with_salt new_password ;;
        save_user {| _id := _id user; username := username user;
                     password := hashedPassword; email := email user;
                     resetToken := None; resetTokenExpires := None |} ;;;
        ret (message_response "Password has been reset successfully.")
  end.

(** The [try] block of [POST /api/auth/reset-password]. *)
Definition reset_password_try `{Crypto} (req : Request) : M Response :=
  let token := field "token" req in
  let password_v := field "password" req in
  if negb (truthy_opt token) || negb (truthy_opt password_v)
  then ret (error_response 400 "Token and new password are required")
  else
    tok <- lift (match token with Some v => as_string v | None => Throw TypeError end) ;;
    t <- now ;;
    candidates <- find_users (active_reset t) ;;
    matchedUser <- match_candidate tok candidates ;;
    consume_reset password_v matchedUser.

(** [POST /api/auth/reset-password]. *)
Definition reset_password `{Crypto} (req : Request) : M Response :=
  try_catch
    (reset_password_try req)
    (fun _ => ret (error_response 500 "An error occurred while resetting the password.")).

(** The body of a credential failure. *)
Definition invalid_credentials (errorType : string) : Response :=
  json_response 401
    (JObj [("message", JStr "Invalid credentials"); ("errorType", JStr errorType)]).

(** [POST /api/login].  The schema declares [username] with [trim: true],
    and mongoose runs the setters of a path on the value a filter gives for
    it: the account is looked up under the trimmed name. *)
Definition login `{Crypto} `{Driver} (req : Request) : M Response :=
  try_catch
    (let username_v := field "username" req in
     let password_v := field "password" req in
     if negb (truthy_opt username_v) || negb (truthy_opt password_v)
     then ret (json_response 400 (JObj [("message", JStr "Username and password are required")]))
     else
       selects <-
         match username_v with
         | Some (JStr name) => ret (String.eqb (trim name))
         | Some v =>
             match cast_filter v with
             | Some f => ret f
             | None => throw (Error "CastError")
             end
         | None => throw TypeError
         end ;;
       found <- findOne_user (fun u => selects (username u)) ;;
       match found with
       | None => ret (invalid_credentials "username_not_found")
       | Some user =>
           given <-
             lift (match password_v with Some v => as_string v | None => Throw TypeError end) ;;
           if bcrypt_compare given (password user) then
             signed <- sign_1h (session_payload user) ;;
             match signed with
             | Some token => ret (json_response 200 (JObj [("token", JStr token)]))
             | None => throw (Error "jwt")
             end
           else ret (invalid_credentials "incorrect_password")
       end)
    (fun _ => ret (json_response 500 (JObj [("message", JStr "Login failed")]))).

(* ===================================================================== *)
(** * 15. The routes over the data files                                    *)
(* ===================================================================== *)

(** The file-backed resources and the file each one lives in. *)
Inductive Resource : Type := Projects | Education | Messages | Skills.

Definition resource_file (r : Resource) : string :=
  match r with
  | Projects => "projects.json"
  | Education => "education.json"
  | Messages => "messages.json"
  | Skills => "skills.json"
  end.

(** The top-level form of a data file. *)
Inductive Shape : Type := BareArray | SkillsWrapper | OtherShape.

Definition shape_of (v : json) : Shape :=
  match v with
  | JArr _ => BareArray
  | JObj ms =>
      match obj_get "skills" ms with
      | Some (JArr _) => SkillsWrapper
      | _ => OtherShape
      end
  | _ => OtherShape
  end.

(** The form each resource keeps its file in. *)
Definition resource_shape (r : Resource) : Shape :=
  match r with
  | Skills => SkillsWrapper
  | _ => BareArray
  end.

(** The form of a file on disk: [None] when it is missing or does not
    parse. *)
Definition file_shape (d : gmap string string) (filename : string) : option Shape :=
  match d !! filename with
  | Some text =>
      match JSON_parse text with
      | Some v => Some (shape_of v)
      | None => None
      end
  | None => None
  end.

(** The routes of [server.js] over the four resource files. *)
Inductive Endpoint : Type :=
| GET_projects | GET_project | POST_projects | PUT_project | DELETE_project
| GET_public_education | GET_education | GET_education_entry
| POST_education | PUT_education | DELETE_education
| GET_technologies | POST_technologies | PUT_technology | DELETE_technology
| GET_skills | GET_skill | POST_skills | PUT_skill | DELETE_skill
| POST_messages | GET_messages | GET_unread_count | GET_message
| PUT_message_read | DELETE_message.

(** The file an endpoint works on. *)
Definition endpoint_file (ep : Endpoint) : string :=
  match ep with
  | GET_projects | GET_project | POST_projects | PUT_project | DELETE_project =>
      "projects.json"
  | GET_public_education | GET_education | GET_education_entry
  | POST_education | PUT_education | DELETE_education => "education.json"
  | GET_technologies | POST_technologies | PUT_technology | DELETE_technology
  | GET_skills | GET_skill | POST_skills | PUT_skill | DELETE_skill => "skills.json"
  | POST_messages | GET_messages | GET_unread_count | GET_message
  | PUT_message_read | DELETE_message => "messages.json"
  end.

(** Each route with the middleware it is registered behind. *)
Definition route `{Crypto} `{Calendar} (ep : Endpoint) : Request -> M Response :=
  match ep with
  | GET_projects => get_projects
  | GET_project => get_project
  | POST_projects => authenticateToken post_project
  | PUT_project => authenticateToken put_project
  | DELETE_project => authenticateToken delete_project
  | GET_public_education => get_education
  | GET_education => authenticateToken get_education
  | GET_education_entry => authenticateToken get_education_entry
  | POST_education => authenticateToken post_education
  | PUT_education => authenticateToken put_education
  | DELETE_education => authenticateToken delete_education
  | GET_technologies => authenticateToken get_technologies
  | POST_technologies => authenticateToken post_technology
  | PUT_technology => authenticateToken put_technology
  | DELETE_technology => authenticateToken delete_technology
  | GET_skills => get_skills
  | GET_skill => authenticateToken get_skill
  | POST_skills => authenticateToken post_skill
  | PUT_skill => authenticateToken put_skill
  | DELETE_skill => authenticateToken delete_skill
  | POST_messages => post_message
  | GET_messages => authenticateToken get_messages
  | GET_unread_count => authenticateToken get_unread_count
  | GET_message => authenticateToken get_message
  | PUT_message_read => authenticateToken put_message_read
  | DELETE_message => authenticateToken delete_message
  end.

(** A request served: the response that is sent and the world it leaves.
    An error that escaped a handler would reach [errorHandler]. *)
Definition serve (h : M Response) (env : Env) (w : World) : Response * World :=
  match h env w with
  | (Ok response, w') => (response, w')
  | (Throw e, w') =>
      (json_response 500
         (JObj [("error", JStr "Something went wrong!"); ("message", JStr (message_of e))]),
       w')
  end.

(** A request whose bearer token verifies at the clock reading the
    middleware takes. *)
Definition authorized `{Crypto} (req : Request) (env : Env) (w : World) : Prop :=
  exists authHeader token payload,
    authorization req = Some authHeader /\
    authHeader <> "" /\
    nth_error (split_on " " authHeader) 1 = Some token /\
    token <> "" /\
    jwt_verify token JWT_SECRET (clock env (ticks w)) = Some payload.

(** The world after [fs.writeFile] was called on [filename] with the text
    of [data]. *)
Definition written (filename : string) (data : json) (env : Env) (w : World) : World :=
  let w1 := set_writes (filename :: writes w) w in
  if write_ok env filename
  then set_disk (<[filename := JSON_stringify data]> (disk w)) w1
  else w1.

(** The collections the DELETE routes work on.  The technologies routes
    read [skills.json] as a bare array, the skills routes read it under its
    [skills] property. *)
Inductive Collection : Type :=
| ProjectsC | EducationC | TechnologiesC | SkillsC | MessagesC.

Definition collection_file (c : Collection) : string :=
  match c with
  | ProjectsC => "projects.json"
  | EducationC => "education.json"
  | TechnologiesC | SkillsC => "skills.json"
  | MessagesC => "messages.json"
  end.

Definition collection_delete (c : Collection) : Endpoint :=
  match c with
  | ProjectsC => DELETE_project
  | EducationC => DELETE_education
  | TechnologiesC => DELETE_technology
  | SkillsC => DELETE_skill
  | MessagesC => DELETE_message
  end.

(** The records of a collection as its routes find them on disk; a file
    that is missing, or whose text is not JSON, is the empty collection.
    There is no answer for a file of another shape, nor for a JSON text
    with a value this model does not have. *)
Definition stored_collection (c : Collection) (d : gmap string string)
  : option (list json) :=
  match file_state d (collection_file c) with
  | Missing => Some []
  | Unparsable text => if is_json text then None else Some []
  | Parsed v =>
      match c, v with
      | SkillsC, JObj ms =>
          match obj_get "skills" ms with
          | Some (JArr xs) => Some xs
          | _ => None
          end
      | SkillsC, _ => None
      | _, JArr xs => Some xs
      | _, _ => None
      end
  end.

(** [p.id === id] for a stored record. *)
Definition holds_id (id : string) (p : json) : bool :=
  strict_eq_str (prop "id" p) id.

(** No record of the collection has this id. *)
Definition absent (id : string) (xs : list json) : Prop :=
  Forall (fun p => p <> JNull /\ holds_id id p = false) xs.

(** An action keeps an invariant of the world. *)
Definition preserves {A : Type} (I : World -> Prop) (m : M A) : Prop :=
  forall env w, I w -> I (snd (m env w)).

(** The invariant of a data file: it is there, parses, and has the given
    top-level form. *)
Definition has_shape (filename : string) (s : Shape) (w : World) : Prop :=
  file_shape (disk w) filename = Some s.

(** The messages the job moves: created before [thirtyDaysAgo] and read. *)
Definition archivable `{Calendar} (thirtyDaysAgo : Z) (message : json) : bool :=
  match Date_value (prop "createdAt" message) with
  | Some messageDate => (messageDate <? thirtyDaysAgo)%Z && truthy_opt (prop "read" message)
  | None => false
  end.

(** The content of an archive file as the job finds it: a missing file, or
    one whose text is not JSON, counts as an empty archive.  There is no
    answer for a file that holds no array, nor for a JSON text with a value
    this model does not have. *)
Definition stored_archive (d : gmap string string) (filename : string)
  : option (list json) :=
  match file_state d filename with
  | Missing => Some []
  | Unparsable text => if is_json text then None else Some []
  | Parsed (JArr xs) => Some xs
  | Parsed _ => None
  end.

(** The leading 64 characters of the token signed afresh for [u] when the
    clock reads [t]; [None] when signing throws. *)
Definition sample_prefix `{Crypto} (t : Z) (u : User) : option string :=
  option_map (String.substring 0 64) (jwt_sign (reset_payload u) JWT_SECRET 3600 t).

(** Does the prefix regenerated for [u] at clock reading [t] equal the
    received token. *)
Definition prefix_matches `{Crypto} (token : string) (t : Z) (u : User) : bool :=
  match sample_prefix t u with
  | Some p => String.eqb token p
  | None => false
  end.

(** The first candidate whose regenerated prefix is the received token,
    with its position; the candidate at position [i] is signed at the
    clock reading [n + i]. *)
Fixpoint first_match `{Crypto} (token : string) (clk : nat -> Z) (n : nat)
  (candidates : list User) : option (nat * User) :=
  match candidates with
  | [] => None
  | u :: rest =>
      if prefix_matches token (clk n) u then Some (0%nat, u)
      else
        match first_match token clk (S n) rest with
        | Some (i, v) => Some (S i, v)
        | None => None
        end
  end.

(** The account collection holds no empty reset token: the only writer
    stores a [bcrypt] hash. *)
Definition tokens_hashed (us : list User) : Prop :=
  forall u, In u us -> resetToken u <> Some "".

(** A user document after a successful reset. *)
Definition after_reset (hashedPassword : string) (user : User) : User :=
  {| _id := _id user; username := username user; password := hashedPassword;
     email := email user; resetToken := None; resetTokenExpires := None |}.

(** [user.save()] on the collection. *)
Definition replace_user (user : User) (us : list User) : list User :=
  map (fun u => if String.eqb (_id u) (_id user) then user else u) us.

(** ASCII lower case, and equality of two addresses up to case: the
    lookup the comment in the request endpoint announces. *)
Definition lower_char (c : ascii) : ascii :=
  let n := nat_of_ascii c in
  if ((65 <=? n) && (n <=? 90))%nat then ascii_of_nat (n + 32) else c.

Fixpoint lower (s : string) : string :=
  match s with
  | "" => ""
  | String c s' => String (lower_char c) (lower s')
  end.

Definition same_email (a b : string) : bool := String.eqb (lower a) (lower b).

(** A user document after a reset was requested. *)
Definition with_reset (hashedToken : string) (expires : Z) (user : User) : User :=
  {| _id := _id user; username := username user; password := password user;
     email := email user; resetToken := Some hashedToken;
     resetTokenExpires := Some expires |}.

(* ===================================================================== *)
(** * 16. A reference host                                                  *)
(* ===================================================================== *)

(** One host to run the handlers on: tokens in the JWT layout over a
    stand-in digest, a stand-in for [bcrypt] that keeps the salt apart, the
    patterns made of literal characters and dots, and the UTC calendar.
    The properties below hold for every host; this one shows that what
    they assume can be met. *)
Module Reference.

(** [JSON.stringify(v)] with no gap. *)
Fixpoint stringify_compact (v : json) : string :=
  match v with
  | JNull => "null"
  | JBool true => "true"
  | JBool false => "false"
  | JNum n => string_of_Z n
  | JStr s => quote s
  | JArr xs => "[" +:+ join "," (map stringify_compact xs) +:+ "]"
  | JObj ms =>
      "{" +:+
      join "," (map (fun kv => quote (fst kv) +:+ ":" +:+ stringify_compact (snd kv)) ms)
      +:+ "}"
  end.

Definition bytes_of (s : string) : list N := map N_of_ascii (list_ascii_of_string s).

Definition string_of_bytes (bs : list N) : string :=
  string_of_list_ascii (map ascii_of_N bs).

(** The base64url alphabet. *)
Definition b64_char (n : N) : ascii :=
  (if n <? 26 then ascii_of_N (65 + n)
   else if n <? 52 then ascii_of_N (71 + n)
   else if n <? 62 then ascii_of_N (n - 4)
   else if n =? 62 then "-"%char else "_"%char)%N.

Definition b64_value (c : ascii) : option N :=
  let n := N_of_ascii c in
  (if (65 <=? n) && (n <=? 90) then Some (n - 65)
   else if (97 <=? n) && (n <=? 122) then Some (n - 71)
   else if (48 <=? n) && (n <=? 57) then Some (n + 4)
   else if n =? 45 then Some 62
   else if n =? 95 then Some 63
   else None)%N.

(** base64url without padding. *)
Fixpoint b64_encode (bytes : list N) : string :=
  match bytes with
  | a :: b :: c :: rest =>
      let n := (a * 65536 + b * 256 + c)%N in
      String (b64_char (n / 262144)) (String (b64_char ((n / 4096) mod 64))
        (String (b64_char ((n / 64) mod 64)) (String (b64_char (n mod 64))
           (b64_encode rest))))
  | [a; b] =>
      let n := (a * 65536 + b * 256)%N in
      String (b64_char (n / 262144)) (String (b64_char ((n / 4096) mod 64))
        (String (b64_char ((n / 64) mod 64)) ""))
  | [a] =>
      let n := (a * 65536)%N in
      String (b64_char (n / 262144)) (String (b64_char ((n / 4096) mod 64)) "")
  | [] => ""
  end.

Fixpoint b64_decode (sextets : list N) : list N :=
  match sextets with
  | a :: b :: c :: d :: rest =>
      let n := (((a * 64 + b) * 64 + c) * 64 + d)%N in
      (n / 65536)%N :: ((n / 256) mod 256)%N :: (n mod 256)%N :: b64_decode rest
  | [a; b; c] =>
      let n := (((a * 64 + b) * 64 + c) * 64)%N in
      [(n / 65536)%N; ((n / 256) mod 256)%N]
  | [a; b] =>
      let n := ((a * 64 + b) * 4096)%N in [(n / 65536)%N]
  | _ => []
  end.

Fixpoint sextets_of (s : string) : option (list N) :=
  match s with
  | "" => Some []
  | String c s' =>
      match b64_value c, sextets_of s' with
      | Some n, Some ns => Some (n :: ns)
      | _, _ => None
      end
  end.

Definition base64url (s : string) : string := b64_encode (bytes_of s).

Definition base64url_decode (s : string) : option string :=
  option_map (fun ns => string_of_bytes (b64_decode ns)) (sextets_of s).

(** The stand-in for the keyed digest of a token: a checksum of the
    secret and the signing input. *)
Definition digest (secret text : string) : string :=
  base64url (string_of_Z (Z.of_N
    (fold_left (fun acc b => ((acc * 31 + b) mod 4294967291)%N)
       (bytes_of (secret +:+ "." +:+ text)) 7%N))).

Definition jwt_header : string :=
  base64url (stringify_compact (JObj [("alg", JStr "HS256"); ("typ", JStr "JWT")])).

(** A token in the JWT layout: header, payload with the issue and expiry
    times in seconds, digest. *)
Definition sign (payload : list (string * json)) (secret : string)
  (expiresIn now_ms : Z) : option string :=
  let iat := now_ms / 1000 in
  let claims := obj_set "exp" (JNum (iat + expiresIn)) (obj_set "iat" (JNum iat) payload) in
  let signing_input := jwt_header +:+ "." +:+ base64url (stringify_compact (JObj claims)) in
  Some (signing_input +:+ "." +:+ digest secret signing_input).

Definition verify (token secret : string) (now_ms : Z) : option json :=
  match split_on "." token with
  | [h; b; s] =>
      if String.eqb s (digest secret (h +:+ "." +:+ b)) then
        match base64url_decode b with
        | Some text =>
            match JSON_parse text with
            | Some claims =>
                match prop "exp" claims with
                | Some (JNum exp) => if (now_ms / 1000 <? exp)%Z then Some claims else None
                | _ => Some claims
                end
            | None => None
            end
        | None => None
        end
      else None
  | _ => None
  end.

(** The stand-in for [bcrypt]: version, cost, salt, then the data. *)
Definition hash (salt data : string) : string :=
  "$2b$10$" +:+ salt +:+ "$" +:+ data.

Definition compare (data hashed : string) : bool :=
  match nth_error (split_on "$" hashed) 3 with
  | Some salt => String.eqb hashed (hash salt data)
  | None => false
  end.

#[export] Instance crypto : Crypto :=
  {| jwt_sign := sign; jwt_verify := verify;
     bcrypt_hash := hash; bcrypt_compare := compare |}.

(** The operators of the pattern language other than the dot. *)
Definition is_operator (c : ascii) : bool :=
  let n := nat_of_ascii c in
  (n =? 92)%nat || (n =? 94)%nat || (n =? 36)%nat || (n =? 42)%nat ||
  (n =? 43)%nat || (n =? 63)%nat || (n =? 40)%nat || (n =? 41)%nat ||
  (n =? 91)%nat || (n =? 93)%nat || (n =? 123)%nat || (n =? 125)%nat ||
  (n =? 124)%nat.

(** Is the rest of the source a run of literals and dots closed by [$];
    a source with another operator is outside these patterns. *)
Fixpoint literal_body (s : string) : bool :=
  match s with
  | "" => false
  | String c "" => Ascii.eqb c "$"
  | String c s' => negb (is_operator c) && literal_body s'
  end.

(** The whole subject matched against the body: a dot takes any
    character but a line break, a literal takes itself up to case. *)
Fixpoint match_body (body subject : string) : bool :=
  match body, subject with
  | String "$" "", "" => true
  | String p body', String c subject' =>
      match body' with
      | "" => false
      | _ =>
          (if Ascii.eqb p "."
           then negb ((nat_of_ascii c =? 10)%nat || (nat_of_ascii c =? 13)%nat)
           else Ascii.eqb (lower_char p) (lower_char c))
          && match_body body' subject'
      end
  | _, _ => false
  end.

Definition literal_dot_regex (source : string) : option (string -> bool) :=
  match source with
  | String c body =>
      if Ascii.eqb c "^" && literal_body body then Some (match_body body) else None
  | "" => None
  end.

#[export] Instance regex : Regex := {| regex_i := literal_dot_regex |}.

(** A number or a boolean given for a string is cast to its text. *)
#[export] Instance driver : Driver :=
  {| cast_filter := fun v =>
       match v with
       | JNum _ | JBool _ => Some (String.eqb (to_String v))
       | _ => None
       end |}.

End Reference.

(** The UTC calendar of the reference host. *)
Module UTC.

(** The day number of a civil date, day 0 being 1970-01-01. *)
Definition days_from_civil (y m d : Z) : Z :=
  (let y' := if m <=? 2 then y - 1 else y in
   let era := y' / 400 in
   let yoe := y' - era * 400 in
   let doy := (153 * (if 2 <? m then m - 3 else m + 9) + 2) / 5 + d - 1 in
   let doe := yoe * 365 + yoe / 4 - yoe / 100 + doy in
   era * 146097 + doe - 719468)%Z.

(** The civil date of a day number: year, month (1 to 12), day. *)
Definition civil_from_days (z : Z) : Z * Z * Z :=
  (let z' := z + 719468 in
   let era := z' / 146097 in
   let doe := z' - era * 146097 in
   let yoe := (doe - doe / 1460 + doe / 36524 - doe / 146096) / 365 in
   let doy := doe - (365 * yoe + yoe / 4 - yoe / 100) in
   let mp := (5 * doy + 2) / 153 in
   let d := doy - (153 * mp + 2) / 5 + 1 in
   let m := if mp <? 10 then mp + 3 else mp - 9 in
   let y := yoe + era * 400 in
   ((if m <=? 2 then y + 1 else y), m, d))%Z.

(** The decimal text of [n] on at least [width] digits. *)
Definition padded (width : nat) (n : Z) : string :=
  let s := string_of_Z n in
  string_of_list_ascii (repeat "0"%char (width - String.length s)) +:+ s.

Definition iso_text (t : Z) : string :=
  let '(y, m, d) := civil_from_days (t / day_ms)%Z in
  let r := (t mod day_ms)%Z in
  padded 4 y +:+ "-" +:+ padded 2 m +:+ "-" +:+ padded 2 d +:+ "T" +:+
  padded 2 (r / 3600000)%Z +:+ ":" +:+ padded 2 ((r / 60000) mod 60)%Z +:+ ":" +:+
  padded 2 ((r / 1000) mod 60)%Z +:+ "." +:+ padded 3 (r mod 1000)%Z +:+ "Z".

(** The value of a run of decimal digits; [None] when a character is no
    digit. *)
Fixpoint digits_value (s : string) (acc : Z) : option Z :=
  match s with
  | "" => Some acc
  | String c s' =>
      let n := nat_of_ascii c in
      if ((48 <=? n) && (n <=? 57))%nat
      then digits_value s' (acc * 10 + Z.of_nat (n - 48))%Z
      else None
  end.

Definition number_at (start len : nat) (s : string) : option Z :=
  let part := String.substring start len s in
  if (String.length part =? len)%nat then digits_value part 0 else None.

Definition char_at (i : nat) (c : ascii) (s : string) : bool :=
  match String.get i s with
  | Some x => Ascii.eqb x c
  | None => false
  end.

(** [Date.parse] on the format [toISOString] writes,
    [YYYY-MM-DDTHH:mm:ss.sssZ]; any other text is an invalid date here. *)
Definition parse_iso (s : string) : option Z :=
  if (String.length s =? 24)%nat && char_at 4 "-" s && char_at 7 "-" s
     && char_at 10 "T" s && char_at 13 ":" s && char_at 16 ":" s
     && char_at 19 "." s && char_at 23 "Z" s
  then
    match number_at 0 4 s, number_at 5 2 s, number_at 8 2 s,
          number_at 11 2 s, number_at 14 2 s, number_at 17 2 s, number_at 20 3 s with
    | Some y, Some m, Some d, Some hh, Some mm, Some ss, Some ms =>
        if ((1 <=? m) && (m <=? 12) && (1 <=? d) && (d <=? 31)
            && (hh <=? 23) && (mm <=? 59) && (ss <=? 59))%Z
        then Some (days_from_civil y m d * day_ms + hh * 3600000 + mm * 60000
                   + ss * 1000 + ms)%Z
        else None
    | _, _, _, _, _, _, _ => None
    end
  else None.

Definition time_value (v : option json) : option Z :=
  match v with
  | Some (JStr s) => parse_iso s
  | Some (JNum n) => Some n
  | Some JNull => Some 0
  | Some (JBool b) => Some (if b then 1 else 0)
  | _ => None
  end.

#[export] Instance calendar : Calendar :=
  {| Date_value := time_value;
     toISOString := iso_text;
     getFullYear := fun t => fst (fst (civil_from_days (t / day_ms)%Z));
     getMonth := fun t => (snd (fst (civil_from_days (t / day_ms))) - 1)%Z;
     setDate_back := fun n t => (t - n * day_ms)%Z |}.

End UTC.

(* ===================================================================== *)
(** * 17. A sample installation                                             *)
(* ===================================================================== *)

(** A data directory, an account and requests on the reference host, for
    running the handlers on concrete input. *)
Module Sample.

(** 2023-11-14T22:13:20Z, one millisecond per clock reading. *)
Definition start : Z := 1700000000000.

Definition env : Env :=
  {| clock := fun n => start + Z.of_nat n;
     write_ok := fun _ => true;
     mail_ok := true;
     port := "3001";
     asset_removed := fun _ => true;
     salt := "N9qo8uLOickgx2ZMRZoMye" |}.

Definition admin : User :=
  {| _id := "65a1b2c3d4e5f60718293a4b";
     username := "admin";
     password := Reference.hash "IkPXZIoMyeN9qo8uLOickg" "admin123";
     email := "admin@example.com";
     resetToken := None;
     resetTokenExpires := None |}.

(** The token the request endpoint would mail for [admin] at [start]. *)
Definition reset_token : string :=
  match Reference.sign [("userId", JStr (_id admin)); ("email", JStr (email admin))]
          JWT_SECRET 3600 start with
  | Some T => T
  | None => ""
  end.

(** [admin] with a reset pending until [expires]. *)
Definition admin_pending (expires : Z) : User :=
  with_reset (Reference.hash "N9qo8uLOickgx2ZMRZoMye" reset_token) expires admin.

(** A session token for [admin], issued a second before [start]. *)
Definition session_token : string :=
  match Reference.sign [("userId", JStr (_id admin)); ("username", JStr (username admin))]
          JWT_SECRET 3600 (start - 1000) with
  | Some T => T
  | None => ""
  end.

Definition project (id title : string) : json :=
  JObj [("id", JStr id); ("title", JStr title); ("technologies", JArr [JStr "Rocq"]);
        ("createdAt", JStr "2023-01-01T00:00:00.000Z")].

Definition message (id createdAt : string) (read : bool) : json :=
  JObj [("id", JStr id); ("name", JStr "Ada"); ("message", JStr "Hello");
        ("createdAt", JStr createdAt); ("read", JBool read)].

(** Read and 31 days old at [start]; unread and as old; read and recent. *)
Definition old_read : json := message "1697321600000" "2023-10-14T22:13:20.000Z" true.
Definition old_unread : json := message "1697321600001" "2023-10-14T22:13:20.000Z" false.
Definition recent_read : json := message "1699900000000" "2023-11-13T18:26:40.000Z" true.

Definition projects : list json := [project "1" "Portfolio"; project "2" "Parser"].
Definition messages : list json := [recent_read; old_read; old_unread].
Definition skills : list json := [JObj [("id", JStr "7"); ("name", JStr "Rocq"); ("level", JNum 90)]].

Definition data : gmap string string :=
  <["projects.json" := JSON_stringify (JArr projects)]>
    (<["education.json" := JSON_stringify (JArr [])]>
       (<["skills.json" := JSON_stringify (JObj [("skills", JArr skills)])]>
          (<["messages.json" := JSON_stringify (JArr messages)]> ∅))).

Definition world (accounts : list User) : World :=
  {| disk := data; writes := []; users := accounts; outbox := []; ticks := 0 |}.

(** An authenticated request on the record [id] with the given body. *)
Definition request (id : string) (fields : list (string * json)) : Request :=
  {| authorization := Some ("Bearer " +:+ session_token);
     params_id := id; req_body := fields; req_file := None |}.

(** A request from the public pages: no bearer token. *)
Definition public_request (fields : list (string * json)) : Request :=
  {| authorization := None; params_id := ""; req_body := fields; req_file := None |}.

(** The leading 64 characters of [reset_token], as the mailed link
    carries them. *)
Definition short_token : string := String.substring 0 64 reset_token.

Definition consume_request : Request :=
  public_request [("token", JStr short_token); ("password", JStr "s3cret-pass")].

(** A second account, whose address differs from [a@b.c.com] in one
    character. *)
Definition visitor : User :=
  {| _id := "65a1b2c3e4f5a60718293a4c";
     username := "visitor";
     password := Reference.hash "LOickgN9qo8uIkPXZIoMye" "welcome";
     email := "a@bxc.com";
     resetToken := None;
     resetTokenExpires := None |}.

End Sample.

(* ===================================================================== *)
(** * 18. Reading the routes                                                *)
(* ===================================================================== *)

(** The routes that are registered behind [authenticateToken]. *)
Definition protected (ep : Endpoint) : bool :=
  match ep with
  | GET_projects | GET_project | GET_public_education | GET_skills | POST_messages => false
  | _ => true
  end.

(** [authHeader && authHeader.split(' ')[1]]: the second word of the
    [Authorization] header, [None] when it is undefined. *)
Definition bearer_token (req : Request) : option string :=
  match authorization req with
  | Some authHeader =>
      if String.eqb authHeader "" then None
      else nth_error (split_on " " authHeader) 1
  | None => None
  end.

(** [!m.read] for a stored message that is not [null]. *)
Definition is_unread (m : json) : bool := negb (truthy_opt (prop "read" m)).

(** The time value of [new Date(m.createdAt)]. *)
Definition created_at `{Calendar} (m : json) : option Z :=
  Date_value (prop "createdAt" m).

(** [p.id !== id] for a stored record. *)
Definition lacks_id (id : string) (p : json) : bool := negb (holds_id id p).

(** Records the comparator of the message listing can date. *)
Definition dated `{Calendar} (m : json) : Prop :=
  m <> JNull /\ created_at m <> None.

(** [b] was not created after [a]. *)
Definition not_older `{Calendar} (a b : json) : Prop :=
  exists ta tb, created_at a = Some ta /\ created_at b = Some tb /\ tb <= ta.

(** No record of the list comes before a record created after it. *)
Definition newest_first `{Calendar} (xs : list json) : Prop :=
  forall (i j : nat) (a b : json), (i < j)%nat ->
    xs !! i = Some a -> xs !! j = Some b -> not_older a b.

(** The sample host with one of its services down. *)
Module Outage.

(** The mail transport rejects every mail. *)
Definition no_mail : Env :=
  {| clock := clock Sample.env; write_ok := write_ok Sample.env; mail_ok := false;
     port := port Sample.env; asset_removed := asset_removed Sample.env;
     salt := salt Sample.env |}.

(** No file of the data directory can be written. *)
Definition read_only : Env :=
  {| clock := clock Sample.env; write_ok := fun _ => false; mail_ok := true;
     port := port Sample.env; asset_removed := asset_removed Sample.env;
     salt := salt Sample.env |}.

(** Only [messages.json] can be written. *)
Definition no_archive : Env :=
  {| clock := clock Sample.env; write_ok := String.eqb "messages.json"; mail_ok := true;
     port := port Sample.env; asset_removed := asset_removed Sample.env;
     salt := salt Sample.env |}.

End Outage.

(** The properties of a message that the notification prints. *)
Definition mail_fields : list string :=
  ["name"; "email"; "company"; "projectType"; "timeline"; "message"].

(** A property that a template literal can print: it is undefined, or a
    value that has a text. *)
Definition has_text (x : option json) : bool :=
  match template_text x with
  | Ok _ => true
  | Throw _ => false
  end.

(* ===================================================================== *)
(** * 19. The account collection at start-up                                *)
(* ===================================================================== *)

(** [User.countDocuments()]. *)
Definition countDocuments : M nat :=
  fun _ w => (Ok (length (users w)), w).

(** [new User(doc).save()] for a document that is not in the collection
    yet: it goes last. *)
Definition insert_user (user : User) : M unit :=
  fun _ w => (Ok tt, set_users (users w ++ [user]) w).

(** [initializeDefaultUser], run once the database is connected;
    [objectId] is the [_id] the driver draws for the new document. *)
Definition initializeDefaultUser `{Crypto} (objectId : string) : M unit :=
  try_catch
    (userCount <- countDocuments ;;
     if (userCount =? 0)%nat then
       hashedPassword <- hash_with_salt "admin123" ;;
       insert_user {| _id := objectId; username := "admin"; password := hashedPassword;
                      email := "admin@example.com";
                      resetToken := None; resetTokenExpires := None |}
     else ret tt)
    (fun _ => ret tt).

(** The account [u] with its stored reset-token hash replaced through
    [f]. *)
Definition rehash (f : string -> string) (u : User) : User :=
  {| _id := _id u; username := username u; password := password u; email := email u;
     resetToken := option_map f (resetToken u);
     resetTokenExpires := resetTokenExpires u |}.

(* ===================================================================== *)
(** * 20. Statistics (on [stats.json])                                      *)
(* ===================================================================== *)

(** The handlers of this part add to values they read from a file and
    assign to properties of whatever the file held, so the conversions of
    the language are spelled out.  A value is kept in the form the
    serializer gives it: NaN is [null], a property set to undefined is
    left out, and a property added to an array under a name that is no
    index does not show. *)

(** The numbers of the language are doubles.  [double_of_Z z] is the
    integer the double nearest to [z] holds: [z] itself up to 2^53 in
    size; beyond that a double has 53 significant bits, so [z] is rounded
    to a multiple of the power of two that leaves 53 bits, to the nearer
    one, and to the even one when [z] is half way.  [None] is Infinity,
    from 2^1024 on. *)
Definition double_of_Z (z : Z) : option Z :=
  (let a := Z.abs z in
   if a <=? 2 ^ 53 then Some z
   else
     let e := Z.log2 a - 52 in
     let q := a / 2 ^ e in
     let r := a mod 2 ^ e in
     let half := 2 ^ (e - 1) in
     let q' :=
       if r <? half then q
       else if half <? r then q + 1
       else if Z.even q then q else q + 1 in
     if 2 ^ 1024 <=? q' * 2 ^ e then None else Some (Z.sgn z * (q' * 2 ^ e)))%Z.

(** [Number.isSafeInteger]: the integers that doubles count one by one. *)
Definition safe_integer (n : Z) : Prop := (- 2 ^ 53 < n < 2 ^ 53)%Z.

(** [x + 1] for a value that may be undefined: undefined gives NaN, which
    is written [null], as Infinity is; [null] and the booleans count as
    numbers, a number is added to as a double, and any other value is
    turned into a string and gets the character [1] appended. *)
Definition plus_one (x : option json) : result json :=
  match x with
  | None => Ok JNull
  | Some JNull => Ok (JNum 1)
  | Some (JBool b) => Ok (JNum (if b then 2 else 1))
  | Some (JNum n) =>
      Ok (match double_of_Z n with
          | Some d =>
              match double_of_Z (d + 1)%Z with
              | Some sum => JNum sum
              | None => JNull
              end
          | None => JNull
          end)
  | Some (JStr s) => Ok (JStr (s +:+ "1"))
  | Some v => rbind (js_text v) (fun s => Ok (JStr (s +:+ "1")))
  end.

(** [target.k = v] for one of the names [visitors], [cvViews],
    [cvDownloads], [messageCount] and a [target] that is not [null]: an
    object gets the property, and the assignment does not show on an array
    or on a number, string or boolean. *)
Definition set_named (k : string) (v : option json) (target : json) : json :=
  match target with
  | JObj ms => JObj (obj_assign k v ms)
  | _ => target
  end.

(** [v.length]; a string is counted in the bytes the model keeps. *)
Definition length_of (v : json) : option json :=
  match v with
  | JArr xs => Some (JNum (Z.of_nat (length xs)))
  | JStr s => Some (JNum (Z.of_nat (String.length s)))
  | JObj ms => obj_get "length" ms
  | _ => None
  end.

(** The array index a property name stands for. *)
Definition array_index (k : string) : option Z :=
  match parseInt k with
  | Some n => if (0 <=? n)%Z && String.eqb (string_of_Z n) k then Some n else None
  | None => None
  end.

(** [o[m] = v] on an object for an index [m]: an object lists its index
    names first, in ascending order. *)
Fixpoint obj_set_index (m : Z) (v : json) (ms : list (string * json))
  : list (string * json) :=
  match ms with
  | [] => [(string_of_Z m, v)]
  | (k, x) :: rest =>
      if String.eqb k (string_of_Z m) then (k, v) :: rest
      else
        match array_index k with
        | Some n =>
            if (n <? m)%Z then (k, x) :: obj_set_index m v rest
            else (string_of_Z m, v) :: (k, x) :: rest
        | None => (string_of_Z m, v) :: (k, x) :: rest
        end
  end.

(** [table[m]] for a month [m]; reading from [null] or undefined throws. *)
Definition at_index (table : option json) (m : Z) : result (option json) :=
  match table with
  | None | Some JNull => Throw TypeError
  | Some (JArr xs) => Ok (if (0 <=? m)%Z then xs !! Z.to_nat m else None)
  | Some (JObj ms) => Ok (obj_get (string_of_Z m) ms)
  | Some (JStr s) =>
      Ok (if (0 <=? m)%Z
          then match String.get (Z.to_nat m) s with
               | Some c => Some (JStr (String c ""))
               | None => None
               end
          else None)
  | Some _ => Ok None
  end.

(** [table[m] = v]: an array grows to hold the index, the new places in
    between being written as [null]. *)
Definition set_index (m : Z) (v : json) (table : json) : json :=
  match table with
  | JArr xs =>
      if (0 <=? m)%Z then
        let i := Z.to_nat m in
        if (i <? length xs)%nat then JArr (<[i := v]> xs)
        else JArr (xs ++ repeat JNull (i - length xs) ++ [v])
      else table
  | JObj ms => JObj (obj_set_index m v ms)
  | _ => table
  end.

(** The statistics a missing file stands for. *)
Definition default_stats : json :=
  JObj [("visitors", JNum 0); ("cvViews", JNum 0); ("cvDownloads", JNum 0);
        ("messageCount", JNum 0); ("monthlyVisitors", JArr (repeat (JNum 0) 12))].

Definition success_response : Response :=
  json_response 200 (JObj [("success", JBool true)]).

(** [GET /api/stats], behind [authenticateToken]. *)
Definition get_stats (req : Request) : M Response :=
  try_catch
    (loaded <- loadData "stats.json" ;;
     let stats := or_else loaded default_stats in
     loadedMessages <- loadData "messages.json" ;;
     let messages := or_else loadedMessages (JArr []) in
     let stats := set_named "messageCount" (length_of messages) stats in
     saveData "stats.json" stats ;;;
     ret (json_response 200 stats))
    (fun _ => ret (error_response 500 "Failed to fetch statistics")).

(** The counters the routes name. *)
Inductive Counter : Type := cvViews | cvDownloads.

Definition counter_name (c : Counter) : string :=
  match c with
  | cvViews => "cvViews"
  | cvDownloads => "cvDownloads"
  end.

(** [incrementCounter(counterName)]: an error is logged and thrown
    again. *)
Definition incrementCounter (counterName : Counter) : M unit :=
  try_catch
    (loaded <- loadData "stats.json" ;;
     let stats := or_else loaded (JObj []) in
     let name := counter_name counterName in
     count <- lift (plus_one (Some (or_default (prop name stats) (JNum 0)))) ;;
     saveData "stats.json" (set_named name (Some count) stats) ;;;
     ret tt)
    (fun e => throw e).

(** [POST /api/stats/cv-view]. *)
Definition post_cv_view (req : Request) : M Response :=
  try_catch
    (incrementCounter cvViews ;;;
     ret success_response)
    (fun _ => ret (error_response 500 "Failed to record CV view")).

(** [POST /api/stats/cv-download]. *)
Definition post_cv_download (req : Request) : M Response :=
  try_catch
    (incrementCounter cvDownloads ;;;
     ret success_response)
    (fun _ => ret (error_response 500 "Failed to record CV download")).

(** [POST /api/stats/visitor]. *)
Definition post_visitor `{Calendar} (req : Request) : M Response :=
  try_catch
    (loaded <- loadData "stats.json" ;;
     let stats := or_else loaded default_stats in
     visitors <- lift (plus_one (prop "visitors" stats)) ;;
     let stats := set_named "visitors" (Some visitors) stats in
     t <- now ;;
     let currentMonth := getMonth t in
     let monthlyVisitors := prop "monthlyVisitors" stats in
     old <- lift (at_index monthlyVisitors currentMonth) ;;
     count <- lift (plus_one old) ;;
     let stats :=
       match stats, monthlyVisitors with
       | JObj ms, Some table =>
           JObj (obj_set "monthlyVisitors" (set_index currentMonth count table) ms)
       | _, _ => stats
       end in
     saveData "stats.json" stats ;;;
     ret success_response)
    (fun _ => ret (error_response 500 "Failed to record visitor")).

(** [getVisitorCount], [getCVViewCount], [getCVDownloadCount]:
    [stats.k || 0]. *)
Definition stored_count (k : string) : M json :=
  try_catch
    (loaded <- loadData "stats.json" ;;
     let stats := or_else loaded (JObj []) in
     ret (or_default (prop k stats) (JNum 0)))
    (fun _ => ret (JNum 0)).

Definition getVisitorCount : M json := stored_count "visitors".
Definition getCVViewCount : M json := stored_count "cvViews".
Definition getCVDownloadCount : M json := stored_count "cvDownloads".

(** [getMessageCount]: [messages.length], undefined when the file holds
    something that has no length. *)
Definition getMessageCount : M (option json) :=
  try_catch
    (loaded <- loadData "messages.json" ;;
     ret (length_of (or_else loaded (JArr []))))
    (fun _ => ret (Some (JNum 0))).

(** What [loadData(f) || d] is: [d] for a file that is missing or whose
    text is not JSON, and for a stored value that is falsy; the stored
    value otherwise.  There is no answer for a JSON text with a value this
    model does not have. *)
Definition stored_or (d : gmap string string) (filename : string) (dflt : json)
  : option json :=
  match file_state d filename with
  | Missing => Some dflt
  | Unparsable text => if is_json text then None else Some dflt
  | Parsed v => Some (or_else v dflt)
  end.

(** The statistics as [GET /api/stats] and [POST /api/stats/visitor] find
    them: [loadData('stats.json') || { visitors: 0, ... }]. *)
Definition stored_stats (d : gmap string string) : option json :=
  stored_or d "stats.json" default_stats.

(** The statistics as [incrementCounter] and the count functions find
    them: [loadData('stats.json') || {}]. *)
Definition stored_counters (d : gmap string string) : option json :=
  stored_or d "stats.json" (JObj []).

(* ===================================================================== *)
(** * 21. Personal information ([routes/personal-info.js])                   *)
(* ===================================================================== *)

Definition defaultPersonalInfo : json :=
  JObj [("name", JStr "Oussama Hattan");
        ("profession", JStr "Backend Developer");
        ("experience", JStr "3+ years");
        ("education",
         JStr "Bachelor's in Web Development, Full Stack Engineering certification from ALX");
        ("skills", JArr (map JStr ["Node.js"; "Python"; "JavaScript"; "PHP"; "MySQL";
                                   "MongoDB"; "Docker"; "AWS"]));
        ("location", JStr "Azrou, Morocco");
        ("languages", JArr (map JStr ["Arabic"; "French"; "English"]));
        ("projects", JStr "15+ completed projects");
        ("specialization", JStr "Backend development, API design, database optimization");
        ("personality",
         JStr "Passionate about technology, continuous learner, problem solver");
        ("additionalInfo", JStr "")].

(** [ensurePersonalInfoFile]: when [fs.access] rejects, the file is
    written with the default data; that write may throw. *)
Definition ensurePersonalInfoFile : M unit :=
  fun env w =>
    match disk w !! "personal-info.json" with
    | Some _ => (Ok tt, w)
    | None => writeFile "personal-info.json" (JSON_stringify defaultPersonalInfo) env w
    end.

(** [GET /personal-info]. *)
Definition get_personal_info (req : Request) : M Response :=
  try_catch
    (ensurePersonalInfoFile ;;;
     data <- readFile "personal-info.json" ;;
     personalInfo <- JSON_parse_throw data ;;
     ret (json_response 200 personalInfo))
    (fun _ => ret (json_response 200 defaultPersonalInfo)).

(** The first of the required fields that [req.body] has no truthy value
    for. *)
Definition missing_field (req : Request) : option string :=
  List.find (fun f => negb (truthy_opt (field f req)))
    ["name"; "profession"; "experience"; "education"].

(** [PUT /personal-info]. *)
Definition put_personal_info (req : Request) : M Response :=
  try_catch
    (let authHeader := authorization req in
     if match authHeader with
        | Some h => negb (String.eqb h "Bearer admin")
        | None => true
        end
     then ret (error_response 401 "Unauthorized")
     else
       match missing_field req with
       | Some f => ret (error_response 400 ("Missing required field: " +:+ f))
       | None =>
           ensurePersonalInfoFile ;;;
           writeFile "personal-info.json" (JSON_stringify (JObj (req_body req))) ;;;
           ret (json_response 200
                  (JObj [("success", JBool true);
                         ("message", JStr "Personal information updated successfully")]))
       end)
    (fun _ => ret (error_response 500 "Failed to update personal information")).

(** More hosts and data for running the handlers. *)
Module Trial.

(** No file under [public/] can be removed. *)
Definition no_assets : Env :=
  {| clock := clock Sample.env; write_ok := write_ok Sample.env; mail_ok := true;
     port := port Sample.env; asset_removed := fun _ => false;
     salt := salt Sample.env |}.

(** A host that stalls for two hours after the second clock reading of a
    request. *)
Definition stalled : Env :=
  {| clock := fun n => if (n <? 2)%nat then Sample.start + Z.of_nat n
                       else Sample.start + 7200000 + Z.of_nat n;
     write_ok := write_ok Sample.env; mail_ok := true;
     port := port Sample.env; asset_removed := asset_removed Sample.env;
     salt := salt Sample.env |}.

(** One project with an image. *)
Definition pictured : json :=
  JObj [("id", JStr "1"); ("title", JStr "Portfolio");
        ("image", JStr "/assets/images/old.png")].

Definition gallery : World :=
  {| disk := <["projects.json" := JSON_stringify (JArr [pictured])]> Sample.data;
     writes := []; users := []; outbox := []; ticks := 0 |}.

(** A form for [PUT /api/projects/1] with a new image. *)
Definition new_image : Request :=
  {| authorization := Some ("Bearer " +:+ Sample.session_token);
     params_id := "1";
     req_body := [("title", JStr "Portfolio"); ("description", JStr "My site");
                  ("technologies", JStr "Rocq, OCaml")];
     req_file := Some "1700000000000-new.png" |}.

End Trial.

(* ===================================================================== *)
(** * 22. The theme preference (on [users.json])                            *)
(* ===================================================================== *)

(** [authenticateToken] for a handler that reads [req.user], the payload
    of the token. *)
Definition authenticateToken_user `{Crypto} (next : json -> Request -> M Response)
  (req : Request) : M Response :=
  let token :=
    match authorization req with
    | Some authHeader =>
        if String.eqb authHeader "" then None
        else nth_error (split_on " " authHeader) 1
    | None => None
    end in
  match token with
  | Some tok =>
      if String.eqb tok "" then ret (error_response 401 "Authentication required")
      else
        t <- now ;;
        match jwt_verify tok JWT_SECRET t with
        | Some user => next user req
        | None => ret (error_response 403 "Invalid or expired token")
        end
  | None => ret (error_response 401 "Authentication required")
  end.

(** [a === b] for two values out of two parsed texts, either of which
    may be undefined: an object or an array of one text is never one of
    the other. *)
Definition strict_eq (a b : option json) : bool :=
  match a, b with
  | None, None => true
  | Some JNull, Some JNull => true
  | Some (JBool x), Some (JBool y) => Bool.eqb x y
  | Some (JNum x), Some (JNum y) => (x =? y)%Z
  | Some (JStr x), Some (JStr y) => String.eqb x y
  | _, _ => false
  end.

(** [u => u.id === req.user.id]. *)
Definition same_id (user : json) (u : json) : result bool :=
  rbind (member "id" u) (fun a =>
  rbind (member "id" user) (fun b => Ok (strict_eq a b))).

(** The properties [{...v}] copies: those of an object, the elements of
    an array and the characters of a string under their indices, and
    nothing of any other value. *)
Definition spread_of (v : option json) : list (string * json) :=
  match v with
  | Some (JObj ms) => ms
  | Some (JArr xs) => imap (fun i x => (string_of_Z (Z.of_nat i), x)) xs
  | Some (JStr s) =>
      imap (fun i c => (string_of_Z (Z.of_nat i), JStr (String c "")))
        (list_ascii_of_string s)
  | _ => []
  end.

(** [PUT /api/user/theme], behind [authenticateToken]; [user] is
    [req.user]. *)
Definition put_theme `{Calendar} (user : json) (req : Request) : M Response :=
  try_catch
    (match field "theme" req with
     | None => ret (error_response 400 "Theme preference is required")
     | Some theme =>
         if negb (truthy theme) then ret (error_response 400 "Theme preference is required")
         else
           loaded <- loadData "users.json" ;;
           users <- lift (as_array (or_else loaded (JArr []))) ;;
           found <- lift (findIndex_r (same_id user) users) ;;
           match found with
           | None => ret (error_response 404 "User not found")
           | Some index =>
               let stored := users !! index in
               let old := match stored with Some u => prop "settings" u | None => None end in
               lastUpdated <- timestamp ;;
               let settings :=
                 JObj (obj_set "lastUpdated" (JStr lastUpdated)
                         (obj_set "theme" theme (spread_of old))) in
               let users' :=
                 match stored with
                 | Some (JObj ms) => <[index := JObj (obj_set "settings" settings ms)]> users
                 | _ => users
                 end in
               saveData "users.json" (JArr users') ;;;
               ret (json_response 200 (JObj [("theme", theme)]))
           end
     end)
    (fun _ => ret (error_response 500 "Failed to update theme preference")).

(* ===================================================================== *)
(** * Properties                                                            *)
(* ===================================================================== *)

(** ** Induction over JSON values, through the lists they nest *)

Lemma json_ind (P : json -> Prop)
  (Hnull : P JNull)
  (Hbool : forall b, P (JBool b))
  (Hnum : forall n, P (JNum n))
  (Hstr : forall s, P (JStr s))
  (Harr : forall xs, Forall P xs -> P (JArr xs))
  (Hobj : forall ms, Forall (fun kv => P (snd kv)) ms -> P (JObj ms)) :
  forall v, P v.
Proof.
  fix IH 1. intros [ | b | n | s | xs | ms ].
  - exact Hnull.
  - apply Hbool.
  - apply Hnum.
  - apply Hstr.
  - apply Harr. induction xs as [ | x xs IHxs ]; constructor; [ apply IH | exact IHxs ].
  - apply Hobj. induction ms as [ | [k x] ms IHms ]; constructor; [ apply IH | exact IHms ].
Qed.

Example stringify_sample :
  JSON_stringify (JObj [("skills", JArr [JObj [("id", JStr "1"); ("level", JNum 85)]; JNull])]) =
  "{" +:+ nl +:+ "  " +:+ quote "skills" +:+ ": [" +:+ nl +:+
  "    {" +:+ nl +:+ "      " +:+ quote "id" +:+ ": " +:+ quote "1" +:+ "," +:+ nl +:+
  "      " +:+ quote "level" +:+ ": 85" +:+ nl +:+ "    }," +:+ nl +:+
  "    null" +:+ nl +:+ "  ]" +:+ nl +:+ "}".
Proof. reflexivity. Qed.

Example parse_sample :
  JSON_parse (JSON_stringify
    (JObj [("skills", JArr [JObj [("id", JStr "a/b\c"); ("level", JNum (-85))]; JNull; JArr []; JBool true])]))
  = Some (JObj [("skills", JArr [JObj [("id", JStr "a/b\c"); ("level", JNum (-85))]; JNull; JArr []; JBool true])]).
Proof. vm_compute. reflexivity. Qed.

(** ** Strings *)

#[local] Arguments String.append !s1 s2 / : simpl nomatch.

Lemma sapp_assoc (a b c : string) : (a +:+ b) +:+ c = a +:+ (b +:+ c).
Proof. induction a as [ | x a IH ]; simpl; [ reflexivity | f_equal; exact IH ]. Qed.

Lemma sapp_nil_r (a : string) : a +:+ "" = a.
Proof. induction a as [ | x a IH ]; simpl; [ reflexivity | f_equal; exact IH ]. Qed.

Lemma slength_app (a b : string) :
  String.length (a +:+ b) = (String.length a + String.length b)%nat.
Proof. induction a as [ | x a IH ]; simpl; [ reflexivity | f_equal; exact IH ]. Qed.

Lemma skip_ws_indent (ind s : string) :
  all_ws ind = true -> skip_ws (ind +:+ s) = skip_ws s.
Proof.
  induction ind as [ | c ind IH ]; simpl; [ reflexivity | ].
  intros H. apply andb_true_iff in H as [Hc Hind]. rewrite Hc. now apply IH.
Qed.

Lemma all_ws_app (a b : string) :
  all_ws a = true -> all_ws b = true -> all_ws (a +:+ b) = true.
Proof.
  induction a as [ | c a IH ]; simpl; [ easy | ].
  intros H Hb. apply andb_true_iff in H as [Hc Ha]. rewrite Hc. now apply IH.
Qed.

(** ** String literals read back *)

Lemma parse_escape_char (c : ascii) (tail : string) :
  parse_string_body (escape_char c +:+ tail) =
  match parse_string_body tail with
  | Some (str, r) => Some (String c str, r)
  | None => None
  end.
Proof.
  destruct c as [[|] [|] [|] [|] [|] [|] [|] [|]]; reflexivity.
Qed.

Lemma parse_string_escape (s rest : string) :
  parse_string_body (escape s +:+ String dquote rest) = Some (s, rest).
Proof.
  induction s as [ | c s IH ].
  - reflexivity.
  - cbn [escape]. rewrite sapp_assoc, parse_escape_char, IH. reflexivity.
Qed.

(** ** Numbers read back *)

Lemma read_digits_delim (rest : string) :
  delim rest = true -> read_digits rest = (Decimal.Nil, rest).
Proof.
  destruct rest as [ | c rest ]; [ reflexivity | ].
  destruct c as [[|] [|] [|] [|] [|] [|] [|] [|]]; simpl; try discriminate; reflexivity.
Qed.

Lemma delim_no_fraction (rest : string) :
  delim rest = true -> starts_fraction rest = false.
Proof.
  destruct rest as [ | c rest ]; [ reflexivity | ].
  destruct c as [[|] [|] [|] [|] [|] [|] [|] [|]]; simpl; try discriminate; reflexivity.
Qed.

Lemma nzhead_no_D0 (d : Decimal.uint) :
  match Decimal.nzhead d with Decimal.D0 _ => False | _ => True end.
Proof. induction d; simpl; auto. Qed.

Lemma canonical_to_uint (p : positive) : canonical_digits (Pos.to_uint p) = true.
Proof.
  pose proof (DecimalPos.Unsigned.to_uint_nonnil p) as Hnn.
  pose proof (DecimalPos.Unsigned.to_of (Pos.to_uint p)) as Hn.
  rewrite DecimalPos.Unsigned.of_to in Hn. simpl in Hn.
  destruct (Pos.to_uint p) as [ | d | d | d | d | d | d | d | d | d | d ];
    try reflexivity; [ congruence | ].
  unfold Decimal.unorm in Hn. simpl in Hn.
  pose proof (nzhead_no_D0 d) as Hz.
  destruct (Decimal.nzhead d); inversion Hn; subst; try reflexivity; contradiction.
Qed.

Lemma string_of_uint_nonnil (d : Decimal.uint) :
  d <> Decimal.Nil -> NilZero.string_of_uint d = NilEmpty.string_of_uint d.
Proof. destruct d; simpl; congruence. Qed.

Lemma read_digits_print (d : Decimal.uint) (rest : string) :
  delim rest = true ->
  read_digits (NilEmpty.string_of_uint d +:+ rest) = (d, rest).
Proof.
  intros Hrest. induction d; simpl; rewrite ?IHd; try reflexivity.
  now apply read_digits_delim.
Qed.

Lemma parse_number_unsigned (d : Decimal.uint) (rest : string) :
  canonical_digits d = true -> delim rest = true ->
  parse_number (NilEmpty.string_of_uint d +:+ rest) =
  Some (JNum (Z.of_int (Decimal.Pos d)), rest).
Proof.
  intros Hc Hd. pose proof (read_digits_print d rest Hd) as Hr.
  unfold parse_number.
  destruct d; try discriminate Hc; simpl in Hr |- *;
    rewrite Hr; cbn [canonical_digits] in Hc |- *; try rewrite Hc;
    rewrite (delim_no_fraction _ Hd); reflexivity.
Qed.

Lemma parse_number_negative (d : Decimal.uint) (rest : string) :
  canonical_digits d = true -> delim rest = true ->
  parse_number (String "-" (NilEmpty.string_of_uint d +:+ rest)) =
  Some (JNum (Z.of_int (Decimal.Neg d)), rest).
Proof.
  intros Hc Hd. unfold parse_number. simpl.
  rewrite (read_digits_print d rest Hd), Hc, (delim_no_fraction _ Hd). reflexivity.
Qed.

Lemma parse_number_print (n : Z) (rest : string) :
  delim rest = true ->
  parse_number (string_of_Z n +:+ rest) = Some (JNum n, rest).
Proof.
  intros Hd. unfold string_of_Z.
  pose proof (DecimalZ.of_to n) as Hof.
  destruct n as [ | p | p ]; simpl Z.to_int in *; unfold NilZero.string_of_int.
  - apply (parse_number_unsigned (Decimal.D0 Decimal.Nil)); [ reflexivity | exact Hd ].
  - rewrite string_of_uint_nonnil by apply DecimalPos.Unsigned.to_uint_nonnil.
    rewrite parse_number_unsigned by (auto using canonical_to_uint). now rewrite Hof.
  - rewrite string_of_uint_nonnil by apply DecimalPos.Unsigned.to_uint_nonnil.
    simpl. rewrite parse_number_negative by (auto using canonical_to_uint). now rewrite Hof.
Qed.

(** ** Values read back *)

Lemma sapp_cons (c : ascii) (a b : string) : String c a +:+ b = String c (a +:+ b).
Proof. reflexivity. Qed.

Lemma parse_value_ws (fuel : nat) (w s : string) :
  all_ws w = true -> parse_value fuel (w +:+ s) = parse_value fuel s.
Proof.
  intros Hw. destruct fuel as [ | f ]; [ reflexivity | ].
  cbn [parse_value]. now rewrite skip_ws_indent.
Qed.

Lemma parse_value_number (f : nat) (c : ascii) (r : string) :
  number_head c = true -> parse_value (S f) (String c r) = parse_number (String c r).
Proof.
  destruct c as [[|] [|] [|] [|] [|] [|] [|] [|]]; intros H; try discriminate H; reflexivity.
Qed.

Lemma string_of_uint_head (d : Decimal.uint) :
  d <> Decimal.Nil ->
  exists c t, NilEmpty.string_of_uint d = String c t /\ number_head c = true.
Proof. destruct d; intros H; try congruence; simpl; eauto. Qed.

Lemma string_of_Z_head (n : Z) :
  exists c t, string_of_Z n = String c t /\ number_head c = true.
Proof.
  unfold string_of_Z. destruct n as [ | p | p ]; simpl.
  - eauto.
  - rewrite string_of_uint_nonnil by apply DecimalPos.Unsigned.to_uint_nonnil.
    apply string_of_uint_head, DecimalPos.Unsigned.to_uint_nonnil.
  - eauto.
Qed.

Lemma number_head_value (c : ascii) (r : string) :
  number_head c = true -> value_head (String c r) = true.
Proof.
  destruct c as [[|] [|] [|] [|] [|] [|] [|] [|]]; intros H; try discriminate H; reflexivity.
Qed.

Lemma stringify_head (ind : string) (v : json) (rest : string) :
  value_head (stringify_at ind v +:+ rest) = true.
Proof.
  destruct v as [ | [|] | n | s | [ | x xs ] | [ | m ms ] ]; try reflexivity.
  destruct (string_of_Z_head n) as (c & t & Hs & Hc).
  cbn [stringify_at]. rewrite Hs. now apply number_head_value.
Qed.

Lemma value_head_skip (s : string) :
  value_head s = true ->
  exists c r, skip_ws s = String c r /\ s = String c r /\
              Ascii.eqb c "]" = false /\ Ascii.eqb c "}" = false.
Proof.
  destruct s as [ | c r ]; [ discriminate | ]. simpl. intros H.
  apply andb_true_iff in H as [H H3]. apply andb_true_iff in H as [H1 H2].
  apply negb_true_iff in H1, H2, H3. rewrite H1. eauto 6.
Qed.

Lemma reads_back_number (n : Z) : reads_back (JNum n).
Proof.
  intros ind rest fuel _ Hd Hf. destruct fuel as [ | f ]; [ simpl in Hf; lia | ].
  cbn [stringify_at]. destruct (string_of_Z_head n) as (c & t & Hs & Hc).
  pose proof (parse_number_print n rest Hd) as Hp. rewrite Hs in *.
  rewrite sapp_cons in *. now rewrite parse_value_number.
Qed.

Lemma reads_back_string (s : string) : reads_back (JStr s).
Proof.
  intros ind rest fuel _ Hd Hf. destruct fuel as [ | f ]; [ simpl in Hf; lia | ].
  cbn [stringify_at]. unfold quote. rewrite sapp_cons, sapp_assoc, sapp_cons.
  cbn [parse_value skip_ws]. change (is_ws dquote) with false. cbv iota.
  change (Ascii.eqb dquote "n") with false. change (Ascii.eqb dquote "t") with false.
  change (Ascii.eqb dquote "f") with false. rewrite Ascii.eqb_refl. cbv iota.
  now rewrite parse_string_escape.
Qed.

Lemma skip_ws_close (ind : string) (c : ascii) (rest : string) :
  all_ws ind = true -> is_ws c = false ->
  skip_ws (nl +:+ ind +:+ String c rest) = String c rest.
Proof.
  intros Hi Hc. unfold nl. rewrite sapp_cons. cbn [skip_ws String.append].
  change (is_ws (ascii_of_nat 10)) with true. cbv iota.
  rewrite skip_ws_indent by exact Hi. simpl. now rewrite Hc.
Qed.

Lemma join_cons2 (sep p q : string) (ps : list string) :
  join sep (p :: q :: ps) = p +:+ sep +:+ join sep (q :: ps).
Proof. reflexivity. Qed.

Lemma parse_elements_print (xs : list json) :
  xs <> [] -> Forall reads_back xs ->
  forall (ind' ind rest : string) (fuel : nat),
    all_ws ind' = true -> all_ws ind = true ->
    (list_sum (map (fun x => S (need x)) xs) <= fuel)%nat ->
    parse_elements fuel
      (nl +:+ ind' +:+ join ("," +:+ nl +:+ ind') (map (stringify_at ind') xs)
          +:+ nl +:+ ind +:+ String "]" rest) = Some (xs, rest).
Proof.
  induction xs as [ | x xs IH ]; [ congruence | ].
  intros _ HF ind' ind rest fuel Hi' Hi Hf.
  apply Forall_cons_iff in HF as [Hx HF].
  destruct fuel as [ | f ]; [ simpl in Hf; lia | ].
  change (S (need x) + list_sum (map (fun x => S (need x)) xs) <= S f)%nat in Hf.
  cbn [parse_elements]. rewrite (parse_value_ws f nl) by reflexivity.
  rewrite (parse_value_ws f ind') by exact Hi'.
  destruct xs as [ | y ys ].
  - cbn [map join]. rewrite (Hx ind' _ f Hi') by (reflexivity || (simpl in Hf; lia)).
    rewrite skip_ws_close by (exact Hi || reflexivity). reflexivity.
  - cbn [map]. rewrite join_cons2, !sapp_assoc.
    rewrite (Hx ind' _ f Hi') by (reflexivity || lia).
    rewrite !sapp_cons. cbn [skip_ws]. change (is_ws ",") with false. cbv iota.
    change (Ascii.eqb "," ",") with true. cbv iota.
    change ("" +:+ ?a) with a.
    specialize (IH ltac:(congruence) HF ind' ind rest f Hi' Hi ltac:(lia)).
    match goal with
    | |- context [parse_elements f ?t] =>
        match type of IH with parse_elements f ?u = _ => change t with u end
    end.
    rewrite IH. reflexivity.
Qed.

Lemma parse_value_ws1 (fuel : nat) (c : ascii) (s : string) :
  is_ws c = true -> parse_value fuel (String c s) = parse_value fuel s.
Proof.
  intros Hc. destruct fuel as [ | f ]; [ reflexivity | ].
  cbn [parse_value skip_ws]. now rewrite Hc.
Qed.

Lemma parse_members_print (ms : list (string * json)) :
  ms <> [] -> Forall (fun kv => reads_back (snd kv)) ms ->
  forall (ind' ind rest : string) (fuel : nat),
    all_ws ind' = true -> all_ws ind = true ->
    (list_sum (map (fun kv => S (need (snd kv))) ms) <= fuel)%nat ->
    parse_members fuel
      (nl +:+ ind' +:+
       join ("," +:+ nl +:+ ind')
         (map (fun kv => quote (fst kv) +:+ ": " +:+ stringify_at ind' (snd kv)) ms)
          +:+ nl +:+ ind +:+ String "}" rest) = Some (ms, rest).
Proof.
  induction ms as [ | [k x] ms IH ]; [ congruence | ].
  intros _ HF ind' ind rest fuel Hi' Hi Hf.
  apply Forall_cons_iff in HF as [Hx HF]. cbn [snd] in Hx.
  destruct fuel as [ | f ]; [ simpl in Hf; lia | ].
  change (S (need x) + list_sum (map (fun kv => S (need (snd kv))) ms) <= S f)%nat in Hf.
  cbn [parse_members].
  assert (Hkey : forall tail,
    skip_ws (nl +:+ ind' +:+ (quote k +:+ ": " +:+ stringify_at ind' x +:+ tail)) =
    String dquote (escape k +:+ String dquote (String ":" (String " " (stringify_at ind' x +:+ tail))))).
  { intros tail. unfold quote. rewrite !sapp_cons, !sapp_assoc.
    rewrite skip_ws_close by (exact Hi' || reflexivity). reflexivity. }
  destruct ms as [ | m ms' ].
  - cbn [map join fst snd]. rewrite !sapp_assoc, Hkey.
    rewrite Ascii.eqb_refl, parse_string_escape.
    cbn [skip_ws]. change (is_ws ":") with false. cbv iota.
    change (Ascii.eqb ":" ":") with true. cbv iota.
    rewrite parse_value_ws1 by reflexivity.
    rewrite (Hx ind' _ f Hi') by (reflexivity || lia).
    rewrite skip_ws_close by (exact Hi || reflexivity). reflexivity.
  - cbn [map]. rewrite join_cons2. cbn [fst snd]. rewrite !sapp_assoc, Hkey.
    rewrite Ascii.eqb_refl, parse_string_escape.
    cbn [skip_ws]. change (is_ws ":") with false. cbv iota.
    change (Ascii.eqb ":" ":") with true. cbv iota.
    rewrite parse_value_ws1 by reflexivity.
    rewrite (Hx ind' _ f Hi') by (reflexivity || lia).
    rewrite !sapp_cons. cbn [skip_ws]. change (is_ws ",") with false. cbv iota.
    change (Ascii.eqb "," ",") with true. cbv iota.
    change ("" +:+ ?a) with a.
    specialize (IH ltac:(congruence) HF ind' ind rest f Hi' Hi ltac:(lia)).
    match goal with
    | |- context [parse_members f ?t] =>
        match type of IH with parse_members f ?u = _ => change t with u end
    end.
    rewrite IH. reflexivity.
Qed.

Lemma join_head (sep p : string) (ps : list string) (tail : string) :
  exists tail', join sep (p :: ps) +:+ tail = p +:+ tail'.
Proof.
  destruct ps as [ | q ps ].
  - now exists tail.
  - rewrite join_cons2, sapp_assoc. eauto.
Qed.

Lemma skip_ws_open (ind' body : string) :
  all_ws ind' = true -> value_head body = true ->
  exists c r, skip_ws (nl +:+ ind' +:+ body) = String c r /\
              Ascii.eqb c "]" = false /\ Ascii.eqb c "}" = false.
Proof.
  intros Hi Hb. destruct (value_head_skip _ Hb) as (c & r & Hs & _ & H1 & H2).
  exists c, r. unfold nl. rewrite sapp_cons. cbn [skip_ws String.append].
  change (is_ws (ascii_of_nat 10)) with true. cbv iota.
  now rewrite skip_ws_indent.
Qed.

Lemma all_ws_indent (ind : string) : all_ws ind = true -> all_ws (ind +:+ "  ") = true.
Proof. intros H. now apply all_ws_app. Qed.

(** Every value is read back from the text the serializer prints for it. *)
Theorem parse_value_stringify (v : json) : reads_back v.
Proof.
  induction v as [ | b | n | s | xs IH | ms IH ] using json_ind.
  - intros ind rest [ | f ] _ _ Hf; [ simpl in Hf; lia | reflexivity ].
  - intros ind rest [ | f ] _ _ Hf; [ simpl in Hf; lia | destruct b; reflexivity ].
  - apply reads_back_number.
  - apply reads_back_string.
  - intros ind rest fuel Hi Hd Hf. destruct fuel as [ | f ]; [ simpl in Hf; lia | ].
    destruct xs as [ | x xs ]; [ reflexivity | ].
    change (S (list_sum (map (fun x => S (need x)) (x :: xs))) <= S f)%nat in Hf.
    cbn [stringify_at]. pose proof (all_ws_indent _ Hi) as Hi'.
    remember (ind +:+ "  ") as ind' eqn:E. clear E.
    rewrite !sapp_cons, !sapp_assoc. change ("" +:+ ?a) with a.
    cbn [parse_value skip_ws]. change (is_ws "[") with false. cbv iota.
    change (Ascii.eqb "[" "n") with false. change (Ascii.eqb "[" "t") with false.
    change (Ascii.eqb "[" "f") with false. change (Ascii.eqb "[" dquote) with false.
    change (Ascii.eqb "[" "[") with true. cbv iota.
    destruct (join_head ("," +:+ nl +:+ ind') (stringify_at ind' x)
                (map (stringify_at ind') xs) (nl +:+ ind +:+ "]" +:+ rest))
      as [tail' Ht].
    destruct (skip_ws_open ind' _ Hi'
                (eq_ind_r (fun t => value_head t = true)
                   (stringify_head ind' x tail') Ht))
      as (c & r & Hs & Hc & _).
    pose proof (parse_elements_print (x :: xs) ltac:(congruence) IH ind' ind rest f
                  Hi' Hi ltac:(lia)) as HP.
    cbn [map] in Hs, HP |- *.
    match goal with
    | |- context [skip_ws ?t] =>
        match type of Hs with skip_ws ?u = _ => change t with u end
    end.
    rewrite Hs, Hc.
    match goal with
    | |- context [parse_elements f ?t] =>
        match type of HP with parse_elements f ?u = _ => change t with u end
    end.
    rewrite HP. reflexivity.
  - intros ind rest fuel Hi Hd Hf. destruct fuel as [ | f ]; [ simpl in Hf; lia | ].
    destruct ms as [ | m ms ]; [ reflexivity | ].
    change (S (list_sum (map (fun kv => S (need (snd kv))) (m :: ms))) <= S f)%nat in Hf.
    cbn [stringify_at]. pose proof (all_ws_indent _ Hi) as Hi'.
    remember (ind +:+ "  ") as ind' eqn:E. clear E.
    rewrite !sapp_cons, !sapp_assoc. change ("" +:+ ?a) with a.
    cbn [parse_value skip_ws]. change (is_ws "{") with false. cbv iota.
    change (Ascii.eqb "{" "n") with false. change (Ascii.eqb "{" "t") with false.
    change (Ascii.eqb "{" "f") with false. change (Ascii.eqb "{" dquote) with false.
    change (Ascii.eqb "{" "[") with false. change (Ascii.eqb "{" "{") with true. cbv iota.
    destruct (join_head ("," +:+ nl +:+ ind')
                (quote (fst m) +:+ ": " +:+ stringify_at ind' (snd m))
                (map (fun kv => quote (fst kv) +:+ ": " +:+ stringify_at ind' (snd kv)) ms)
                (nl +:+ ind +:+ "}" +:+ rest))
      as [tail' Ht].
    destruct (skip_ws_open ind' _ Hi'
                (eq_ind_r (fun t => value_head t = true)
                   (eq_refl : value_head
                      ((quote (fst m) +:+ ": " +:+ stringify_at ind' (snd m)) +:+ tail') = true)
                   Ht))
      as (c & r & Hs & _ & Hc).
    pose proof (parse_members_print (m :: ms) ltac:(congruence) IH ind' ind rest f
                  Hi' Hi ltac:(lia)) as HP.
    cbn [map] in Hs, HP |- *.
    match goal with
    | |- context [skip_ws ?t] =>
        match type of Hs with skip_ws ?u = _ => change t with u end
    end.
    rewrite Hs, Hc.
    match goal with
    | |- context [parse_members f ?t] =>
        match type of HP with parse_members f ?u = _ => change t with u end
    end.
    rewrite HP. reflexivity.
Qed.

(** ** The input length is fuel enough *)

Lemma join_length (sep : string) (ps : list string) :
  (1 <= String.length sep)%nat ->
  (list_sum (map (fun p => S (String.length p)) ps) <= S (String.length (join sep ps)))%nat.
Proof.
  intros Hsep. induction ps as [ | p ps IH ]; [ simpl; lia | ].
  destruct ps as [ | q ps ].
  - simpl. lia.
  - rewrite join_cons2, !slength_app.
    change (list_sum (map (fun p => S (String.length p)) (p :: q :: ps)))
      with (S (String.length p) + list_sum (map (fun p => S (String.length p)) (q :: ps)))%nat.
    lia.
Qed.

Lemma list_sum_le {A : Type} (f g : A -> nat) (l : list A) :
  Forall (fun x => (f x <= g x)%nat) l ->
  (list_sum (map f l) <= list_sum (map g l))%nat.
Proof.
  induction 1 as [ | x l Hx _ IH ]; [ reflexivity | ].
  change (f x + list_sum (map f l) <= g x + list_sum (map g l))%nat. lia.
Qed.

Lemma need_le_length (v : json) :
  forall ind, (need v <= String.length (stringify_at ind v))%nat.
Proof.
  induction v as [ | b | n | s | xs IH | ms IH ] using json_ind; intros ind.
  - simpl. lia.
  - destruct b; simpl; lia.
  - cbn [stringify_at need]. destruct (string_of_Z_head n) as (c & t & -> & _). simpl. lia.
  - cbn [stringify_at need]. unfold quote. simpl. lia.
  - destruct xs as [ | x xs ]; [ simpl; lia | ].
    cbn [stringify_at need]. remember (ind +:+ "  ") as ind' eqn:E. clear E.
    rewrite !slength_app.
    pose proof (join_length ("," +:+ nl +:+ ind') (map (stringify_at ind') (x :: xs))
                  ltac:(simpl; lia)) as HJ.
    rewrite map_map in HJ.
    pose proof (list_sum_le (fun x => S (need x))
                  (fun x => S (String.length (stringify_at ind' x))) (x :: xs)) as HS.
    assert (HF : Forall (fun x => (S (need x) <= S (String.length (stringify_at ind' x)))%nat)
                   (x :: xs)).
    { eapply Forall_impl; [ exact IH | ]. intros a Ha. specialize (Ha ind'). simpl in *. lia. }
    specialize (HS HF). change (String.length "[") with 1%nat.
    change (String.length nl) with 1%nat. lia.
  - destruct ms as [ | m ms ]; [ simpl; lia | ].
    cbn [stringify_at need]. remember (ind +:+ "  ") as ind' eqn:E. clear E.
    rewrite !slength_app.
    pose proof (join_length ("," +:+ nl +:+ ind')
                  (map (fun kv => quote (fst kv) +:+ ": " +:+ stringify_at ind' (snd kv)) (m :: ms))
                  ltac:(simpl; lia)) as HJ.
    rewrite map_map in HJ.
    pose proof (list_sum_le (fun kv : string * json => S (need (snd kv)))
                  (fun kv => S (String.length
                     (quote (fst kv) +:+ ": " +:+ stringify_at ind' (snd kv)))) (m :: ms)) as HS.
    assert (HF : Forall (fun kv : string * json =>
                   (S (need (snd kv)) <=
                    S (String.length (quote (fst kv) +:+ ": " +:+ stringify_at ind' (snd kv))))%nat)
                   (m :: ms)).
    { eapply Forall_impl; [ exact IH | ]. intros a Ha. specialize (Ha ind'). simpl in Ha.
      rewrite !slength_app. lia. }
    specialize (HS HF). change (String.length "{") with 1%nat.
    change (String.length nl) with 1%nat. lia.
Qed.

(** ** [JSON.parse(JSON.stringify(v, null, 2))] is [v] *)

Theorem JSON_parse_stringify (v : json) : JSON_parse (JSON_stringify v) = Some v.
Proof.
  unfold JSON_parse, JSON_stringify.
  pose proof (parse_value_stringify v "" "" (S (String.length (stringify_at "" v)))
                eq_refl eq_refl) as H.
  rewrite sapp_nil_r in H. rewrite H; [ reflexivity | ].
  pose proof (need_le_length v ""). lia.
Qed.

(* ===================================================================== *)
(** ** Every text [JSON_parse] reads is JSON                                *)
(* ===================================================================== *)

Lemma scan_skip_ws (p : Place) (open : list Bracket) (s : string) :
  skips_ws p = true -> scan p open s = scan p open (skip_ws s).
Proof.
  intros Hp. induction s as [ | c s IH ]; [ reflexivity | ].
  cbn [skip_ws]. destruct (is_ws c) eqn:Hc; [ | reflexivity ].
  rewrite <- IH. cbn [scan].
  destruct p; try discriminate Hp; cbn [scan_step]; unfold after_value; now rewrite Hc.
Qed.

Lemma digit_cons_cases (c : ascii) (k : Decimal.uint -> Decimal.uint) :
  digit_cons c = Some k ->
  c = "0"%char \/ c = "1"%char \/ c = "2"%char \/ c = "3"%char \/ c = "4"%char \/
  c = "5"%char \/ c = "6"%char \/ c = "7"%char \/ c = "8"%char \/ c = "9"%char.
Proof.
  destruct c as [ [] [] [] [] [] [] [] [] ]; cbn; intros E; try discriminate E; tauto.
Qed.

Lemma hex4_digits (h1 h2 h3 h4 : ascii) (code : N) :
  hex4 h1 h2 h3 h4 = Some code ->
  is_hex h1 = true /\ is_hex h2 = true /\ is_hex h3 = true /\ is_hex h4 = true.
Proof.
  unfold hex4, is_hex.
  destruct (hex_value h1); [ | discriminate ].
  destruct (hex_value h2); [ | discriminate ].
  destruct (hex_value h3); [ | discriminate ].
  destruct (hex_value h4); [ | discriminate ].
  auto.
Qed.

Lemma scan_string_body (name : bool) (open : list Bracket) (s str r : string) :
  parse_string_body s = Some (str, r) ->
  scan (InString name) open s =
  scan (if name then BeforeColon else AfterValue) open r.
Proof.
  remember (String.length s) as n eqn:Hn. revert s str r Hn.
  induction n as [ n IH ] using lt_wf_ind. intros s str r Hn.
  destruct s as [ | c s' ]; [ discriminate | ].
  cbn [parse_string_body scan scan_step].
  destruct (Ascii.eqb c dquote) eqn:Hq.
  { intros [= <- <-]. reflexivity. }
  destruct (Ascii.eqb c backslash) eqn:Hb.
  - destruct s' as [ | e s'' ]; [ discriminate | ].
    cbn [scan scan_step].
    destruct (Ascii.eqb e "u") eqn:Hu.
    + destruct s'' as [ | h1 [ | h2 [ | h3 [ | h4 s5 ] ] ] ]; try discriminate.
      destruct (hex4 h1 h2 h3 h4) as [ code | ] eqn:Hcode; [ | discriminate ].
      destruct (hex4_digits _ _ _ _ _ Hcode) as (H1 & H2 & H3 & H4).
      cbn [scan scan_step]. rewrite H1. cbn [scan scan_step].
      rewrite H2. cbn [scan scan_step]. rewrite H3. cbn [scan scan_step]. rewrite H4.
      destruct (is_high_surrogate code).
      * destruct s5 as [ | b [ | u [ | l1 [ | l2 [ | l3 [ | l4 s6 ] ] ] ] ] ];
          try discriminate.
        destruct (Ascii.eqb b backslash) eqn:Eb; [ | discriminate ].
        destruct (Ascii.eqb u "u") eqn:Eu; [ | discriminate ].
        cbn [andb].
        destruct (hex4 l1 l2 l3 l4) as [ low | ] eqn:Hlow; [ | discriminate ].
        destruct (hex4_digits _ _ _ _ _ Hlow) as (L1 & L2 & L3 & L4).
        destruct (is_low_surrogate low); [ | discriminate ].
        destruct (parse_string_body s6) as [ [ str' r' ] | ] eqn:Hrec; [ | discriminate ].
        intros [= <- <-].
        apply Ascii.eqb_eq in Eb, Eu. subst b u.
        cbn [scan]. change (scan_step (InString name) open backslash)
          with (Some (InEscape name, open)).
        cbn [scan]. change (scan_step (InEscape name) open "u")
          with (Some (InHex name 4, open)).
        cbn [scan scan_step]. rewrite L1. cbn [scan scan_step].
        rewrite L2. cbn [scan scan_step]. rewrite L3. cbn [scan scan_step]. rewrite L4.
        apply (IH (String.length s6)) with (str := str'); [ | reflexivity | exact Hrec ].
        subst n. cbn [String.length]. lia.
      * destruct (is_low_surrogate code); [ discriminate | ].
        destruct (parse_string_body s5) as [ [ str' r' ] | ] eqn:Hrec; [ | discriminate ].
        intros [= <- <-].
        apply (IH (String.length s5)) with (str := str'); [ | reflexivity | exact Hrec ].
        subst n. cbn [String.length]. lia.
    + destruct (unescape_simple e); [ | discriminate ].
      destruct (parse_string_body s'') as [ [ str' r' ] | ] eqn:Hrec; [ | discriminate ].
      intros [= <- <-].
      apply (IH (String.length s'')) with (str := str'); [ | reflexivity | exact Hrec ].
      subst n. cbn [String.length]. lia.
  - destruct (nat_of_ascii c <? 32)%nat; [ discriminate | ].
    destruct (parse_string_body s') as [ [ str' r' ] | ] eqn:Hrec; [ | discriminate ].
    intros [= <- <-].
    apply (IH (String.length s')) with (str := str'); [ | reflexivity | exact Hrec ].
    subst n. cbn [String.length]. lia.
Qed.

Lemma scan_literal (open : list Bracket) (lit s r : string) :
  lit <> "" -> expect lit s = Some r ->
  scan (InLiteral lit) open s = scan AfterValue open r.
Proof.
  revert s. induction lit as [ | x lit IH ]; [ congruence | ]. intros s _.
  cbn [expect]. destruct s as [ | c s' ]; [ discriminate | ].
  destruct (Ascii.eqb x c) eqn:Hx; [ | discriminate ].
  apply Ascii.eqb_eq in Hx. subst c. intros Hrest.
  cbn [scan scan_step]. rewrite Ascii.eqb_refl.
  destruct lit as [ | y lit' ].
  - cbn [expect] in Hrest. now injection Hrest as ->.
  - apply IH; [ discriminate | exact Hrest ].
Qed.

(** The rest after a run of digits does not start with a digit. *)
Lemma read_digits_rest (s : string) (d : Decimal.uint) (r : string) :
  read_digits s = (d, r) ->
  scan InInteger [] "" = true /\
  (forall open, scan InInteger open s = scan InInteger open r) /\
  match r with String c _ => is_digit c = false | "" => True end.
Proof.
  revert d. induction s as [ | c s IH ]; intros d.
  - intros [= <- <-]. repeat split.
  - cbn [read_digits]. destruct (digit_cons c) as [ k | ] eqn:Hk.
    + destruct (read_digits s) as [ d' r' ] eqn:Hrec. intros [= <- <-].
      destruct (IH d' eq_refl) as (_ & Hscan & Hrest).
      split; [ reflexivity | split; [ | exact Hrest ] ].
      intros open. cbn [scan scan_step]. unfold is_digit. rewrite Hk. apply Hscan.
    + intros [= <- <-]. split; [ reflexivity | split; [ reflexivity | ] ].
      unfold is_digit. now rewrite Hk.
Qed.

(** After a number that has neither fraction nor exponent. *)
Lemma scan_number_end (p : Place) (open : list Bracket) (r : string) :
  p = AfterZero \/ p = InInteger ->
  match r with String c _ => is_digit c = false | "" => True end ->
  starts_fraction r = false ->
  scan p open r = scan AfterValue open r.
Proof.
  intros Hp Hd Hf. destruct r as [ | c r' ]; [ now destruct Hp as [ -> | -> ] | ].
  cbn [starts_fraction] in Hf.
  apply orb_false_iff in Hf as [Hf He2]. apply orb_false_iff in Hf as [Hdot He1].
  cbn [scan]. destruct Hp as [ -> | -> ]; cbn [scan_step]; unfold is_exponent_mark;
    now rewrite ?Hd, Hdot, He1, He2.
Qed.

Lemma digit_cons_not_nil (c : ascii) (k : Decimal.uint -> Decimal.uint) (d : Decimal.uint) :
  digit_cons c = Some k -> k d <> Decimal.Nil.
Proof.
  destruct c as [ [] [] [] [] [] [] [] [] ]; cbn; intros E; try discriminate E;
    injection E as <-; discriminate.
Qed.

Lemma scan_digits_from (open : list Bracket) (s : string) (d : Decimal.uint) (r : string) :
  read_digits s = (d, r) -> canonical_digits d = true -> starts_fraction r = false ->
  exists c s', s = String c s' /\ is_digit c = true /\
    scan (if Ascii.eqb c "0" then AfterZero else InInteger) open s' =
    scan AfterValue open r.
Proof.
  intros Hread Hcan Hfrac.
  destruct s as [ | c s' ].
  { cbn in Hread. injection Hread as <- <-. cbn in Hcan. discriminate Hcan. }
  cbn [read_digits] in Hread.
  destruct (digit_cons c) as [ k | ] eqn:Hk.
  2:{ injection Hread as <- <-. cbn in Hcan. discriminate Hcan. }
  destruct (read_digits s') as [ d' r' ] eqn:Hrec. injection Hread as <- <-.
  destruct (read_digits_rest _ _ _ Hrec) as (_ & Hscan & Hrest).
  exists c, s'. split; [ reflexivity | ]. split; [ unfold is_digit; now rewrite Hk | ].
  destruct (Ascii.eqb c "0") eqn:Hz.
  - apply Ascii.eqb_eq in Hz. subst c. cbn in Hk. injection Hk as <-.
    destruct d'; cbn in Hcan; try discriminate Hcan.
    destruct s' as [ | c2 s2 ].
    + cbn in Hrec. injection Hrec as <-. reflexivity.
    + cbn [read_digits] in Hrec. destruct (digit_cons c2) as [ k2 | ] eqn:Hk2.
      * destruct (read_digits s2). injection Hrec as Hd _.
        now apply digit_cons_not_nil with (d := u) in Hk2.
      * injection Hrec as <-. apply scan_number_end; [ now left | | exact Hfrac ].
        unfold is_digit. now rewrite Hk2.
  - rewrite Hscan. apply scan_number_end; [ now right | exact Hrest | exact Hfrac ].
Qed.


Lemma skip_ws_head (s : string) (c : ascii) (r : string) :
  skip_ws s = String c r -> is_ws c = false.
Proof.
  induction s as [ | a s IH ]; [ discriminate | ].
  cbn [skip_ws]. destruct (is_ws a) eqn:Ha; [ exact IH | ].
  now intros [= <- <-].
Qed.

(** A number of the model, from a place where a value may start. *)
Lemma scan_number (open : list Bracket) (s : string) (v : json) (r : string) :
  parse_number s = Some (v, r) ->
  scan BeforeValue open s = scan AfterValue open r.
Proof.
  unfold parse_number. destruct s as [ | c s' ].
  { cbn. discriminate. }
  destruct (Ascii.eqb c "-") eqn:Hm.
  - apply Ascii.eqb_eq in Hm. subst c.
    destruct (read_digits s') as [ d r0 ] eqn:Hread.
    destruct (canonical_digits d) eqn:Hcan; [ | discriminate ].
    destruct (starts_fraction r0) eqn:Hfrac; [ discriminate | ].
    cbn [andb negb]. intros [= _ <-].
    destruct (scan_digits_from open _ _ _ Hread Hcan Hfrac) as (c2 & s2 & -> & Hd & Hscan).
    cbn [scan]. change (scan_step BeforeValue open "-") with (Some (AfterMinus, open)).
    cbn [scan scan_step]. rewrite Hd.
    destruct (Ascii.eqb c2 "0"); exact Hscan.
  - destruct (read_digits (String c s')) as [ d r0 ] eqn:Hread.
    destruct (canonical_digits d) eqn:Hcan; [ | discriminate ].
    destruct (starts_fraction r0) eqn:Hfrac; [ discriminate | ].
    cbn [andb negb]. intros [= _ <-].
    destruct (scan_digits_from open _ _ _ Hread Hcan Hfrac) as (c2 & s2 & E & Hd & Hscan).
    injection E as <- <-.
    unfold is_digit in Hd. destruct (digit_cons c) as [ k | ] eqn:Hk; [ | discriminate ].
    cbn [scan].
    destruct (digit_cons_cases _ _ Hk)
      as [ -> | [ -> | [ -> | [ -> | [ -> | [ -> | [ -> | [ -> | [ -> | -> ] ] ] ] ] ] ] ] ];
      exact Hscan.
Qed.

Lemma scan_first_element (open : list Bracket) (s : string) (c : ascii) (r : string) :
  skip_ws s = String c r -> Ascii.eqb c "]" = false ->
  scan BeforeFirstElement open s = scan BeforeValue open s.
Proof.
  intros Hs Hc. rewrite (scan_skip_ws BeforeFirstElement), (scan_skip_ws BeforeValue), Hs
    by reflexivity.
  cbn [scan scan_step]. now rewrite (skip_ws_head _ _ _ Hs), Hc.
Qed.

Lemma scan_first_member (open : list Bracket) (s : string) (c : ascii) (r : string) :
  skip_ws s = String c r -> Ascii.eqb c "}" = false ->
  scan BeforeFirstMember open s = scan BeforeName open s.
Proof.
  intros Hs Hc. rewrite (scan_skip_ws BeforeFirstMember), (scan_skip_ws BeforeName), Hs
    by reflexivity.
  cbn [scan scan_step]. now rewrite (skip_ws_head _ _ _ Hs), Hc.
Qed.

Lemma scan_parse (fuel : nat) :
  (forall s v r open, parse_value fuel s = Some (v, r) ->
     scan BeforeValue open s = scan AfterValue open r) /\
  (forall s xs r open, parse_elements fuel s = Some (xs, r) ->
     scan BeforeValue (Square :: open) s = scan AfterValue open r) /\
  (forall s ms r open, parse_members fuel s = Some (ms, r) ->
     scan BeforeName (Curly :: open) s = scan AfterValue open r).
Proof.
  induction fuel as [ | f (IHv & IHe & IHm) ]; [ repeat split; discriminate | ].
  split; [ | split ].
  - intros s v r open. cbn [parse_value].
    rewrite (scan_skip_ws BeforeValue) by reflexivity.
    destruct (skip_ws s) as [ | c r0 ] eqn:Hs; [ discriminate | ].
    pose proof (skip_ws_head _ _ _ Hs) as Hws.
    destruct (Ascii.eqb c "n") eqn:En.
    { apply Ascii.eqb_eq in En. subst c.
      destruct (expect "ull" r0) as [ r' | ] eqn:Hex; [ | discriminate ].
      intros [= _ <-]. cbn [scan].
      change (scan_step BeforeValue open "n") with (Some (InLiteral "ull", open)).
      now apply scan_literal. }
    destruct (Ascii.eqb c "t") eqn:Et.
    { apply Ascii.eqb_eq in Et. subst c.
      destruct (expect "rue" r0) as [ r' | ] eqn:Hex; [ | discriminate ].
      intros [= _ <-]. cbn [scan].
      change (scan_step BeforeValue open "t") with (Some (InLiteral "rue", open)).
      now apply scan_literal. }
    destruct (Ascii.eqb c "f") eqn:Ef.
    { apply Ascii.eqb_eq in Ef. subst c.
      destruct (expect "alse" r0) as [ r' | ] eqn:Hex; [ | discriminate ].
      intros [= _ <-]. cbn [scan].
      change (scan_step BeforeValue open "f") with (Some (InLiteral "alse", open)).
      now apply scan_literal. }
    destruct (Ascii.eqb c dquote) eqn:Eq.
    { destruct (parse_string_body r0) as [ [ str r' ] | ] eqn:Hstr; [ | discriminate ].
      intros [= _ <-]. cbn [scan scan_step]. rewrite Hws. unfold start_value. rewrite Eq.
      exact (scan_string_body false open _ _ _ Hstr). }
    destruct (Ascii.eqb c "[") eqn:Ea.
    { apply Ascii.eqb_eq in Ea. subst c. cbn [scan].
      change (scan_step BeforeValue open "[")
        with (Some (BeforeFirstElement, Square :: open)).
      destruct (skip_ws r0) as [ | c' r' ] eqn:Hs'; [ discriminate | ].
      destruct (Ascii.eqb c' "]") eqn:Ec.
      - intros [= _ <-]. rewrite (scan_skip_ws BeforeFirstElement), Hs' by reflexivity.
        cbn [scan scan_step]. now rewrite (skip_ws_head _ _ _ Hs'), Ec.
      - destruct (parse_elements f r0) as [ [ xs r'' ] | ] eqn:Hel; [ | discriminate ].
        intros [= _ <-]. rewrite (scan_first_element _ _ _ _ Hs' Ec).
        exact (IHe _ _ _ _ Hel). }
    destruct (Ascii.eqb c "{") eqn:Eo.
    { apply Ascii.eqb_eq in Eo. subst c. cbn [scan].
      change (scan_step BeforeValue open "{")
        with (Some (BeforeFirstMember, Curly :: open)).
      destruct (skip_ws r0) as [ | c' r' ] eqn:Hs'; [ discriminate | ].
      destruct (Ascii.eqb c' "}") eqn:Ec.
      - intros [= _ <-]. rewrite (scan_skip_ws BeforeFirstMember), Hs' by reflexivity.
        cbn [scan scan_step]. now rewrite (skip_ws_head _ _ _ Hs'), Ec.
      - destruct (parse_members f r0) as [ [ ms r'' ] | ] eqn:Hmem; [ | discriminate ].
        intros [= _ <-]. rewrite (scan_first_member _ _ _ _ Hs' Ec).
        exact (IHm _ _ _ _ Hmem). }
    intros Hnum. exact (scan_number open _ _ _ Hnum).
  - intros s xs r open. cbn [parse_elements].
    destruct (parse_value f s) as [ [ v r1 ] | ] eqn:Hv; [ | discriminate ].
    rewrite (IHv _ _ _ (Square :: open) Hv).
    rewrite (scan_skip_ws AfterValue) by reflexivity.
    destruct (skip_ws r1) as [ | c r' ] eqn:Hs; [ discriminate | ].
    pose proof (skip_ws_head _ _ _ Hs) as Hws.
    cbn [scan scan_step]. unfold after_value. rewrite Hws.
    destruct (Ascii.eqb c ",") eqn:Ec.
    + destruct (parse_elements f r') as [ [ vs r'' ] | ] eqn:Hel; [ | discriminate ].
      intros [= _ <-]. exact (IHe _ _ _ _ Hel).
    + destruct (Ascii.eqb c "]") eqn:Eb; [ | discriminate ].
      now intros [= _ <-].
  - intros s ms r open. cbn [parse_members].
    rewrite (scan_skip_ws BeforeName) by reflexivity.
    destruct (skip_ws s) as [ | q r0 ] eqn:Hs; [ discriminate | ].
    pose proof (skip_ws_head _ _ _ Hs) as Hws.
    destruct (Ascii.eqb q dquote) eqn:Eq; [ | discriminate ].
    destruct (parse_string_body r0) as [ [ k r1 ] | ] eqn:Hstr; [ | discriminate ].
    cbn [scan scan_step]. rewrite Hws, Eq.
    rewrite (scan_string_body true _ _ _ _ Hstr).
    rewrite (scan_skip_ws BeforeColon) by reflexivity.
    destruct (skip_ws r1) as [ | co r2 ] eqn:Hs1; [ discriminate | ].
    destruct (Ascii.eqb co ":") eqn:Eco; [ | discriminate ].
    cbn [scan scan_step]. rewrite (skip_ws_head _ _ _ Hs1), Eco.
    destruct (parse_value f r2) as [ [ v r3 ] | ] eqn:Hv; [ | discriminate ].
    rewrite (IHv _ _ _ (Curly :: open) Hv).
    rewrite (scan_skip_ws AfterValue) by reflexivity.
    destruct (skip_ws r3) as [ | c r' ] eqn:Hs3; [ discriminate | ].
    cbn [scan scan_step]. unfold after_value. rewrite (skip_ws_head _ _ _ Hs3).
    destruct (Ascii.eqb c ",") eqn:Ec.
    + destruct (parse_members f r') as [ [ ms' r'' ] | ] eqn:Hmem; [ | discriminate ].
      intros [= _ <-]. exact (IHm _ _ _ _ Hmem).
    + destruct (Ascii.eqb c "]") eqn:Eb.
      { apply Ascii.eqb_eq in Eb. subst c. discriminate. }
      destruct (Ascii.eqb c "}") eqn:Ecl; [ | discriminate ].
      now intros [= _ <-].
Qed.

(** A text [JSON_parse] reads is one [is_json] accepts: the model reads
    no text that [JSON.parse] refuses. *)
Lemma JSON_parse_is_json (s : string) (v : json) :
  JSON_parse s = Some v -> is_json s = true.
Proof.
  unfold JSON_parse, is_json.
  destruct (parse_value (S (String.length s)) s) as [ [ v' r ] | ] eqn:Hv; [ | discriminate ].
  destruct (skip_ws r) as [ | c r' ] eqn:Hs; [ | discriminate ].
  intros _. destruct (scan_parse (S (String.length s))) as (Hvalue & _ & _).
  rewrite (Hvalue _ _ _ [] Hv), (scan_skip_ws AfterValue), Hs by reflexivity.
  reflexivity.
Qed.

Lemma is_json_false_parse (s : string) : is_json s = false -> JSON_parse s = None.
Proof.
  intros Hj. destruct (JSON_parse s) as [ v | ] eqn:Hp; [ | reflexivity ].
  apply JSON_parse_is_json in Hp. congruence.
Qed.

(** A file whose text is not JSON is one the model does not parse. *)
Lemma file_state_not_json (d : gmap string string) (filename text : string) :
  d !! filename = Some text -> is_json text = false ->
  file_state d filename = Unparsable text.
Proof.
  intros Hfile Hjson. unfold file_state. now rewrite Hfile, (is_json_false_parse _ Hjson).
Qed.

(* ===================================================================== *)
(** ** The record store                                                     *)
(* ===================================================================== *)

Lemma loadData_spec (filename : string) (env : Env) (w : World) :
  loadData filename env w = (Ok (loaded_value (file_state (disk w) filename)), w).
Proof.
  unfold loadData, try_catch, bind, readFile, JSON_parse_throw, file_state.
  cbn [parse null json_serializer].
  destruct (disk w !! filename) as [ text | ]; [ | reflexivity ].
  destruct (JSON_parse text); reflexivity.
Qed.

Lemma saveData_spec (filename : string) (data : json) (env : Env) (w : World) :
  saveData filename data env w = (Ok (write_ok env filename), written filename data env w).
Proof.
  unfold saveData, try_catch, bind, writeFile, ret, written.
  destruct (write_ok env filename); reflexivity.
Qed.

Lemma archive_loadData_spec (filename : string) :
  archiveMessages.loadData filename = loadData filename.
Proof. reflexivity. Qed.

Lemma archive_saveData_spec (filename : string) (data : json) :
  archiveMessages.saveData filename data = saveData filename data.
Proof. reflexivity. Qed.

Lemma file_state_stringify (d : gmap string string) (filename : string) (v : json) :
  d !! filename = Some (JSON_stringify v) -> file_state d filename = Parsed v.
Proof. intros H. unfold file_state. now rewrite H, JSON_parse_stringify. Qed.

Lemma disk_written (filename : string) (data : json) (env : Env) (w : World) :
  disk (written filename data env w) =
  if write_ok env filename then <[filename := JSON_stringify data]> (disk w) else disk w.
Proof. unfold written. destruct (write_ok env filename); reflexivity. Qed.

(** C5. The round trip of the record store, over any serializer.  For a
    value [v] that [parse] reads back from its own text, and a file [R]
    that holds that text: [loadData] returns [v] and changes nothing;
    [saveData] of [v] calls [fs.writeFile] on [R] once, with the text the
    file holds already, so that every file of the data directory has the
    bytes it had, whether or not the write goes through; loading, saving
    what was loaded and loading again returns [v] with one such write and
    the same bytes, so that the pair can be repeated without any change.
    The same holds for the two helpers of the archival job. *)
Theorem record_store_round_trip {value : Type} `{Serializer value} (R : string)
  (v : value) (env : Env) (w : World) :
  parse (stringify v) = Some v ->
  disk w !! R = Some (stringify v) ->
  let saved := saveData R v env w in
  let again := (loaded <- loadData R ;; (saveData R loaded ;;; loadData R)) env w in
  loadData R env w = (Ok v, w) /\
  fst saved = Ok (write_ok env R) /\
  writes (snd saved) = R :: writes w /\
  (write_ok env R = true -> disk (snd saved) = <[R := stringify v]> (disk w)) /\
  disk (snd saved) = disk w /\
  fst again = Ok v /\
  writes (snd again) = R :: writes w /\
  disk (snd again) = disk w /\
  disk (snd again) !! R = Some (stringify v) /\
  archiveMessages.loadData R env w = (Ok v, w) /\
  fst (archiveMessages.saveData R v env w) = Ok (write_ok env R) /\
  writes (snd (archiveMessages.saveData R v env w)) = R :: writes w /\
  (write_ok env R = true ->
     disk (snd (archiveMessages.saveData R v env w)) = <[R := stringify v]> (disk w)) /\
  disk (snd (archiveMessages.saveData R v env w)) = disk w.
Proof.
  intros Hlaw Hfile saved again.
  set (w1 := if write_ok env R
             then set_disk (<[R := stringify v]> (disk w)) (set_writes (R :: writes w) w)
             else set_writes (R :: writes w) w).
  assert (Hload : forall w', disk w' = disk w -> loadData R env w' = (Ok v, w')).
  { intros w' Hd.
    unfold loadData, try_catch, bind, readFile, JSON_parse_throw.
    now rewrite Hd, Hfile, Hlaw. }
  assert (Hsave : saveData R v env w = (Ok (write_ok env R), w1)).
  { unfold saveData, try_catch, bind, writeFile, ret, w1.
    destruct (write_ok env R); reflexivity. }
  assert (Hsame : <[R := stringify v]> (disk w) = disk w) by now apply insert_id.
  assert (Hdisk : disk w1 = disk w).
  { unfold w1. destruct (write_ok env R); cbn [disk set_disk set_writes];
      [ exact Hsame | reflexivity ]. }
  assert (Hwrites : writes w1 = R :: writes w).
  { unfold w1. destruct (write_ok env R); reflexivity. }
  assert (Hagain : again = (Ok v, w1)).
  { unfold again, bind. rewrite (Hload w eq_refl), Hsave. now apply Hload. }
  change (archiveMessages.loadData R) with (loadData R).
  change (archiveMessages.saveData R v) with (saveData R v).
  unfold saved. rewrite Hagain, Hsave. cbn [fst snd]. rewrite Hdisk, Hwrites.
  split; [ now apply Hload | ].
  split; [ reflexivity | ].
  split; [ reflexivity | ].
  split; [ intros _; now rewrite Hsame | ].
  repeat split; try reflexivity; try assumption.
  - now apply Hload.
  - intros _. now rewrite Hsame.
Qed.

(* ===================================================================== *)
(** ** [GET /api/projects]                                                  *)
(* ===================================================================== *)

(** The list [GET /api/projects] answers with, by the state of the file. *)
Lemma get_projects_try_spec (req : Request) (env : Env) (w : World) :
  get_projects_try req env w =
  (Ok (json_response 200
         (match file_state (disk w) "projects.json" with
          | Parsed (JArr xs) => JArr xs
          | _ => JArr []
          end)), w).
Proof.
  unfold get_projects_try, bind. rewrite loadData_spec. unfold ret.
  destruct (file_state (disk w) "projects.json") as [ | text | [ | b | n | s | xs | ms ] ];
    reflexivity.
Qed.

(** C10. Whatever the state of [projects.json], [GET /api/projects]
    answers 200 with a JSON array and leaves the world as it was; the [try]
    block always returns, so the 500 branch of the [catch] never runs.  The
    array is the empty one when the file is missing, when its text is not
    JSON, and when it holds a value that is no array; it is the stored
    array when the file holds one. *)
Theorem get_projects_always_array (req : Request) (env : Env) (w : World) :
  let served := serve (get_projects req) env w in
  (exists response, get_projects_try req env w = (Ok response, w)) /\
  snd served = w /\
  status (fst served) = 200 /\
  isArray (body (fst served)) = true /\
  (disk w !! "projects.json" = None -> body (fst served) = JArr []) /\
  (forall text, disk w !! "projects.json" = Some text -> is_json text = false ->
     body (fst served) = JArr []) /\
  (forall xs, file_state (disk w) "projects.json" = Parsed (JArr xs) ->
     body (fst served) = JArr xs) /\
  (forall v, file_state (disk w) "projects.json" = Parsed v -> isArray v = false ->
     body (fst served) = JArr []).
Proof.
  intros served.
  pose proof (get_projects_try_spec req env w) as Htry.
  assert (Hserve : served =
    (json_response 200
       (match file_state (disk w) "projects.json" with
        | Parsed (JArr xs) => JArr xs
        | _ => JArr []
        end), w)).
  { unfold served, serve, get_projects, try_catch. now rewrite Htry. }
  split; [ eauto | ]. rewrite Hserve. cbn [fst snd status body json_response].
  split; [ reflexivity | ]. split; [ reflexivity | ].
  split.
  { destruct (file_state (disk w) "projects.json") as [ | text | [ | b | n | s | xs | ms ] ];
      reflexivity. }
  split; [ | split; [ | split ] ].
  - intros Hnone. unfold file_state. now rewrite Hnone.
  - intros text Htext Hjson. unfold file_state.
    now rewrite Htext, (is_json_false_parse _ Hjson).
  - intros xs Hfile. now rewrite Hfile.
  - intros v Hfile Hv. rewrite Hfile. now destruct v.
Qed.

(* ===================================================================== *)
(** ** Deleting an id that is not there                                     *)
(* ===================================================================== *)

Lemma authenticateToken_authorized `{Crypto} (next : Request -> M Response)
  (req : Request) (env : Env) (w : World) :
  authorized req env w ->
  authenticateToken next req env w = next req env (set_ticks (S (ticks w)) w).
Proof.
  intros (authHeader & token & payload & Hh & Hne & Hsplit & Htok & Hverify).
  unfold authenticateToken. rewrite Hh.
  apply String.eqb_neq in Hne, Htok. rewrite Hne, Hsplit, Htok.
  unfold bind, now. now rewrite Hverify.
Qed.

Lemma id_is_not_absent (id : string) (p : json) :
  p <> JNull -> holds_id id p = false -> id_is_not id p = Ok true.
Proof.
  intros Hp Hid. unfold id_is_not, member, holds_id in *.
  destruct p; try congruence; simpl in *; rewrite ?Hid; reflexivity.
Qed.

Lemma id_is_absent (id : string) (p : json) :
  p <> JNull -> holds_id id p = false -> id_is id p = Ok false.
Proof.
  intros Hp Hid. unfold id_is, member, holds_id in *.
  destruct p; try congruence; simpl in *; rewrite ?Hid; reflexivity.
Qed.

Lemma filter_r_absent (id : string) (xs : list json) :
  absent id xs -> filter_r (id_is_not id) xs = Ok xs.
Proof.
  induction 1 as [ | p xs [Hp Hid] _ IH ]; [ reflexivity | ].
  cbn [filter_r]. rewrite (id_is_not_absent _ _ Hp Hid). cbn [rbind]. now rewrite IH.
Qed.

Lemma find_r_absent (id : string) (xs : list json) :
  absent id xs -> find_r (id_is id) xs = Ok None.
Proof.
  induction 1 as [ | p xs [Hp Hid] _ IH ]; [ reflexivity | ].
  cbn [find_r]. rewrite (id_is_absent _ _ Hp Hid). cbn [rbind]. exact IH.
Qed.

Lemma findIndex_r_absent (id : string) (xs : list json) :
  absent id xs -> findIndex_r (id_is id) xs = Ok None.
Proof.
  induction 1 as [ | p xs [Hp Hid] _ IH ]; [ reflexivity | ].
  cbn [findIndex_r]. rewrite (id_is_absent _ _ Hp Hid). cbn [rbind]. now rewrite IH.
Qed.

Lemma delete_unauthenticated_absent (c : Collection) (req : Request) (env : Env)
  (w : World) (xs : list json) :
  stored_collection c (disk w) = Some xs ->
  absent (params_id req) xs ->
  exists response,
    match c with
    | ProjectsC => delete_project
    | EducationC => delete_education
    | TechnologiesC => delete_technology
    | SkillsC => delete_skill
    | MessagesC => delete_message
    end req env w = (Ok response, w) /\ status response = 404.
Proof.
  intros Hstored Habs. unfold stored_collection in Hstored.
  pose proof (filter_r_absent _ _ Habs) as Hfilter.
  pose proof (find_r_absent _ _ Habs) as Hfind.
  destruct c; cbn [collection_file] in Hstored;
    unfold delete_project, delete_education, delete_technology, delete_skill,
      delete_message, try_catch, bind;
    rewrite loadData_spec;
    match type of Hstored with
    | context [file_state ?d ?f] => destruct (file_state d f) as [ | text | v ]
    end; cbn [loaded_value];
    try (injection Hstored as <-);
    try (destruct v as [ | b | n | s | ys | ms ]; try discriminate Hstored);
    try (injection Hstored as <-);
    cbn -[Nat.eqb];
    rewrite ?Hfilter, ?Hfind; cbn -[Nat.eqb]; rewrite ?Nat.eqb_refl;
    eauto.
  (* the skills wrapper *)
  unfold no_skills, skills_array. cbn [truthy prop negb orb].
  destruct (obj_get "skills" ms) as [ [ | | | | zs | ] | ]; try discriminate Hstored.
  injection Hstored as <-. cbn -[Nat.eqb].
  rewrite Hfilter. cbn -[Nat.eqb]. rewrite Nat.eqb_refl. eauto.
Qed.

(** C9. For each of the collections (projects, education, messages, the
    skills under their wrapper, and the technologies view of the skills
    file) and an authenticated DELETE whose id no stored record has, the
    answer is 404, [fs.writeFile] is not called and the data directory is
    what it was.  The stored records are those of [stored_collection]: the
    array in the file, and none when the file is missing or its text is
    not JSON. *)
Theorem delete_absent_id_not_found `{Crypto} `{Calendar} (c : Collection)
  (req : Request) (env : Env) (w : World) (xs : list json) :
  authorized req env w ->
  stored_collection c (disk w) = Some xs ->
  absent (params_id req) xs ->
  let served := serve (route (collection_delete c) req) env w in
  status (fst served) = 404 /\
  disk (snd served) = disk w /\
  writes (snd served) = writes w /\
  stored_collection c (disk (snd served)) = Some xs.
Proof.
  intros Hauth Hstored Habs served.
  destruct (delete_unauthenticated_absent c req env (set_ticks (S (ticks w)) w) xs
              Hstored Habs) as (response & Hrun & Hstatus).
  assert (Hserved : served = (response, set_ticks (S (ticks w)) w)).
  { unfold served, serve.
    destruct c; cbn [collection_delete route];
      rewrite (authenticateToken_authorized _ _ _ _ Hauth), Hrun; reflexivity. }
  rewrite Hserved. cbn [fst snd set_ticks disk writes]. auto.
Qed.

(* ===================================================================== *)
(** ** The top-level form of a data file is kept                            *)
(* ===================================================================== *)

Section Preserves.
Context {I : World -> Prop}.

Lemma preserves_ret {A : Type} (a : A) : preserves I (ret a).
Proof. intros env w Hw. exact Hw. Qed.

Lemma preserves_throw {A : Type} (e : error) : preserves I (@throw A e).
Proof. intros env w Hw. exact Hw. Qed.

Lemma preserves_lift {A : Type} (r : result A) : preserves I (lift r).
Proof. intros env w Hw. exact Hw. Qed.

Lemma preserves_bind {A B : Type} (m : M A) (k : A -> M B) :
  preserves I m -> (forall a, preserves I (k a)) -> preserves I (bind m k).
Proof.
  intros Hm Hk env w Hw. unfold bind. specialize (Hm env w Hw).
  destruct (m env w) as [[a | e] w']; [ now apply Hk | exact Hm ].
Qed.

Lemma preserves_bind_lift {A B : Type} (r : result A) (k : A -> M B) :
  (forall a, r = Ok a -> preserves I (k a)) -> preserves I (bind (lift r) k).
Proof.
  intros Hk env w Hw. unfold bind, lift.
  destruct r as [a | e]; [ now apply Hk | exact Hw ].
Qed.

Lemma preserves_try_catch {A : Type} (body : M A) (handler : error -> M A) :
  preserves I body -> (forall e, preserves I (handler e)) ->
  preserves I (try_catch body handler).
Proof.
  intros Hb Hh env w Hw. unfold try_catch. specialize (Hb env w Hw).
  destruct (body env w) as [[a | e] w']; [ exact Hb | now apply Hh ].
Qed.
End Preserves.

Section ShapeKept.
Variables (F : string) (S0 : Shape).

Let I : World -> Prop := has_shape F S0.

Lemma preserves_now : preserves I now.
Proof. intros env w Hw. exact Hw. Qed.

Lemma preserves_sendMail (mail : Mail) : preserves I (sendMail mail).
Proof. intros env w Hw. unfold sendMail. destruct (mail_ok env); exact Hw. Qed.

Lemma preserves_bind_loadData {B : Type} (f : string) (k : json -> M B) :
  (forall v, (f = F -> shape_of v = S0) -> preserves I (k v)) ->
  preserves I (bind (loadData f) k).
Proof.
  intros Hk env w Hw. unfold bind. rewrite loadData_spec.
  apply Hk; [ | exact Hw ]. intros ->.
  unfold I, has_shape, file_shape, file_state in *.
  destruct (disk w !! F) as [ text | ]; [ | discriminate ].
  destruct (JSON_parse text); [ | discriminate ]. now injection Hw.
Qed.

Lemma preserves_saveData (f : string) (v : json) :
  (f = F -> shape_of v = S0) -> preserves I (saveData f v).
Proof.
  intros Hv env w Hw. rewrite saveData_spec. cbn [snd].
  unfold I, has_shape, file_shape in *. rewrite disk_written.
  destruct (write_ok env f); [ | exact Hw ].
  destruct (decide (f = F)) as [ -> | Hne ].
  - rewrite lookup_insert_eq, JSON_parse_stringify. now rewrite Hv.
  - now rewrite lookup_insert_ne.
Qed.

Lemma preserves_authenticateToken `{Crypto} (next : Request -> M Response)
  (req : Request) :
  preserves I (next req) -> preserves I (authenticateToken next req).
Proof.
  intros Hnext. unfold authenticateToken.
  destruct (match authorization req with
            | Some authHeader =>
                if String.eqb authHeader "" then None
                else nth_error (split_on " " authHeader) 1
            | None => None
            end) as [ tok | ]; [ | apply preserves_ret ].
  destruct (String.eqb tok ""); [ apply preserves_ret | ].
  apply preserves_bind; [ apply preserves_now | intros t ].
  destruct (jwt_verify tok JWT_SECRET t); [ exact Hnext | apply preserves_ret ].
Qed.

Lemma preserves_fresh_id : preserves I fresh_id.
Proof.
  apply preserves_bind; [ apply preserves_now | intros; apply preserves_ret ].
Qed.

Lemma preserves_timestamp `{Calendar} : preserves I timestamp.
Proof.
  apply preserves_bind; [ apply preserves_now | intros; apply preserves_ret ].
Qed.
End ShapeKept.

Lemma snd_serve (h : M Response) (env : Env) (w : World) :
  snd (serve h env w) = snd (h env w).
Proof. unfold serve. now destruct (h env w) as [[r | e] w']. Qed.

(** A loaded value in the wrapper form is no receiver of an array method. *)
Lemma wrapper_not_array (v d : json) (xs : list json) :
  shape_of v = SkillsWrapper -> as_array (or_else v d) = Ok xs -> False.
Proof. destruct v; discriminate. Qed.

Lemma with_skills_shape (skills : json) (entries xs : list json) :
  skills_array skills = Ok entries ->
  shape_of (with_skills skills xs) = SkillsWrapper.
Proof.
  unfold skills_array, prop, with_skills. destruct skills as [ | | | | | ms ]; try discriminate.
  intros _. cbn [shape_of].
  assert (H : obj_get "skills" (obj_set "skills" (JArr xs) ms) = Some (JArr xs)).
  { induction ms as [ | [k v] ms IH ]; [ reflexivity | ].
    cbn [obj_set]. destruct (String.eqb "skills" k) eqn:E; cbn [obj_get];
      [ now rewrite String.eqb_refl | now rewrite E ]. }
  now rewrite H.
Qed.

Ltac solve_shape :=
  first
    [ discriminate
    | reflexivity
    | eapply with_skills_shape; eassumption
    | exfalso; eapply wrapper_not_array;
      [ match goal with H : _ = _ -> shape_of _ = _ |- _ => apply H; reflexivity end
      | eassumption ] ].

Ltac keep_shape :=
  repeat first
    [ apply preserves_ret
    | apply preserves_throw
    | apply preserves_lift
    | apply preserves_now
    | apply preserves_fresh_id
    | apply preserves_timestamp
    | apply preserves_sendMail
    | apply preserves_saveData; intros ?; solve_shape
    | apply preserves_bind_loadData; intros ? ?
    | apply preserves_bind_lift; intros ? ?
    | apply preserves_try_catch; [ | intros ? ]
    | apply preserves_bind; [ | intros ? ]
    | progress cbv zeta
    | match goal with
      | |- preserves _ (match ?x with _ => _ end) => destruct x eqn:?
      | |- preserves _ (if ?b then _ else _) => destruct b eqn:?
      end ].

Lemma preserves_updated_image (F : string) (S0 : Shape) (req : Request)
  (old : list (string * json)) :
  preserves (has_shape F S0) (updated_image req old).
Proof.
  unfold updated_image. keep_shape.
  intros env w Hw. destruct (public_path (obj_get "image" old)); [ | exact Hw ].
  destruct (asset_removed env a); exact Hw.
Qed.

Lemma route_keeps_shape `{Crypto} `{Calendar} (ep : Endpoint) (r : Resource)
  (req : Request) :
  preserves (has_shape (resource_file r) (resource_shape r)) (route ep req).
Proof.
  destruct ep; cbn [route]; try apply preserves_authenticateToken;
    destruct r; cbn [resource_file resource_shape];
    unfold get_projects, get_projects_try, get_project, post_project, put_project,
      delete_project, get_education, get_education_entry, post_education,
      put_education, delete_education, get_technologies, post_technology,
      put_technology, delete_technology, get_skills, get_skill, post_skill,
      put_skill, delete_skill, post_message, get_messages, get_unread_count,
      get_message, put_message_read, delete_message, new_record, merged_record;
    keep_shape; try apply preserves_updated_image.
Qed.

(** C6. Whatever route over the data files is served, with whatever
    request, a resource file that has the form of its resource type (a bare
    array for projects, education and messages, the [skills] wrapper for
    skills) has that form afterwards. *)
Theorem crud_keeps_shape `{Crypto} `{Calendar} (ep : Endpoint) (r : Resource)
  (req : Request) (env : Env) (w : World) :
  file_shape (disk w) (resource_file r) = Some (resource_shape r) ->
  file_shape (disk (snd (serve (route ep req) env w))) (resource_file r)
    = Some (resource_shape r).
Proof.
  intros Hshape. rewrite snd_serve. now apply (route_keeps_shape ep r req env w).
Qed.

(* ===================================================================== *)
(** ** The archival job                                                     *)
(* ===================================================================== *)

Lemma is_old_archivable `{Calendar} (cutoff : Z) (message : json) :
  message <> JNull ->
  archiveMessages.is_old cutoff message = Ok (archivable cutoff message).
Proof.
  intros Hm. unfold archiveMessages.is_old, archivable, member.
  destruct message; try congruence; cbn [rbind];
    destruct (Date_value _) as [ d | ]; try reflexivity;
    destruct (d <? cutoff)%Z; reflexivity.
Qed.

Lemma split_messages_filter `{Calendar} (cutoff : Z) (messages : list json) :
  Forall (fun m => m <> JNull) messages ->
  archiveMessages.split_messages (archiveMessages.is_old cutoff) messages =
  Ok (List.filter (archivable cutoff) messages,
      List.filter (fun m => negb (archivable cutoff m)) messages).
Proof.
  induction 1 as [ | m ms Hm _ IH ]; [ reflexivity | ].
  cbn [archiveMessages.split_messages List.filter].
  rewrite (is_old_archivable _ _ Hm), IH. cbn [rbind fst snd].
  destruct (archivable cutoff m); reflexivity.
Qed.

Lemma archive_name_not_messages `{Calendar} (t : Z) :
  archiveMessages.archive_name t <> "messages.json".
Proof. unfold archiveMessages.archive_name. discriminate. Qed.

Lemma stored_archive_loaded (d : gmap string string) (filename : string)
  (archive : list json) :
  stored_archive d filename = Some archive ->
  as_array (or_else (loaded_value (file_state d filename)) (JArr [])) = Ok archive.
Proof.
  unfold stored_archive.
  destruct (file_state d filename) as [ | text | [ | b | n | s | xs | ms ] ];
    try destruct (is_json text); try discriminate; now intros [= <-].
Qed.

(** The world one run of the job leaves, when the active file holds the
    records [messages]. *)
Lemma archiveOldMessages_run `{Calendar} (env : Env) (w : World)
  (messages archive : list json) :
  let thirtyDaysAgo := setDate_back 30 (clock env (ticks w)) in
  let archiveFile := archiveMessages.archive_name (clock env (S (ticks w))) in
  let oldMessages := List.filter (archivable thirtyDaysAgo) messages in
  let currentMessages := List.filter (fun m => negb (archivable thirtyDaysAgo m)) messages in
  file_state (disk w) "messages.json" = Parsed (JArr messages) ->
  Forall (fun m => m <> JNull) messages ->
  stored_archive (disk w) archiveFile = Some archive ->
  snd (archiveMessages.archiveOldMessages env w) =
  match oldMessages with
  | [] => set_ticks (S (ticks w)) w
  | _ :: _ =>
      written "messages.json" (JArr currentMessages) env
        (written archiveFile (JArr (archive ++ oldMessages)) env
           (set_ticks (S (S (ticks w))) w))
  end.
Proof.
  intros thirtyDaysAgo archiveFile oldMessages currentMessages Hfile Hrec Harch.
  unfold archiveMessages.archiveOldMessages, try_catch, bind.
  change (archiveMessages.loadData "messages.json") with (loadData "messages.json").
  rewrite loadData_spec, Hfile. cbn [loaded_value or_else truthy now lift as_array].
  rewrite (split_messages_filter _ _ Hrec). cbn [fst snd].
  fold thirtyDaysAgo. fold oldMessages. fold currentMessages.
  destruct oldMessages as [ | m0 old' ] eqn:Hold; [ reflexivity | ].
  cbn [now set_ticks ticks]. fold archiveFile.
  change (archiveMessages.loadData archiveFile) with (loadData archiveFile).
  rewrite loadData_spec. cbn [disk set_ticks lift].
  rewrite (stored_archive_loaded _ _ _ Harch).
  change (archiveMessages.saveData ?f ?v) with (saveData f v).
  rewrite !saveData_spec. reflexivity.
Qed.

Lemma file_state_written_same (f : string) (v : json) (env : Env) (w : World) :
  write_ok env f = true -> file_state (disk (written f v env w)) f = Parsed v.
Proof.
  intros Hok. rewrite disk_written, Hok. apply file_state_stringify.
  apply lookup_insert_eq.
Qed.

Lemma lookup_written_other (f g : string) (v : json) (env : Env) (w : World) :
  g <> f -> disk (written f v env w) !! g = disk w !! g.
Proof.
  intros Hne. rewrite disk_written. destruct (write_ok env f); [ | reflexivity ].
  now apply lookup_insert_ne.
Qed.

Lemma file_state_written_other (f g : string) (v : json) (env : Env) (w : World) :
  g <> f -> file_state (disk (written f v env w)) g = file_state (disk w) g.
Proof. intros Hne. unfold file_state. now rewrite lookup_written_other. Qed.

(** C7. One run of the job over an active file of records: the messages
    are split into the old ones (created before the date thirty days back
    and read) and the current ones (all others), each in file order.  When
    none is old nothing is written and the data directory stays as it is.
    Otherwise the archive file of the current year holds its former
    content followed by the old messages, the active file holds the current
    ones, and no other file changes.  The archive's former content is that
    of [stored_archive]: nothing for a missing file or a text that is not
    JSON, the stored array otherwise.  On a host with whole days, a read
    message created 31 days ago is among the old ones and not among the
    current ones, and an unread one of the same age is among the current
    ones. *)
Theorem archive_old_messages `{Calendar} (env : Env) (w : World)
  (messages archive : list json) :
  let t := clock env (ticks w) in
  let thirtyDaysAgo := setDate_back 30 t in
  let archiveFile := archiveMessages.archive_name (clock env (S (ticks w))) in
  let oldMessages := List.filter (archivable thirtyDaysAgo) messages in
  let currentMessages := List.filter (fun m => negb (archivable thirtyDaysAgo m)) messages in
  let w' := snd (archiveMessages.archiveOldMessages env w) in
  file_state (disk w) "messages.json" = Parsed (JArr messages) ->
  Forall (fun m => m <> JNull) messages ->
  stored_archive (disk w) archiveFile = Some archive ->
  write_ok env archiveFile = true ->
  write_ok env "messages.json" = true ->
  (oldMessages = [] -> disk w' = disk w /\ writes w' = writes w) /\
  (oldMessages <> [] ->
     file_state (disk w') archiveFile = Parsed (JArr (archive ++ oldMessages)) /\
     file_state (disk w') "messages.json" = Parsed (JArr currentMessages) /\
     forall f, f <> archiveFile -> f <> "messages.json" -> disk w' !! f = disk w !! f) /\
  (whole_days ->
   forall m, In m messages ->
     Date_value (prop "createdAt" m) = Some (t - 31 * day_ms) ->
     (prop "read" m = Some (JBool true) ->
        In m oldMessages /\ ~ In m currentMessages /\
        file_state (disk w') archiveFile = Parsed (JArr (archive ++ oldMessages)) /\
        file_state (disk w') "messages.json" = Parsed (JArr currentMessages)) /\
     (prop "read" m = Some (JBool false) ->
        In m currentMessages /\ ~ In m oldMessages /\
        exists kept, file_state (disk w') "messages.json" = Parsed (JArr kept) /\
                     In m kept)).
Proof.
  intros t thirtyDaysAgo archiveFile oldMessages currentMessages w'
    Hfile Hrec Harch Hwa Hwm.
  pose proof (archiveOldMessages_run env w messages archive Hfile Hrec Harch) as Hrun.
  cbv zeta in Hrun. fold t thirtyDaysAgo archiveFile oldMessages currentMessages w' in Hrun.
  assert (Hne : archiveFile <> "messages.json") by apply archive_name_not_messages.
  assert (Hwritten : oldMessages <> [] ->
     file_state (disk w') archiveFile = Parsed (JArr (archive ++ oldMessages)) /\
     file_state (disk w') "messages.json" = Parsed (JArr currentMessages) /\
     forall f, f <> archiveFile -> f <> "messages.json" -> disk w' !! f = disk w !! f).
  { intros Hold. rewrite Hrun. destruct oldMessages as [ | m0 old' ]; [ congruence | ].
    split; [ | split ].
    - rewrite file_state_written_other by exact Hne.
      now apply file_state_written_same.
    - now apply file_state_written_same.
    - intros f Hfa Hfm. now rewrite !lookup_written_other. }
  split; [ | split ].
  - intros Hold. rewrite Hrun, Hold. now split.
  - exact Hwritten.
  - intros Hdays m Hin Hdate.
    assert (Hcut : (t - 31 * day_ms <? thirtyDaysAgo)%Z = true).
    { unfold thirtyDaysAgo. rewrite Hdays. apply Z.ltb_lt. unfold day_ms. lia. }
    split; intros Hread.
    + assert (Harc : archivable thirtyDaysAgo m = true).
      { unfold archivable. now rewrite Hdate, Hcut, Hread. }
      assert (Hold : In m oldMessages).
      { apply filter_In. now split. }
      assert (Hnil : oldMessages <> []).
      { intros E. rewrite E in Hold. exact Hold. }
      destruct (Hwritten Hnil) as (Ha & Hm & _).
      repeat split; try assumption.
      intros Hc. apply filter_In in Hc as [_ Hc]. now rewrite Harc in Hc.
    + assert (Harc : archivable thirtyDaysAgo m = false).
      { unfold archivable. rewrite Hdate, Hcut, Hread. reflexivity. }
      assert (Hcur : In m currentMessages).
      { apply filter_In. split; [ exact Hin | now rewrite Harc ]. }
      split; [ exact Hcur | split ].
      * intros Ho. apply filter_In in Ho as [_ Ho]. now rewrite Harc in Ho.
      * destruct oldMessages as [ | m0 old' ] eqn:Hold.
        -- exists messages. rewrite Hrun. cbn [disk set_ticks]. now split.
        -- exists currentMessages. split; [ | exact Hcur ].
           apply Hwritten. discriminate.
Qed.

(* ===================================================================== *)
(** ** The consume endpoint of the password-reset flow                      *)
(* ===================================================================== *)

Lemma first_match_spec `{Crypto} (token : string) (clk : nat -> Z)
  (candidates : list User) :
  forall n,
  match first_match token clk n candidates with
  | Some (i, u) =>
      candidates !! i = Some u /\
      sample_prefix (clk (n + i)%nat) u = Some token /\
      forall j v, (j < i)%nat -> candidates !! j = Some v ->
                  sample_prefix (clk (n + j)%nat) v <> Some token
  | None =>
      forall i u, candidates !! i = Some u ->
                  sample_prefix (clk (n + i)%nat) u <> Some token
  end.
Proof.
  induction candidates as [ | u rest IH ]; intros n; cbn [first_match].
  - intros i u Hi. now rewrite lookup_nil in Hi.
  - unfold prefix_matches at 1.
    destruct (sample_prefix (clk n) u) as [ p | ] eqn:Hp.
    + destruct (String.eqb token p) eqn:E.
      * apply String.eqb_eq in E. subst p. rewrite Nat.add_0_r.
        repeat split; [ exact Hp | intros j v Hj; lia ].
      * apply String.eqb_neq in E. specialize (IH (S n)).
        destruct (first_match token clk (S n) rest) as [ [i v] | ].
        -- destruct IH as (Hi & Hs & Hbefore).
           replace (n + S i)%nat with (S n + i)%nat by lia.
           repeat split; [ exact Hi | exact Hs | ].
           intros [ | j ] x Hj Hx.
           ++ cbn in Hx. injection Hx as <-. rewrite Nat.add_0_r, Hp. congruence.
           ++ replace (n + S j)%nat with (S n + j)%nat by lia.
              apply (Hbefore j x); [ lia | exact Hx ].
        -- intros [ | i ] x Hx.
           ++ cbn in Hx. injection Hx as <-. rewrite Nat.add_0_r, Hp. congruence.
           ++ replace (n + S i)%nat with (S n + i)%nat by lia. now apply IH.
    + specialize (IH (S n)).
      destruct (first_match token clk (S n) rest) as [ [i v] | ].
      * destruct IH as (Hi & Hs & Hbefore).
        replace (n + S i)%nat with (S n + i)%nat by lia.
        repeat split; [ exact Hi | exact Hs | ].
        intros [ | j ] x Hj Hx.
        -- cbn in Hx. injection Hx as <-. rewrite Nat.add_0_r, Hp. discriminate.
        -- replace (n + S j)%nat with (S n + j)%nat by lia.
           apply (Hbefore j x); [ lia | exact Hx ].
      * intros [ | i ] x Hx.
        -- cbn in Hx. injection Hx as <-. rewrite Nat.add_0_r, Hp. discriminate.
        -- replace (n + S i)%nat with (S n + i)%nat by lia. now apply IH.
Qed.

(** A first match is the only one [first_match] can return. *)
Lemma first_match_unique `{Crypto} (token : string) (clk : nat -> Z) (n : nat)
  (candidates : list User) (i : nat) (u : User) :
  candidates !! i = Some u ->
  sample_prefix (clk (n + i)%nat) u = Some token ->
  (forall j v, (j < i)%nat -> candidates !! j = Some v ->
               sample_prefix (clk (n + j)%nat) v <> Some token) ->
  first_match token clk n candidates = Some (i, u).
Proof.
  intros Hi Hs Hbefore. pose proof (first_match_spec token clk candidates n) as Hspec.
  destruct (first_match token clk n candidates) as [ [k v] | ].
  - destruct Hspec as (Hk & Hsk & Hbk).
    destruct (Nat.lt_trichotomy k i) as [ Hlt | [ -> | Hgt ] ].
    + exfalso. exact (Hbefore k v Hlt Hk Hsk).
    + congruence.
    + exfalso. exact (Hbk i u Hgt Hi Hs).
  - exfalso. exact (Hspec i u Hi Hs).
Qed.

(** The loop of the handler computes [first_match], reading the clock once
    per candidate it signs for. *)
Lemma match_candidate_spec `{Crypto} (token : string) (env : Env)
  (candidates : list User) :
  forall w,
  match_candidate token candidates env w =
  match first_match token (clock env) (ticks w) candidates with
  | Some (i, u) => (Ok (Some u), set_ticks (S (ticks w + i)) w)
  | None => (Ok None, set_ticks (ticks w + length candidates) w)
  end.
Proof.
  induction candidates as [ | u rest IH ]; intros w; cbn [match_candidate first_match].
  - unfold ret. cbn [length]. rewrite Nat.add_0_r. now destruct w.
  - unfold bind, sign_1h, now, ret, prefix_matches, sample_prefix. cbn [bind].
    destruct (jwt_sign (reset_payload u) JWT_SECRET 3600 (clock env (ticks w)))
      as [ sampleToken | ]; cbn [option_map].
    + destruct (String.eqb token (String.substring 0 64 sampleToken)).
      * now rewrite Nat.add_0_r.
      * rewrite IH. cbn [ticks set_ticks].
        destruct (first_match token (clock env) (S (ticks w)) rest) as [ [i v] | ];
          cbn [length]; f_equal; unfold set_ticks; cbn; f_equal; lia.
    + rewrite IH. cbn [ticks set_ticks].
      destruct (first_match token (clock env) (S (ticks w)) rest) as [ [i v] | ];
        cbn [length]; f_equal; unfold set_ticks; cbn; f_equal; lia.
Qed.

Lemma active_reset_spec (t : Z) (u : User) :
  active_reset t u = true <->
  exists h e, resetToken u = Some h /\ resetTokenExpires u = Some e /\ t < e.
Proof.
  unfold active_reset. destruct (resetToken u) as [ h | ], (resetTokenExpires u) as [ e | ].
  - rewrite Z.ltb_lt. split; [ eauto | ]. now intros (h' & e' & _ & [= <-] & Hlt).
  - split; [ discriminate | ]. now intros (h' & e' & _ & [=] & _).
  - split; [ discriminate | ]. now intros (h' & e' & [=] & _).
  - split; [ discriminate | ]. now intros (h' & e' & [=] & _).
Qed.

(** The handler up to the end of its loop. *)
Lemma reset_password_try_spec `{Crypto} (req : Request) (env : Env) (w : World)
  (t : string) :
  field "token" req = Some (JStr t) -> t <> "" ->
  truthy_opt (field "password" req) = true ->
  reset_password_try req env w =
  match first_match t (clock env) (S (ticks w))
          (List.filter (active_reset (clock env (ticks w))) (users w)) with
  | Some (i, u) =>
      consume_reset (field "password" req) (Some u) env
        (set_ticks (S (S (ticks w) + i)) w)
  | None =>
      consume_reset (field "password" req) None env
        (set_ticks (S (ticks w) +
                    length (List.filter (active_reset (clock env (ticks w))) (users w))) w)
  end.
Proof.
  intros Htok Hne Hpw. unfold reset_password_try. rewrite Htok, Hpw.
  cbn [truthy_opt truthy]. apply String.eqb_neq in Hne. rewrite Hne. cbn [negb orb].
  unfold bind at 1. cbn [lift as_string]. unfold bind at 1. cbn [now].
  unfold bind at 1. unfold find_users at 1. cbn [users set_ticks].
  unfold bind at 1. rewrite match_candidate_spec. cbn [ticks set_ticks].
  destruct (first_match t (clock env) (S (ticks w))
              (List.filter (active_reset (clock env (ticks w))) (users w)))
    as [ [i u] | ]; reflexivity.
Qed.

(** The candidate query keeps the accounts with a token and an expiry
    ahead of the clock reading [t0]. *)
Lemma candidates_spec (t0 : Z) (us : list User) (u : User) :
  In u (List.filter (active_reset t0) us) <->
  In u us /\
  exists h e, resetToken u = Some h /\ resetTokenExpires u = Some e /\ t0 < e.
Proof. rewrite filter_In, active_reset_spec. reflexivity. Qed.

(** The first candidate whose regenerated prefix is the token is the
    account the rest of the handler runs on. *)
Lemma reset_password_try_target `{Crypto} (req : Request) (env : Env) (w : World)
  (t : string) (i : nat) (u : User) :
  field "token" req = Some (JStr t) -> t <> "" ->
  truthy_opt (field "password" req) = true ->
  let candidates := List.filter (active_reset (clock env (ticks w))) (users w) in
  candidates !! i = Some u ->
  sample_prefix (clock env (S (ticks w) + i)%nat) u = Some t ->
  (forall j v, (j < i)%nat -> candidates !! j = Some v ->
     sample_prefix (clock env (S (ticks w) + j)%nat) v <> Some t) ->
  reset_password_try req env w =
  consume_reset (field "password" req) (Some u) env (set_ticks (S (S (ticks w) + i)) w).
Proof.
  intros Htok Hne Hpw candidates Hi Hs Hbefore.
  rewrite (reset_password_try_spec req env w t Htok Hne Hpw). fold candidates.
  now rewrite (first_match_unique t (clock env) (S (ticks w)) candidates i u Hi Hs Hbefore).
Qed.

(** Without a matching candidate the handler answers the invalid-or-expired
    error and only the clock has been read. *)
Lemma reset_password_no_match `{Crypto} (req : Request) (env : Env) (w : World)
  (t : string) :
  field "token" req = Some (JStr t) -> t <> "" ->
  truthy_opt (field "password" req) = true ->
  let candidates := List.filter (active_reset (clock env (ticks w))) (users w) in
  (forall i u, candidates !! i = Some u ->
     sample_prefix (clock env (S (ticks w) + i)%nat) u <> Some t) ->
  let served := serve (reset_password req) env w in
  fst served = error_response 400 "Invalid or expired password reset token." /\
  users (snd served) = users w /\
  disk (snd served) = disk w /\
  outbox (snd served) = outbox w.
Proof.
  intros Htok Hne Hpw candidates Hnone served.
  pose proof (reset_password_try_spec req env w t Htok Hne Hpw) as Htry.
  fold candidates in Htry.
  pose proof (first_match_spec t (clock env) candidates (S (ticks w))) as Hspec.
  destruct (first_match t (clock env) (S (ticks w)) candidates) as [ [i u] | ].
  - destruct Hspec as (Hi & Hs & _). exfalso. exact (Hnone i u Hi Hs).
  - unfold served, serve, reset_password, try_catch. rewrite Htry. cbn. auto.
Qed.


Lemma candidates_lookup_in (t0 : Z) (us : list User) (i : nat) (u : User) :
  List.filter (active_reset t0) us !! i = Some u ->
  In u us /\ active_reset t0 u = true.
Proof.
  intros Hi. apply list_elem_of_lookup_2 in Hi. apply list_elem_of_In in Hi.
  now apply filter_In in Hi.
Qed.

(** C2. When the loop finds its match and the stored expiry of that
    account has not passed at the expiry check, the answer is the success
    message, every document with the id of the match is replaced by the
    match with the hash of the new password and without reset token and
    expiry, and every other document, every file and the outbox are what
    they were. *)
Theorem reset_password_updates_target `{Crypto} (req : Request) (env : Env)
  (w : World) (t pw : string) (i : nat) (u : User) (e : Z) :
  field "token" req = Some (JStr t) -> t <> "" ->
  field "password" req = Some (JStr pw) -> pw <> "" ->
  tokens_hashed (users w) ->
  let candidates := List.filter (active_reset (clock env (ticks w))) (users w) in
  let regenerated := fun (j : nat) (v : User) =>
    sample_prefix (clock env (S (ticks w) + j)%nat) v in
  candidates !! i = Some u ->
  regenerated i u = Some t ->
  (forall j v, (j < i)%nat -> candidates !! j = Some v -> regenerated j v <> Some t) ->
  resetTokenExpires u = Some e ->
  clock env (S (S (ticks w) + i)) <= e ->
  let served := serve (reset_password req) env w in
  let updated := after_reset (bcrypt_hash (salt env) pw) u in
  fst served = message_response "Password has been reset successfully." /\
  users (snd served) = replace_user updated (users w) /\
  (forall k v, users w !! k = Some v ->
     users (snd served) !! k = Some (if String.eqb (_id v) (_id u) then updated else v)) /\
  password updated = bcrypt_hash (salt env) pw /\
  resetToken updated = None /\ resetTokenExpires updated = None /\
  disk (snd served) = disk w /\ outbox (snd served) = outbox w.
Proof.
  intros Htok Hne Hpw Hpne Hhashed candidates regenerated Hi Hs Hbefore He Hnow
    served updated.
  assert (Htruthy : truthy_opt (field "password" req) = true).
  { rewrite Hpw. cbn. apply String.eqb_neq in Hpne. now rewrite Hpne. }
  pose proof (reset_password_try_target req env w t i u Htok Hne Htruthy Hi Hs Hbefore)
    as Htarget.
  destruct (candidates_lookup_in _ _ _ _ Hi) as [Hin Hactive].
  apply active_reset_spec in Hactive as (h & e' & Hh & He' & _).
  assert (Hhne : String.eqb h "" = false).
  { apply String.eqb_neq. intros ->. exact (Hhashed u Hin Hh). }
  assert (Hserved : served =
    (message_response "Password has been reset successfully.",
     set_users (replace_user updated (users w))
       (set_ticks (S (S (S (ticks w) + i))) w))).
  { unfold served, serve, reset_password, try_catch. rewrite Htarget.
    unfold consume_reset, reset_expired. rewrite Hh, He, Hhne.
    unfold bind, now, ret. cbn [ticks set_ticks].
    assert (Hlt : (e <? clock env (S (S (ticks w) + i)))%Z = false)
      by (apply Z.ltb_ge; exact Hnow).
    rewrite Hlt, Hpw. cbn. reflexivity. }
  rewrite Hserved. cbn [fst snd users disk outbox set_users set_ticks].
  repeat split.
  intros k v Hk. unfold replace_user. now rewrite list_lookup_fmap, Hk.
Qed.

(** The answers of the consume endpoint are pairwise different, so each
    names its branch. *)
Lemma consume_reset_expired_answer `{Crypto} (pv : option json) (m : option User)
  (env : Env) (w : World) (w' : World) :
  consume_reset pv m env w =
    (Ok (error_response 400 "Password reset token has expired."), w') ->
  exists u, m = Some u /\
    (resetToken u = None \/ resetTokenExpires u = None \/ resetToken u = Some "" \/
     exists e, resetTokenExpires u = Some e /\ e < clock env (ticks w)).
Proof.
  destruct m as [ u | ]; [ | discriminate ]. intros Hrun. exists u. split; [ reflexivity | ].
  unfold consume_reset, reset_expired in Hrun.
  destruct (resetToken u) as [ h | ]; [ | now left ].
  destruct (resetTokenExpires u) as [ e | ]; [ | now right; left ].
  destruct (String.eqb h "") eqn:Eh.
  - apply String.eqb_eq in Eh. subst h. now right; right; left.
  - right; right; right. exists e. split; [ reflexivity | ].
    unfold bind, now, ret in Hrun. cbn [ticks] in Hrun.
    destruct (e <? clock env (ticks w))%Z eqn:Elt; [ now apply Z.ltb_lt | ].
    exfalso. cbn [bind] in Hrun.
    destruct pv as [ [ | | | s | | ] | ]; cbn in Hrun; discriminate Hrun.
Qed.

(** C3 (as the code has it). An account whose expiry has passed when the
    candidate query runs is no candidate.  So a token that matches no
    active candidate, whatever it matches among the expired accounts, gets
    the invalid-or-expired answer and changes no account; and the
    token-has-expired answer is given only for a matched candidate whose
    expiry was still ahead at the query and has passed at the expiry
    check. *)
Theorem expired_account_is_no_candidate `{Crypto} (req : Request) (env : Env)
  (w : World) (t : string) (u : User) (e : Z) :
  field "token" req = Some (JStr t) -> t <> "" ->
  truthy_opt (field "password" req) = true ->
  tokens_hashed (users w) ->
  In u (users w) ->
  resetTokenExpires u = Some e ->
  e <= clock env (ticks w) ->
  let candidates := List.filter (active_reset (clock env (ticks w))) (users w) in
  let regenerated := fun (j : nat) (v : User) =>
    sample_prefix (clock env (S (ticks w) + j)%nat) v in
  let served := serve (reset_password req) env w in
  ~ In u candidates /\
  ((forall i v, candidates !! i = Some v -> regenerated i v <> Some t) ->
     fst served = error_response 400 "Invalid or expired password reset token." /\
     users (snd served) = users w) /\
  (fst served = error_response 400 "Password reset token has expired." ->
     exists i v ev,
       candidates !! i = Some v /\ regenerated i v = Some t /\
       resetTokenExpires v = Some ev /\
       clock env (ticks w) < ev /\ ev < clock env (S (S (ticks w) + i))).
Proof.
  intros Htok Hne Hpw Hhashed Hin He Hpassed candidates regenerated served.
  split; [ | split ].
  - intros Hc. apply candidates_spec in Hc as (_ & h & e' & _ & He' & Hlt).
    rewrite He in He'. injection He' as <-. lia.
  - intros Hno.
    destruct (reset_password_no_match req env w t Htok Hne Hpw Hno) as (Hr & Hu & _).
    now split.
  - intros Hexpired.
    pose proof (reset_password_try_spec req env w t Htok Hne Hpw) as Htry.
    pose proof (first_match_spec t (clock env) candidates (S (ticks w))) as Hspec.
    fold candidates in Htry.
    unfold served, serve, reset_password, try_catch in Hexpired. rewrite Htry in Hexpired.
    destruct (first_match t (clock env) (S (ticks w)) candidates) as [ [i v] | ].
    + destruct Hspec as (Hi & Hs & _).
      destruct (consume_reset (field "password" req) (Some v) env
                  (set_ticks (S (S (ticks w) + i)) w)) as [ [ r | err ] w' ] eqn:Hrun;
        cbn [fst ret] in Hexpired; [ | discriminate Hexpired ].
      subst r. apply consume_reset_expired_answer in Hrun as (v' & [= <-] & Hwhy).
      destruct (candidates_lookup_in _ _ _ _ Hi) as [Hvin Hactive].
      apply active_reset_spec in Hactive as (h & ev & Hh & Hev & Hlt).
      exists i, v, ev. repeat split; try assumption.
      destruct Hwhy as [ Hw | [ Hw | [ Hw | (e2 & He2 & Hlt2) ] ] ]; try congruence.
      * exfalso. exact (Hhashed v Hvin Hw).
      * cbn [ticks set_ticks] in Hlt2. congruence.
    + cbn in Hexpired. discriminate Hexpired.
Qed.

(* ===================================================================== *)
(** ** Login                                                                *)
(* ===================================================================== *)

Lemma find_none_iff {A : Type} (p : A -> bool) (l : list A) :
  List.find p l = None <-> forall x, In x l -> p x = false.
Proof.
  split.
  - intros Hf x Hx. exact (find_none p l Hf x Hx).
  - induction l as [ | a l IH ]; [ reflexivity | ].
    intros Hall. cbn [List.find]. rewrite (Hall a (or_introl eq_refl)).
    apply IH. intros x Hx. apply Hall. now right.
Qed.

(** C8. A login with a user name and a password, both non-empty strings:
    the account is the first one whose stored user name is the given one
    with the white space at its two ends taken off (the schema option
    [trim] on the filter); when no stored name is that one the answer is
    the credential failure [username_not_found]; when the hash comparison
    fails it is [incorrect_password]; otherwise it is a token signed over
    [userId], the id of the account, and [username], its stored name,
    valid 3600 seconds from the clock reading. *)
Theorem login_outcomes `{Crypto} `{Driver} (req : Request) (env : Env) (w : World)
  (name pw : string) :
  field "username" req = Some (JStr name) -> name <> "" ->
  field "password" req = Some (JStr pw) -> pw <> "" ->
  let served := serve (login req) env w in
  let account := List.find (fun u => String.eqb (trim name) (username u)) (users w) in
  ((forall u, In u (users w) -> username u <> trim name) ->
     served = (invalid_credentials "username_not_found", w)) /\
  (forall user, account = Some user ->
     username user = trim name /\ In user (users w) /\
     (bcrypt_compare pw (password user) = false ->
        served = (invalid_credentials "incorrect_password", w)) /\
     (forall token,
        bcrypt_compare pw (password user) = true ->
        jwt_sign [("userId", JStr (_id user)); ("username", JStr (username user))]
          JWT_SECRET 3600 (clock env (ticks w)) = Some token ->
        served = (json_response 200 (JObj [("token", JStr token)]),
                  set_ticks (S (ticks w)) w))).
Proof.
  intros Hname Hnne Hpw Hpne served account.
  apply String.eqb_neq in Hnne, Hpne.
  assert (Hrun : login req env w =
    match account with
    | None => (Ok (invalid_credentials "username_not_found"), w)
    | Some user =>
        if bcrypt_compare pw (password user) then
          match jwt_sign [("userId", JStr (_id user)); ("username", JStr (username user))]
                  JWT_SECRET 3600 (clock env (ticks w)) with
          | Some token =>
              (Ok (json_response 200 (JObj [("token", JStr token)])),
               set_ticks (S (ticks w)) w)
          | None => (Ok (json_response 500 (JObj [("message", JStr "Login failed")])),
                     set_ticks (S (ticks w)) w)
          end
        else (Ok (invalid_credentials "incorrect_password"), w)
    end).
  { unfold login, try_catch. rewrite Hname, Hpw. cbn [truthy_opt truthy].
    rewrite Hnne, Hpne. cbn [negb orb]. unfold bind at 1. unfold ret at 1.
    unfold bind at 1. unfold findOne_user at 1. fold account.
    destruct account as [ user | ]; [ | reflexivity ].
    unfold bind at 1. cbn [lift as_string].
    destruct (bcrypt_compare pw (password user)); [ | reflexivity ].
    unfold sign_1h, session_payload. unfold bind, now, ret.
    destruct (jwt_sign [("userId", JStr (_id user)); ("username", JStr (username user))]
                JWT_SECRET 3600 (clock env (ticks w)));
      reflexivity. }
  split.
  - intros Habsent.
    assert (Hnone : account = None).
    { apply find_none_iff. intros u Hu. apply String.eqb_neq.
      intros E. exact (Habsent u Hu (eq_sym E)). }
    unfold served, serve. now rewrite Hrun, Hnone.
  - intros user Hacc. pose proof (find_some _ _ Hacc) as [Hin Heq].
    apply String.eqb_eq in Heq. repeat split; try easy.
    + intros Hcmp. unfold served, serve. now rewrite Hrun, Hacc, Hcmp.
    + intros token Hcmp Hsign. unfold served, serve. now rewrite Hrun, Hacc, Hcmp, Hsign.
Qed.

(* ===================================================================== *)
(** ** Requesting a password reset                                          *)
(* ===================================================================== *)

(** The request endpoint, for an address that is a non-empty string and a
    pattern source the engine accepts. *)
Lemma request_password_reset_spec `{Crypto} `{Regex} (req : Request) (env : Env)
  (w : World) (address : string) (matches : string -> bool) :
  field "email" req = Some (JStr address) -> address <> "" ->
  regex_i ("^" +:+ address +:+ "$") = Some matches ->
  serve (request_password_reset req) env w =
  match List.find (fun u => matches (email u)) (users w) with
  | None => (error_response 404 "No account found with this email address.", w)
  | Some user =>
      match jwt_sign (reset_payload user) JWT_SECRET 3600 (clock env (ticks w)) with
      | None =>
          (error_response 500 "An error occurred during the password reset process.",
           set_ticks (S (ticks w)) w)
      | Some T =>
          let stored :=
            with_reset (bcrypt_hash (salt env) T)
              (clock env (S (ticks w)) + 3600000) user in
          let w' := set_users (replace_user stored (users w))
                      (set_ticks (S (S (S (ticks w)))) w) in
          if mail_ok env then
            (message_response
               "If your email is registered, you will receive a password reset link shortly.",
             set_outbox (ResetMail address (shortResetUrl (port env) T) :: outbox w) w')
          else (error_response 500 "Could not send password reset email.", w')
      end
  end.
Proof.
  intros Hemail Hne Hre. apply String.eqb_neq in Hne.
  unfold serve, request_password_reset, try_catch. rewrite Hemail.
  cbn [truthy_opt truthy to_String_opt to_String]. rewrite Hne. cbn [negb].
  rewrite Hre. unfold bind at 1. unfold findOne_user at 1.
  destruct (List.find (fun u => matches (email u)) (users w)) as [ user | ];
    [ | reflexivity ].
  unfold bind at 1. unfold sign_1h, bind at 1. unfold now at 1. unfold ret at 1.
  destruct (jwt_sign (reset_payload user) JWT_SECRET 3600 (clock env (ticks w)))
    as [ T | ]; [ | reflexivity ].
  unfold bind, hash_with_salt, now, save_user, get_port, sendMail, try_catch, ret.
  cbn [ticks set_ticks users set_users outbox].
  destruct (mail_ok env); reflexivity.
Qed.

(** C4, where the code goes wrong: the address goes into the pattern as it
    is, so its characters are read as pattern operators.  Whenever the
    pattern built from the submitted address selects an account whose
    address is a different one even up to case, the endpoint does not
    answer 404: it stores a reset token on that account and the link goes
    to the submitted address. *)
Theorem reset_request_pattern_selects_other_account `{Crypto} `{Regex}
  (req : Request) (env : Env) (w : World) (address : string)
  (matches : string -> bool) (user : User) (T : string) :
  field "email" req = Some (JStr address) -> address <> "" ->
  regex_i ("^" +:+ address +:+ "$") = Some matches ->
  List.find (fun u => matches (email u)) (users w) = Some user ->
  same_email (email user) address = false ->
  jwt_sign (reset_payload user) JWT_SECRET 3600 (clock env (ticks w)) = Some T ->
  mail_ok env = true ->
  let served := serve (request_password_reset req) env w in
  let stored :=
    with_reset (bcrypt_hash (salt env) T) (clock env (S (ticks w)) + 3600000) user in
  status (fst served) = 200 /\
  users (snd served) = replace_user stored (users w) /\
  resetToken stored = Some (bcrypt_hash (salt env) T) /\
  outbox (snd served) = ResetMail address (shortResetUrl (port env) T) :: outbox w.
Proof.
  intros Hemail Hne Hre Hfind _ Hsign Hmail served stored.
  unfold served. rewrite (request_password_reset_spec req env w address matches Hemail Hne Hre).
  rewrite Hfind, Hsign. cbv zeta. rewrite Hmail. cbn. auto.
Qed.

(* ===================================================================== *)
(** ** The technologies routes on the skills file                           *)
(* ===================================================================== *)

(** X1. [DELETE /api/technologies/:id] on a [skills.json] that holds a
    bare array with a record of that id: the answer is the success message
    and the file is rewritten as an object with the remaining records
    under [skills], so that the file goes from the bare-array form to the
    wrapper form. *)
Theorem delete_technology_rewrites_as_wrapper `{Crypto} `{Calendar} (req : Request)
  (env : Env) (w : World) (xs kept : list json) :
  authorized req env w ->
  file_state (disk w) "skills.json" = Parsed (JArr xs) ->
  filter_r (id_is_not (params_id req)) xs = Ok kept ->
  length xs <> length kept ->
  write_ok env "skills.json" = true ->
  let served := serve (route DELETE_technology req) env w in
  fst served = message_response "Technology deleted successfully" /\
  file_state (disk (snd served)) "skills.json" = Parsed (JObj [("skills", JArr kept)]) /\
  file_shape (disk w) "skills.json" = Some BareArray /\
  file_shape (disk (snd served)) "skills.json" = Some SkillsWrapper.
Proof.
  intros Hauth Hfile Hkept Hlen Hok served.
  assert (Hserved : served =
    (message_response "Technology deleted successfully",
     written "skills.json" (JObj [("skills", JArr kept)]) env
       (set_ticks (S (ticks w)) w))).
  { unfold served, serve. cbn [route].
    rewrite (authenticateToken_authorized _ _ _ _ Hauth).
    unfold delete_technology, try_catch, bind. rewrite loadData_spec.
    cbn [disk set_ticks]. rewrite Hfile. cbn [loaded_value or_else truthy as_array lift].
    rewrite Hkept. apply Nat.eqb_neq in Hlen. rewrite Hlen.
    rewrite saveData_spec. reflexivity. }
  assert (Hafter : file_state (disk (snd served)) "skills.json"
                   = Parsed (JObj [("skills", JArr kept)])).
  { rewrite Hserved. cbn [snd]. now apply file_state_written_same. }
  split; [ now rewrite Hserved | ].
  split; [ exact Hafter | ].
  unfold file_state in Hfile, Hafter. unfold file_shape.
  split.
  - destruct (disk w !! "skills.json") as [ text | ]; [ | discriminate Hfile ].
    destruct (JSON_parse text); [ | discriminate Hfile ].
    now injection Hfile as ->.
  - destruct (disk (snd served) !! "skills.json") as [ text | ]; [ | discriminate Hafter ].
    destruct (JSON_parse text); [ | discriminate Hafter ].
    now injection Hafter as ->.
Qed.

(** X2. On a [skills.json] that has the wrapper form, the routes of
    [/api/technologies] that change the file call an array method on the
    wrapper object: each answers 500, and nothing is written. *)
Theorem technology_routes_fail_on_wrapper `{Crypto} `{Calendar} (ep : Endpoint)
  (req : Request) (env : Env) (w : World) (v : json) :
  authorized req env w ->
  file_state (disk w) "skills.json" = Parsed v ->
  shape_of v = SkillsWrapper ->
  In ep [POST_technologies; PUT_technology; DELETE_technology] ->
  let served := serve (route ep req) env w in
  status (fst served) = 500 /\
  disk (snd served) = disk w /\
  writes (snd served) = writes w.
Proof.
  intros Hauth Hfile Hshape Hep served.
  assert (Hobj : exists ms, v = JObj ms).
  { destruct v; try discriminate Hshape. eauto. }
  destruct Hobj as [ms ->].
  unfold served, serve.
  destruct Hep as [ <- | [ <- | [ <- | [] ] ] ]; cbn [route];
    rewrite (authenticateToken_authorized _ _ _ _ Hauth).
  - unfold post_technology, try_catch, bind. rewrite loadData_spec.
    cbn [disk set_ticks]. rewrite Hfile.
    cbn [loaded_value or_else truthy as_array lift].
    unfold new_record, fresh_id, timestamp, bind, now, ret. cbn. auto.
  - unfold put_technology, try_catch, bind. rewrite loadData_spec.
    cbn [disk set_ticks]. rewrite Hfile. cbn. auto.
  - unfold delete_technology, try_catch, bind. rewrite loadData_spec.
    cbn [disk set_ticks]. rewrite Hfile. cbn. auto.
Qed.

(** X3. What [saveData] writes, [loadData] reads, over any serializer.
    For a value [v] that [parse] reads back from its own text: when the
    file can be written, [saveData] answers [true], the file holds the
    text of [v], every other file is as it was, and [loadData] of the file
    then returns [v]; when it cannot, [saveData] answers [false] and no
    file changes.  Either way [fs.writeFile] was called once. *)
Theorem saved_value_loads_back {value : Type} `{Serializer value} (R : string)
  (v : value) (env : Env) (w : World) :
  parse (stringify v) = Some v ->
  let saved := saveData R v env w in
  writes (snd saved) = R :: writes w /\
  (write_ok env R = true ->
     fst saved = Ok true /\
     disk (snd saved) !! R = Some (stringify v) /\
     (forall f, f <> R -> disk (snd saved) !! f = disk w !! f) /\
     loadData R env (snd saved) = (Ok v, snd saved)) /\
  (write_ok env R = false -> fst saved = Ok false /\ disk (snd saved) = disk w).
Proof.
  intros Hlaw saved.
  assert (Hsave : saved =
            (Ok (write_ok env R),
             if write_ok env R
             then set_disk (<[R := stringify v]> (disk w)) (set_writes (R :: writes w) w)
             else set_writes (R :: writes w) w)).
  { unfold saved, saveData, try_catch, bind, writeFile, ret.
    destruct (write_ok env R); reflexivity. }
  rewrite Hsave. cbn [fst snd].
  split; [ destruct (write_ok env R); reflexivity | ].
  split; intros Hw; rewrite Hw; cbn [disk set_disk set_writes].
  - split; [ reflexivity | ].
    split; [ apply lookup_insert_eq | ].
    split; [ intros f Hf; now apply lookup_insert_ne | ].
    unfold loadData, try_catch, bind, readFile, JSON_parse_throw.
    cbn [disk set_disk set_writes]. now rewrite lookup_insert_eq, Hlaw.
  - now split.
Qed.

(* ===================================================================== *)
(** ** Objects                                                              *)
(* ===================================================================== *)

Lemma obj_get_set_same (k : string) (v : json) (ms : list (string * json)) :
  obj_get k (obj_set k v ms) = Some v.
Proof.
  induction ms as [ | [k' v'] ms IH ]; cbn [obj_set obj_get].
  - now rewrite String.eqb_refl.
  - destruct (String.eqb k k') eqn:E; cbn [obj_get].
    + now rewrite String.eqb_refl.
    + now rewrite E.
Qed.

Lemma obj_get_set_other (k k' : string) (v : json) (ms : list (string * json)) :
  k <> k' -> obj_get k (obj_set k' v ms) = obj_get k ms.
Proof.
  intros Hne. induction ms as [ | [k2 v2] ms IH ]; cbn [obj_set obj_get].
  - apply String.eqb_neq in Hne. now rewrite Hne.
  - destruct (String.eqb k' k2) eqn:E; cbn [obj_get].
    + apply String.eqb_eq in E. subst k2. apply String.eqb_neq in Hne. now rewrite Hne.
    + destruct (String.eqb k k2); [ reflexivity | exact IH ].
Qed.

Lemma obj_get_none_keys (k : string) (ms : list (string * json)) :
  ~ In k (map fst ms) -> obj_get k ms = None.
Proof.
  induction ms as [ | [k' v'] ms IH ]; [ reflexivity | ].
  cbn [map fst In obj_get]. intros Hn.
  destruct (String.eqb k k') eqn:E.
  - apply String.eqb_eq in E. subst k'. exfalso. apply Hn. now left.
  - apply IH. intros Hin. apply Hn. now right.
Qed.

(** [{...a, ...b}] read at a key: the property of [b] when it has one,
    else that of [a]. *)
Lemma obj_get_spread (k : string) (b a : list (string * json)) :
  List.NoDup (map fst b) ->
  obj_get k (obj_spread a b) =
  match obj_get k b with Some v => Some v | None => obj_get k a end.
Proof.
  unfold obj_spread. revert a.
  induction b as [ | [k1 v1] b IH ]; intros a Hnd; [ reflexivity | ].
  cbn [fold_left fst snd map] in *. apply List.NoDup_cons_iff in Hnd as [Hk1 Hnd].
  rewrite (IH _ Hnd). cbn [obj_get].
  destruct (String.eqb k k1) eqn:E.
  - apply String.eqb_eq in E. subst k1.
    now rewrite (obj_get_none_keys _ _ Hk1), obj_get_set_same.
  - apply String.eqb_neq in E. now rewrite (obj_get_set_other _ _ _ _ E).
Qed.

(* ===================================================================== *)
(** ** Arrays of records                                                    *)
(* ===================================================================== *)

Lemma holds_id_object (id : string) (p : json) :
  holds_id id p = true -> exists ms, p = JObj ms.
Proof. destruct p; try discriminate. eauto. Qed.

Lemma id_is_holds (id : string) (p : json) :
  p <> JNull -> id_is id p = Ok (holds_id id p).
Proof. intros Hp. destruct p; try congruence; reflexivity. Qed.

Lemma id_is_not_lacks (id : string) (p : json) :
  p <> JNull -> id_is_not id p = Ok (lacks_id id p).
Proof. intros Hp. destruct p; try congruence; reflexivity. Qed.

Lemma filter_r_lacks (id : string) (xs : list json) :
  Forall (fun p => p <> JNull) xs ->
  filter_r (id_is_not id) xs = Ok (List.filter (lacks_id id) xs).
Proof.
  induction 1 as [ | p xs Hp _ IH ]; [ reflexivity | ].
  cbn [filter_r List.filter]. rewrite (id_is_not_lacks _ _ Hp), IH. reflexivity.
Qed.

Lemma find_r_first (id : string) (xs : list json) :
  Forall (fun p => p <> JNull) xs ->
  find_r (id_is id) xs = Ok (List.find (holds_id id) xs).
Proof.
  induction 1 as [ | p xs Hp _ IH ]; [ reflexivity | ].
  cbn [find_r List.find]. rewrite (id_is_holds _ _ Hp). cbn [rbind].
  destruct (holds_id id p); [ reflexivity | exact IH ].
Qed.

Lemma findIndex_r_first (id : string) (xs : list json) (i : nat) (m : json) :
  Forall (fun p => p <> JNull) xs ->
  xs !! i = Some m -> holds_id id m = true ->
  (forall j p, (j < i)%nat -> xs !! j = Some p -> holds_id id p = false) ->
  findIndex_r (id_is id) xs = Ok (Some i).
Proof.
  intros Hall. revert i. induction Hall as [ | p xs Hp _ IH ]; intros i Hi Hm Hbefore.
  - discriminate Hi.
  - cbn [findIndex_r]. rewrite (id_is_holds _ _ Hp). cbn [rbind].
    destruct i as [ | i ].
    + cbn in Hi. injection Hi as ->. now rewrite Hm.
    + rewrite (Hbefore 0%nat p ltac:(lia) eq_refl).
      rewrite (IH i Hi Hm); [ reflexivity | ].
      intros j q Hj Hq. apply (Hbefore (S j) q); [ lia | exact Hq ].
Qed.

Lemma filter_shorter {A : Type} (p : A -> bool) (xs : list A) :
  Exists (fun x => p x = false) xs -> (length (List.filter p xs) < length xs)%nat.
Proof.
  induction 1 as [ x xs Hx | x xs _ IH ]; cbn [List.filter length].
  - rewrite Hx. pose proof (List.filter_length_le p xs). lia.
  - destruct (p x); cbn [length]; lia.
Qed.

Lemma stored_collection_loaded (c : Collection) (d : gmap string string)
  (xs : list json) :
  c <> SkillsC ->
  stored_collection c d = Some xs ->
  as_array (or_else (loaded_value (file_state d (collection_file c))) (JArr [])) = Ok xs.
Proof.
  intros Hc. unfold stored_collection.
  destruct (file_state d (collection_file c)) as [ | text | v ].
  - now intros [= <-].
  - destruct (is_json text); [ discriminate | now intros [= <-] ].
  - destruct c; try congruence;
      destruct v as [ | b | n | s | ys | ms ]; try discriminate; now intros [= <-].
Qed.

(* ===================================================================== *)
(** ** The authentication middleware                                        *)
(* ===================================================================== *)

Lemma authenticateToken_rejected `{Crypto} (next : Request -> M Response)
  (req : Request) (env : Env) (w : World) :
  (forall tok, bearer_token req = Some tok -> tok <> "" ->
     jwt_verify tok JWT_SECRET (clock env (ticks w)) = None) ->
  authenticateToken next req env w =
  match bearer_token req with
  | Some tok =>
      if String.eqb tok ""
      then (Ok (error_response 401 "Authentication required"), w)
      else (Ok (error_response 403 "Invalid or expired token"), set_ticks (S (ticks w)) w)
  | None => (Ok (error_response 401 "Authentication required"), w)
  end.
Proof.
  intros Hbad. unfold authenticateToken.
  change (match authorization req with
          | Some authHeader =>
              if String.eqb authHeader "" then None
              else nth_error (split_on " " authHeader) 1
          | None => None
          end) with (bearer_token req).
  destruct (bearer_token req) as [ tok | ] eqn:Htok; [ | reflexivity ].
  destruct (String.eqb tok "") eqn:E; [ reflexivity | ].
  apply String.eqb_neq in E. unfold bind, now.
  now rewrite (Hbad tok eq_refl E).
Qed.

(** X4. A route registered behind [authenticateToken], asked without a
    token that verifies: the answer is 401 when the header has no second
    word and 403 when that word does not verify, and the handler is not
    run: no file is read or written, no account and no mail changes. *)
Theorem protected_routes_need_token `{Crypto} `{Calendar} (ep : Endpoint)
  (req : Request) (env : Env) (w : World) :
  protected ep = true ->
  (forall tok, bearer_token req = Some tok -> tok <> "" ->
     jwt_verify tok JWT_SECRET (clock env (ticks w)) = None) ->
  let served := serve (route ep req) env w in
  fst served =
    match bearer_token req with
    | Some tok =>
        if String.eqb tok "" then error_response 401 "Authentication required"
        else error_response 403 "Invalid or expired token"
    | None => error_response 401 "Authentication required"
    end /\
  disk (snd served) = disk w /\
  writes (snd served) = writes w /\
  users (snd served) = users w /\
  outbox (snd served) = outbox w.
Proof.
  intros Hep Hbad served. unfold served, serve.
  destruct ep; try discriminate Hep; cbn [route];
    rewrite (authenticateToken_rejected _ _ _ _ Hbad);
    destruct (bearer_token req) as [ tok | ]; try destruct (String.eqb tok "");
    cbn; auto.
Qed.
(* ===================================================================== *)
(** ** Messages                                                             *)
(* ===================================================================== *)

(** The record [POST /api/messages] builds from a request at clock
    reading [n]. *)
Lemma new_record_run `{Calendar} (req : Request) (env : Env) (w : World) :
  new_record req env w =
  (Ok (obj_set "createdAt" (JStr (toISOString (clock env (S (ticks w)))))
         (obj_spread [("id", JStr (string_of_Z (clock env (ticks w))))] (req_body req))),
   set_ticks (S (S (ticks w))) w).
Proof. reflexivity. Qed.

(** One run of [POST /api/messages] over the stored messages [xs]. *)
Lemma post_message_run `{Calendar} (req : Request) (env : Env) (w : World)
  (xs : list json) :
  stored_collection MessagesC (disk w) = Some xs ->
  let newMessage :=
    obj_set "read" (JBool false)
      (obj_set "createdAt" (JStr (toISOString (clock env (S (ticks w)))))
         (obj_spread [("id", JStr (string_of_Z (clock env (ticks w))))] (req_body req))) in
  let saved :=
    written "messages.json" (JArr (JObj newMessage :: xs)) env
      (set_ticks (S (S (ticks w))) w) in
  serve (post_message req) env w =
  match notification_texts newMessage with
  | Ok _ =>
      if mail_ok env
      then (json_response 201 (JObj newMessage),
            set_outbox (MessageNotification (JObj newMessage) :: outbox saved) saved)
      else (error_response 500 "Failed to create message", saved)
  | Throw _ => (error_response 500 "Failed to create message", saved)
  end.
Proof.
  intros Hstored newMessage saved.
  pose proof (stored_collection_loaded MessagesC _ _ ltac:(discriminate) Hstored) as Hload.
  cbn [collection_file] in Hload.
  unfold serve, post_message, try_catch, bind. rewrite loadData_spec, new_record_run.
  cbn [lift]. rewrite Hload. rewrite saveData_spec. fold newMessage. fold saved.
  destruct (notification_texts newMessage); [ | reflexivity ].
  unfold sendMail, ret. destruct (mail_ok env); reflexivity.
Qed.

(** The properties of the new message that the body decides. *)
Lemma new_message_field `{Calendar} (req : Request) (id createdAt : json) (k : string) :
  List.NoDup (map fst (req_body req)) ->
  k <> "id" -> k <> "createdAt" -> k <> "read" ->
  obj_get k
    (obj_set "read" (JBool false)
       (obj_set "createdAt" createdAt (obj_spread [("id", id)] (req_body req))))
  = field k req.
Proof.
  intros Hnd Hid Hc Hr.
  rewrite !obj_get_set_other by congruence. rewrite (obj_get_spread _ _ _ Hnd).
  unfold field. destruct (obj_get k (req_body req)); [ reflexivity | ].
  cbn [obj_get]. apply String.eqb_neq in Hid. now rewrite Hid.
Qed.

(** The notification can be put together when every property it prints
    has a text. *)
Lemma notification_texts_ok `{Calendar} (req : Request) (id createdAt : json) :
  List.NoDup (map fst (req_body req)) ->
  forallb (fun k => has_text (field k req)) mail_fields = true ->
  exists texts,
    notification_texts
      (obj_set "read" (JBool false)
         (obj_set "createdAt" createdAt (obj_spread [("id", id)] (req_body req))))
    = Ok texts.
Proof.
  intros Hnd Hall. unfold notification_texts.
  rewrite !(new_message_field req id createdAt _ Hnd) by discriminate.
  unfold mail_fields in Hall. cbn [forallb] in Hall.
  repeat (apply andb_prop in Hall as [? Hall]).
  unfold has_text in *. cbn [template_texts].
  destruct (template_text (field "name" req)) as [ name | ]; [ | discriminate ].
  destruct (template_text (field "email" req)) as [ email | ]; [ | discriminate ].
  destruct (template_text (field "projectType" req)) as [ projectType | ]; [ | discriminate ].
  destruct (template_text (field "timeline" req)) as [ timeline | ]; [ | discriminate ].
  destruct (template_text (field "message" req)) as [ message | ]; [ | discriminate ].
  assert (Hcompany : exists company,
            template_text (Some (or_default (field "company" req) (JStr "Not specified")))
            = Ok company).
  { destruct (field "company" req) as [ v | ]; cbn [or_default]; [ | now eexists ].
    unfold or_else. destruct (truthy v); [ | now eexists ].
    destruct (template_text (Some v)) as [ company | ]; [ now eexists | discriminate ]. }
  destruct Hcompany as (company & ->). cbn [rbind]. now eexists.
Qed.

(** X5. [POST /api/messages] with the file and the mail transport at
    work, for a body whose name, email, company, projectType, timeline
    and message can be printed in the notification (each is left out or
    has a text): the answer is 201 with the new message, the file holds it
    before the messages it held, and the notification is mailed.  The
    message is unread and carries the time stamp of the server whatever
    the body says; its id is the one of the body when the body has one,
    else the clock reading; every other property is the one of the body. *)
Theorem post_message_stores_unread_first `{Calendar} (req : Request) (env : Env)
  (w : World) (xs : list json) :
  stored_collection MessagesC (disk w) = Some xs ->
  List.NoDup (map fst (req_body req)) ->
  forallb (fun k => has_text (field k req)) mail_fields = true ->
  write_ok env "messages.json" = true ->
  mail_ok env = true ->
  let served := serve (post_message req) env w in
  exists newMessage,
    fst served = json_response 201 (JObj newMessage) /\
    file_state (disk (snd served)) "messages.json" = Parsed (JArr (JObj newMessage :: xs)) /\
    outbox (snd served) = MessageNotification (JObj newMessage) :: outbox w /\
    obj_get "read" newMessage = Some (JBool false) /\
    obj_get "createdAt" newMessage =
      Some (JStr (toISOString (clock env (S (ticks w))))) /\
    obj_get "id" newMessage =
      Some (match field "id" req with
            | Some v => v
            | None => JStr (string_of_Z (clock env (ticks w)))
            end) /\
    forall k, k <> "id" -> k <> "createdAt" -> k <> "read" ->
      obj_get k newMessage = field k req.
Proof.
  intros Hstored Hnd Htexts Hw Hm served.
  unfold served. rewrite (post_message_run req env w xs Hstored).
  destruct (notification_texts_ok req (JStr (string_of_Z (clock env (ticks w))))
              (JStr (toISOString (clock env (S (ticks w))))) Hnd Htexts) as (texts & ->).
  rewrite Hm. eexists. cbn [fst snd].
  split; [ reflexivity | ].
  split; [ cbn [disk set_outbox]; now apply file_state_written_same | ].
  split.
  { cbn [outbox set_outbox]. unfold written. rewrite Hw. reflexivity. }
  split; [ apply obj_get_set_same | ].
  split.
  { rewrite obj_get_set_other by discriminate. apply obj_get_set_same. }
  split.
  { rewrite !obj_get_set_other by discriminate. rewrite (obj_get_spread _ _ _ Hnd).
    unfold field. destruct (obj_get "id" (req_body req)); reflexivity. }
  intros k Hid Hc Hr.
  rewrite !obj_get_set_other by congruence. rewrite (obj_get_spread _ _ _ Hnd).
  unfold field. destruct (obj_get k (req_body req)); [ reflexivity | ].
  cbn [obj_get]. apply String.eqb_neq in Hid. now rewrite Hid.
Qed.

Lemma template_texts_throw (xs : list (option json)) :
  Exists (fun x => has_text x = false) xs -> exists e, template_texts xs = Throw e.
Proof.
  induction xs as [ | x xs IH ]; intros Hex; [ inversion Hex | ].
  cbn [template_texts]. unfold has_text in Hex.
  destruct (template_text x) as [ s | e ] eqn:Hx; [ | now exists e ].
  cbn [rbind]. inversion Hex as [ ? ? Hhead | ? ? Htail ]; subst.
  - rewrite Hx in Hhead. discriminate Hhead.
  - destruct (IH Htail) as (e & ->). now exists e.
Qed.

(** A value that has no text is an object or an array, hence truthy. *)
Lemma no_text_truthy (v : json) : has_text (Some v) = false -> truthy v = true.
Proof. unfold has_text. destruct v as [ | [ | ] | n | s | xs | ms ]; cbn; congruence. Qed.

(** The notification cannot be put together when a property it prints has
    no text. *)
Lemma notification_texts_throw `{Calendar} (req : Request) (id createdAt : json) :
  List.NoDup (map fst (req_body req)) ->
  forallb (fun k => has_text (field k req)) mail_fields = false ->
  exists e,
    notification_texts
      (obj_set "read" (JBool false)
         (obj_set "createdAt" createdAt (obj_spread [("id", id)] (req_body req))))
    = Throw e.
Proof.
  intros Hnd Hsome. unfold notification_texts.
  rewrite !(new_message_field req id createdAt _ Hnd) by discriminate.
  apply template_texts_throw.
  unfold mail_fields in Hsome. cbn [forallb] in Hsome.
  destruct (has_text (field "name" req)) eqn:Hname.
  2:{ now apply List.Exists_cons_hd. }
  destruct (has_text (field "email" req)) eqn:Hemail.
  2:{ do 2 apply List.Exists_cons_tl. now apply List.Exists_cons_hd. }
  destruct (has_text (field "company" req)) eqn:Hcompany.
  2:{ do 3 apply List.Exists_cons_tl. apply List.Exists_cons_hd.
      destruct (field "company" req) as [ v | ]; [ | discriminate Hcompany ].
      cbn [or_default]. unfold or_else. now rewrite (no_text_truthy _ Hcompany). }
  destruct (has_text (field "projectType" req)) eqn:Hproject.
  2:{ do 4 apply List.Exists_cons_tl. now apply List.Exists_cons_hd. }
  destruct (has_text (field "timeline" req)) eqn:Htimeline.
  2:{ do 5 apply List.Exists_cons_tl. now apply List.Exists_cons_hd. }
  destruct (has_text (field "message" req)) eqn:Hmessage.
  2:{ do 6 apply List.Exists_cons_tl. now apply List.Exists_cons_hd. }
  discriminate Hsome.
Qed.

(** X6. [POST /api/messages] saves before it puts the notification
    together and mails it.  When a property the notification prints has no
    text (the template literal throws), or when the mail transport rejects
    the notification, the answer is 500 although the message has been
    saved: the file holds one record more than before, and no mail went
    out. *)
Theorem post_message_saved_before_mail `{Calendar} (req : Request) (env : Env)
  (w : World) (xs : list json) :
  stored_collection MessagesC (disk w) = Some xs ->
  write_ok env "messages.json" = true ->
  mail_ok env = false \/
  (List.NoDup (map fst (req_body req)) /\
   forallb (fun k => has_text (field k req)) mail_fields = false) ->
  let served := serve (post_message req) env w in
  fst served = error_response 500 "Failed to create message" /\
  outbox (snd served) = outbox w /\
  (exists newMessage,
     file_state (disk (snd served)) "messages.json"
       = Parsed (JArr (JObj newMessage :: xs))) /\
  (forall ys, stored_collection MessagesC (disk (snd served)) = Some ys ->
     length ys = S (length xs)).
Proof.
  intros Hstored Hw Hfails served.
  assert (Hserved : exists newMessage,
            served = (error_response 500 "Failed to create message",
                      written "messages.json" (JArr (JObj newMessage :: xs)) env
                        (set_ticks (S (S (ticks w))) w))).
  { unfold served. rewrite (post_message_run req env w xs Hstored).
    eexists. destruct Hfails as [ Hm | [ Hnd Hsome ] ].
    - rewrite Hm. destruct (notification_texts _); reflexivity.
    - destruct (notification_texts_throw req (JStr (string_of_Z (clock env (ticks w))))
                  (JStr (toISOString (clock env (S (ticks w))))) Hnd Hsome) as (e & ->).
      reflexivity. }
  destruct Hserved as (newMessage & ->). cbn [fst snd].
  assert (Hfile : forall v, file_state (disk (written "messages.json" (JArr v) env
                     (set_ticks (S (S (ticks w))) w))) "messages.json" = Parsed (JArr v)).
  { intros v. now apply file_state_written_same. }
  split; [ reflexivity | ].
  split; [ unfold written; rewrite Hw; reflexivity | ].
  split; [ eexists; apply Hfile | ].
  intros ys. unfold stored_collection. cbn [collection_file]. rewrite Hfile.
  now intros [= <-].
Qed.

(** X7. [POST /api/messages] when the file cannot be written, for a body
    whose name, email, company, projectType, timeline and message can be
    printed in the notification: [saveData] reports the failure as
    [false], the handler does not look at it, and the answer is 201 with
    the notification mailed although no file has changed. *)
Theorem post_message_hides_failed_write `{Calendar} (req : Request) (env : Env)
  (w : World) (xs : list json) :
  stored_collection MessagesC (disk w) = Some xs ->
  List.NoDup (map fst (req_body req)) ->
  forallb (fun k => has_text (field k req)) mail_fields = true ->
  write_ok env "messages.json" = false ->
  mail_ok env = true ->
  let served := serve (post_message req) env w in
  status (fst served) = 201 /\
  disk (snd served) = disk w /\
  exists newMessage,
    fst served = json_response 201 (JObj newMessage) /\
    outbox (snd served) = MessageNotification (JObj newMessage) :: outbox w.
Proof.
  intros Hstored Hnd Htexts Hw Hm served.
  unfold served. rewrite (post_message_run req env w xs Hstored).
  destruct (notification_texts_ok req (JStr (string_of_Z (clock env (ticks w))))
              (JStr (toISOString (clock env (S (ticks w))))) Hnd Htexts) as (texts & ->).
  rewrite Hm. cbn [fst snd status json_response].
  split; [ reflexivity | ].
  split; [ cbn [disk set_outbox]; rewrite disk_written, Hw; reflexivity | ].
  eexists. split; [ reflexivity | ].
  cbn [outbox set_outbox]. unfold written. rewrite Hw. reflexivity.
Qed.
Lemma unread_is_unread (m : json) : m <> JNull -> unread m = Ok (is_unread m).
Proof. intros Hm. destruct m; try congruence; reflexivity. Qed.

Lemma filter_r_unread (xs : list json) :
  Forall (fun m => m <> JNull) xs ->
  filter_r unread xs = Ok (List.filter is_unread xs).
Proof.
  induction 1 as [ | m xs Hm _ IH ]; [ reflexivity | ].
  cbn [filter_r List.filter]. rewrite (unread_is_unread _ Hm), IH. reflexivity.
Qed.

(** The answer of [GET /api/messages/unread-count] over stored records. *)
Lemma get_unread_count_run (req : Request) (env : Env) (w : World) (xs : list json) :
  file_state (disk w) "messages.json" = Parsed (JArr xs) ->
  Forall (fun m => m <> JNull) xs ->
  serve (get_unread_count req) env w =
  (json_response 200
     (JObj [("count", JNum (Z.of_nat (length (List.filter is_unread xs))))]), w).
Proof.
  intros Hfile Hall. unfold serve, get_unread_count, try_catch, bind.
  rewrite loadData_spec, Hfile. cbn [loaded_value or_else truthy as_array lift].
  now rewrite (filter_r_unread _ Hall).
Qed.

Lemma filter_length_insert {A : Type} (p : A -> bool) (xs : list A) (i : nat) (x y : A) :
  xs !! i = Some x ->
  (length (List.filter p (<[i := y]> xs)) + (if p x then 1 else 0) =
   length (List.filter p xs) + (if p y then 1 else 0))%nat.
Proof.
  revert i. induction xs as [ | a xs IH ]; intros i Hi; [ discriminate Hi | ].
  destruct i as [ | i ].
  - cbn in Hi. injection Hi as ->. cbn [List.filter].
    change (<[0%nat := y]> (x :: xs)) with (y :: xs). cbn [List.filter].
    destruct (p x), (p y); cbn [length]; lia.
  - change (<[S i := y]> (a :: xs)) with (a :: <[i := y]> xs). cbn [List.filter].
    specialize (IH i Hi). destruct (p a); cbn [length]; lia.
Qed.

(** X8. [PUT /api/messages/:id/read] on stored records of which the one
    at position [i] is the first with the id: the answer is that record
    with [read] set to true and [readAt] to the time stamp of the server,
    its other properties as they were; the file holds it in place of the
    old record and the other records as they were; and the unread count
    served afterwards is one less when the record was unread, and the same
    when it was read already. *)
Theorem put_message_read_marks_one `{Calendar} (req req' : Request) (env : Env)
  (w : World) (xs : list json) (i : nat) (m : json) :
  file_state (disk w) "messages.json" = Parsed (JArr xs) ->
  Forall (fun p => p <> JNull) xs ->
  xs !! i = Some m ->
  holds_id (params_id req) m = true ->
  (forall j p, (j < i)%nat -> xs !! j = Some p -> holds_id (params_id req) p = false) ->
  write_ok env "messages.json" = true ->
  let served := serve (put_message_read req) env w in
  let before := Z.of_nat (length (List.filter is_unread xs)) in
  exists marked,
    fst served = json_response 200 marked /\
    file_state (disk (snd served)) "messages.json" = Parsed (JArr (<[i := marked]> xs)) /\
    prop "read" marked = Some (JBool true) /\
    prop "readAt" marked = Some (JStr (toISOString (clock env (ticks w)))) /\
    (forall k, k <> "read" -> k <> "readAt" -> prop k marked = prop k m) /\
    fst (serve (get_unread_count req') env (snd served)) =
      json_response 200
        (JObj [("count", JNum (if is_unread m then before - 1 else before))]).
Proof.
  intros Hfile Hall Hi Hid Hbefore Hw served before.
  destruct (holds_id_object _ _ Hid) as [ms ->].
  set (marked := JObj (obj_set "readAt" (JStr (toISOString (clock env (ticks w))))
                         (obj_set "read" (JBool true) ms))).
  assert (Hserved : served =
    (json_response 200 marked,
     written "messages.json" (JArr (<[i := marked]> xs)) env
       (set_ticks (S (ticks w)) w))).
  { unfold served, serve, put_message_read, try_catch, bind.
    rewrite loadData_spec, Hfile. cbn [loaded_value or_else truthy as_array lift].
    rewrite (findIndex_r_first _ _ _ _ Hall Hi Hid Hbefore).
    unfold timestamp, bind, now, ret. unfold members_at. rewrite Hi.
    rewrite saveData_spec. reflexivity. }
  assert (Hafter : file_state (disk (snd served)) "messages.json"
                   = Parsed (JArr (<[i := marked]> xs))).
  { rewrite Hserved. now apply file_state_written_same. }
  exists marked.
  split; [ now rewrite Hserved | ].
  split; [ exact Hafter | ].
  split.
  { cbn [marked prop]. rewrite obj_get_set_other by discriminate. apply obj_get_set_same. }
  split; [ apply obj_get_set_same | ].
  split.
  { intros k Hr Ha. cbn [marked prop]. now rewrite !obj_get_set_other by congruence. }
  assert (Hall' : Forall (fun p => p <> JNull) (<[i := marked]> xs)).
  { apply Forall_insert; [ exact Hall | discriminate ]. }
  rewrite (get_unread_count_run req' env _ _ Hafter Hall'). cbn [fst].
  pose proof (filter_length_insert is_unread xs i (JObj ms) marked Hi) as Hlen.
  assert (Hmarked : is_unread marked = false).
  { unfold is_unread. cbn [marked prop].
    rewrite obj_get_set_other by discriminate. now rewrite obj_get_set_same. }
  rewrite Hmarked in Hlen.
  assert (Hcount : Z.of_nat (length (List.filter is_unread (<[i := marked]> xs))) =
                   if is_unread (JObj ms) then before - 1 else before).
  { unfold before. destruct (is_unread (JObj ms)); lia. }
  now rewrite Hcount.
Qed.

(* ===================================================================== *)
(** ** The order of [GET /api/messages]                                     *)
(* ===================================================================== *)

Lemma newer_first_dated `{Calendar} (a b : json) :
  dated a -> dated b ->
  exists ta tb, created_at a = Some ta /\ created_at b = Some tb /\
    newer_first a b = Ok (Some (tb - ta)).
Proof.
  intros [Ha Hta] [Hb Htb]. unfold created_at in *.
  destruct (Date_value (prop "createdAt" a)) as [ ta | ] eqn:Ea; [ | congruence ].
  destruct (Date_value (prop "createdAt" b)) as [ tb | ] eqn:Eb; [ | congruence ].
  exists ta, tb. split; [ reflexivity | split; [ reflexivity | ] ].
  unfold newer_first, member.
  destruct a; try congruence; destruct b; try congruence; cbn [rbind];
    rewrite Ea, Eb; reflexivity.
Qed.

Lemma not_older_trans `{Calendar} (a b c : json) :
  not_older a b -> not_older b c -> not_older a c.
Proof.
  intros (ta & tb & Ha & Hb & Hab) (tb' & tc & Hb' & Hc & Hbc).
  exists ta, tc. rewrite Hb in Hb'. injection Hb' as <-.
  split; [ exact Ha | split; [ exact Hc | lia ] ].
Qed.

Lemma insert_sorted_dated `{Calendar} (x : json) (s : list json) :
  dated x -> Forall dated s -> StronglySorted not_older s ->
  exists r, insert_sorted newer_first x s = Ok r /\
            Permutation r (x :: s) /\ StronglySorted not_older r.
Proof.
  intros Hx Hs Hsorted. induction Hs as [ | y rest Hy Hrest IH ].
  - exists [x]. split; [ reflexivity | split; [ reflexivity | ] ].
    apply SSorted_cons; [ apply SSorted_nil | apply List.Forall_nil ].
  - apply StronglySorted_inv in Hsorted as [Hsorted Hyrest].
    destruct (newer_first_dated x y Hx Hy) as (tx & ty & Etx & Ety & Hcmp).
    cbn [insert_sorted]. rewrite Hcmp. cbn [rbind].
    destruct (ty - tx <? 0)%Z eqn:Hlt.
    + exists (x :: y :: rest). split; [ reflexivity | split; [ reflexivity | ] ].
      apply Z.ltb_lt in Hlt.
      assert (Hxy : not_older x y).
      { exists tx, ty. split; [ exact Etx | split; [ exact Ety | lia ] ]. }
      apply SSorted_cons.
      * apply SSorted_cons; assumption.
      * apply List.Forall_cons; [ exact Hxy | ].
        eapply List.Forall_impl; [ | exact Hyrest ].
        intros b Hb. exact (not_older_trans _ _ _ Hxy Hb).
    + destruct (IH Hsorted) as (r & Hr & Hperm & Hsr). rewrite Hr. cbn [rbind].
      exists (y :: r). split; [ reflexivity | split ].
      * rewrite Hperm. apply perm_swap.
      * apply SSorted_cons; [ exact Hsr | ].
        apply (Permutation_Forall (Permutation_sym Hperm)).
        apply List.Forall_cons; [ | exact Hyrest ].
        apply Z.ltb_ge in Hlt.
        exists ty, tx. split; [ exact Ety | split; [ exact Etx | lia ] ].
Qed.

Lemma sort_fold_dated `{Calendar} (xs : list json) :
  Forall dated xs ->
  forall acc, Forall dated acc -> StronglySorted not_older acc ->
  exists r,
    fold_left (fun acc x => rbind acc (insert_sorted newer_first x)) xs (Ok acc) = Ok r /\
    Permutation r (acc ++ xs) /\ StronglySorted not_older r.
Proof.
  induction 1 as [ | x xs Hx _ IH ]; intros acc Hacc Hsorted.
  - exists acc. rewrite app_nil_r. auto.
  - destruct (insert_sorted_dated x acc Hx Hacc Hsorted) as (r1 & Hr1 & Hp1 & Hs1).
    cbn [fold_left rbind]. rewrite Hr1.
    assert (Hd1 : Forall dated r1).
    { apply (Permutation_Forall (Permutation_sym Hp1)). now apply List.Forall_cons. }
    destruct (IH r1 Hd1 Hs1) as (r & Hr & Hp & Hs).
    exists r. split; [ exact Hr | split; [ | exact Hs ] ].
    rewrite Hp, Hp1. cbn [app]. apply Permutation_middle.
Qed.

Lemma StronglySorted_lookup {A : Type} (R : A -> A -> Prop) (l : list A) :
  StronglySorted R l ->
  forall (i j : nat) (a b : A), (i < j)%nat ->
    l !! i = Some a -> l !! j = Some b -> R a b.
Proof.
  induction 1 as [ | x l _ IH Hx ]; intros i j a b Hij Hi Hj; [ discriminate Hi | ].
  destruct j as [ | j ]; [ lia | ]. cbn in Hj.
  destruct i as [ | i ].
  - cbn in Hi. injection Hi as <-.
    rewrite List.Forall_forall in Hx. apply Hx.
    apply list_elem_of_In. eapply list_elem_of_lookup_2. exact Hj.
  - cbn in Hi. apply (IH i j); [ lia | exact Hi | exact Hj ].
Qed.

(** X9. [GET /api/messages] over stored records that all have a time
    stamp the [Date] constructor reads: the answer is 200 with the same
    records, none lost and none twice, the newest first; the file stays as
    it is. *)
Theorem get_messages_newest_first `{Calendar} (req : Request) (env : Env)
  (w : World) (xs : list json) :
  file_state (disk w) "messages.json" = Parsed (JArr xs) ->
  Forall dated xs ->
  exists sorted,
    serve (get_messages req) env w = (json_response 200 (JArr sorted), w) /\
    Permutation sorted xs /\
    newest_first sorted.
Proof.
  intros Hfile Hall.
  destruct (sort_fold_dated xs Hall [] (List.Forall_nil _) (SSorted_nil _))
    as (sorted & Hsort & Hperm & Hsorted).
  exists sorted. split; [ | split ].
  - unfold serve, get_messages, try_catch, bind.
    rewrite loadData_spec, Hfile. cbn [loaded_value or_else truthy as_array lift].
    unfold sort_r. now rewrite Hsort.
  - exact Hperm.
  - intros i j a b Hij Hi Hj. exact (StronglySorted_lookup _ _ Hsorted i j a b Hij Hi Hj).
Qed.

(* ===================================================================== *)
(** ** Deleting a record that is there                                      *)
(* ===================================================================== *)

(** X10. An authenticated DELETE on projects, skills or messages for an
    id that some stored record has, with the file writable: the answer is
    200 and the collection afterwards is the old one without the records
    of that id, every one of them, and with all other records in their
    order; no record of that id is left. *)
Theorem delete_removes_records_with_id `{Crypto} `{Calendar} (c : Collection)
  (req : Request) (env : Env) (w : World) (xs : list json) :
  In c [ProjectsC; SkillsC; MessagesC] ->
  authorized req env w ->
  stored_collection c (disk w) = Some xs ->
  Forall (fun p => p <> JNull) xs ->
  Exists (fun p => holds_id (params_id req) p = true) xs ->
  write_ok env (collection_file c) = true ->
  let served := serve (route (collection_delete c) req) env w in
  let kept := List.filter (lacks_id (params_id req)) xs in
  status (fst served) = 200 /\
  stored_collection c (disk (snd served)) = Some kept /\
  absent (params_id req) kept /\
  (forall p, In p kept <-> In p xs /\ holds_id (params_id req) p = false).
Proof.
  intros Hc Hauth Hstored Hall Hex Hw served kept.
  assert (Hshort : (length kept < length xs)%nat).
  { apply filter_shorter. eapply List.Exists_impl; [ | exact Hex ].
    intros p Hp. unfold lacks_id. now rewrite Hp. }
  assert (Hne1 : (length xs =? length kept)%nat = false) by (apply Nat.eqb_neq; lia).
  assert (Hne2 : (length kept =? length xs)%nat = false) by (apply Nat.eqb_neq; lia).
  pose proof (filter_r_lacks (params_id req) xs Hall) as Hfilter. fold kept in Hfilter.
  assert (Hserved : exists response data,
    served = (response, written (collection_file c) data env (set_ticks (S (ticks w)) w)) /\
    status response = 200 /\
    stored_collection c (<[collection_file c := JSON_stringify data]> (disk w)) = Some kept).
  { unfold served, serve.
    destruct Hc as [ <- | [ <- | [ <- | [] ] ] ]; cbn [collection_delete route collection_file];
      rewrite (authenticateToken_authorized _ _ _ _ Hauth).
    - pose proof (stored_collection_loaded ProjectsC _ _ ltac:(discriminate) Hstored) as Hl.
      cbn [collection_file] in Hl.
      unfold delete_project, try_catch, bind. rewrite loadData_spec.
      cbn [disk set_ticks lift]. rewrite Hl, Hfilter, Hne1, saveData_spec.
      eexists _, _. split; [ reflexivity | split; [ reflexivity | ] ].
      unfold stored_collection. cbn [collection_file].
      now rewrite (file_state_stringify _ _ _ (lookup_insert_eq _ _ _)).
    - unfold stored_collection in Hstored. cbn [collection_file] in Hstored.
      unfold delete_skill, try_catch, bind. rewrite loadData_spec.
      cbn [disk set_ticks].
      destruct (file_state (disk w) "skills.json") as [ | text | v ];
        [ injection Hstored as <-; inversion Hex
        | destruct (is_json text); [ discriminate Hstored | ];
          injection Hstored as <-; inversion Hex | ].
      destruct v as [ | b | n | s | ys | ms ]; try discriminate Hstored.
      cbn [loaded_value]. unfold no_skills, skills_array. cbn [truthy prop negb orb].
      destruct (obj_get "skills" ms) as [ [ | | | | zs | ] | ]; try discriminate Hstored.
      injection Hstored as ->. cbn [truthy_opt truthy negb as_array lift].
      rewrite Hfilter, Hne2, saveData_spec.
      eexists _, _. split; [ reflexivity | split; [ reflexivity | ] ].
      unfold stored_collection. cbn [collection_file].
      now rewrite (file_state_stringify _ _ _ (lookup_insert_eq _ _ _)).
    - pose proof (stored_collection_loaded MessagesC _ _ ltac:(discriminate) Hstored) as Hl.
      cbn [collection_file] in Hl.
      unfold delete_message, try_catch, bind. rewrite loadData_spec.
      cbn [disk set_ticks lift]. rewrite Hl, Hfilter, Hne1, saveData_spec.
      eexists _, _. split; [ reflexivity | split; [ reflexivity | ] ].
      unfold stored_collection. cbn [collection_file].
      now rewrite (file_state_stringify _ _ _ (lookup_insert_eq _ _ _)). }
  destruct Hserved as (response & data & -> & Hstatus & Hkept).
  cbn [fst snd]. rewrite disk_written, Hw. cbn [disk set_ticks].
  split; [ exact Hstatus | ].
  split; [ exact Hkept | ].
  split.
  - unfold absent. apply List.Forall_forall. intros p Hp.
    apply filter_In in Hp as [Hin Hlacks].
    rewrite List.Forall_forall in Hall. split; [ now apply Hall | ].
    unfold lacks_id in Hlacks. now destruct (holds_id (params_id req) p).
  - intros p. unfold kept. rewrite filter_In. unfold lacks_id.
    destruct (holds_id (params_id req) p); cbn [negb]; intuition discriminate.
Qed.

(* ===================================================================== *)
(** ** The archival job: what a run keeps, loses and leaves alone            *)
(* ===================================================================== *)

Lemma filter_partition_perm {A : Type} (p : A -> bool) (xs : list A) :
  Permutation (List.filter p xs ++ List.filter (fun x => negb (p x)) xs) xs.
Proof.
  induction xs as [ | x xs IH ]; [ reflexivity | ].
  cbn [List.filter]. destruct (p x); cbn [negb app].
  - now apply perm_skip.
  - rewrite <- Permutation_middle. now apply perm_skip.
Qed.

Lemma stored_archive_written (f : string) (xs : list json) (env : Env) (w : World) :
  write_ok env f = true ->
  stored_archive (disk (written f (JArr xs) env w)) f = Some xs.
Proof.
  intros Hok. unfold stored_archive. now rewrite (file_state_written_same _ _ _ _ Hok).
Qed.

Lemma stored_archive_other (f g : string) (v : json) (env : Env) (w : World) :
  g <> f -> stored_archive (disk (written f v env w)) g = stored_archive (disk w) g.
Proof. intros Hne. unfold stored_archive. now rewrite file_state_written_other. Qed.

(** X11. One run of the archival job with both files writable loses no
    message and makes no copy: the records of the archive of the year
    followed by those of the active file are, after the run, a
    permutation of what they were before it. *)
Theorem archive_keeps_every_message `{Calendar} (env : Env) (w : World)
  (messages archive : list json) :
  let archiveFile := archiveMessages.archive_name (clock env (S (ticks w))) in
  let w' := snd (archiveMessages.archiveOldMessages env w) in
  file_state (disk w) "messages.json" = Parsed (JArr messages) ->
  Forall (fun m => m <> JNull) messages ->
  stored_archive (disk w) archiveFile = Some archive ->
  write_ok env archiveFile = true ->
  write_ok env "messages.json" = true ->
  exists archived active,
    stored_archive (disk w') archiveFile = Some archived /\
    file_state (disk w') "messages.json" = Parsed (JArr active) /\
    Permutation (archived ++ active) (archive ++ messages).
Proof.
  intros archiveFile w' Hfile Hrec Harch Hwa Hwm.
  pose proof (archiveOldMessages_run env w messages archive Hfile Hrec Harch) as Hrun.
  cbv zeta in Hrun. fold archiveFile in Hrun. fold w' in Hrun.
  set (cutoff := setDate_back 30 (clock env (ticks w))) in *.
  pose proof (filter_partition_perm (archivable cutoff) messages) as Hperm.
  assert (Hne : archiveFile <> "messages.json") by apply archive_name_not_messages.
  destruct (List.filter (archivable cutoff) messages) as [ | m0 old ] eqn:Hold.
  - exists archive, messages. rewrite Hrun. cbn [disk set_ticks]. auto.
  - exists (archive ++ m0 :: old), (List.filter (fun m => negb (archivable cutoff m)) messages).
    rewrite Hrun. split; [ | split ].
    + rewrite stored_archive_other by exact Hne. now apply stored_archive_written.
    + now apply file_state_written_same.
    + rewrite <- app_assoc. now rewrite Hperm.
Qed.

(** X12. One run of the job when the archive file cannot be written but
    the active file can: [saveData] answers [false] for the archive, the
    job does not look at it, and the active file is still overwritten.
    The messages the run took for old are then in neither file. *)
Theorem archive_failed_write_loses_old `{Calendar} (env : Env) (w : World)
  (messages archive : list json) :
  let thirtyDaysAgo := setDate_back 30 (clock env (ticks w)) in
  let archiveFile := archiveMessages.archive_name (clock env (S (ticks w))) in
  let w' := snd (archiveMessages.archiveOldMessages env w) in
  file_state (disk w) "messages.json" = Parsed (JArr messages) ->
  Forall (fun m => m <> JNull) messages ->
  stored_archive (disk w) archiveFile = Some archive ->
  write_ok env archiveFile = false ->
  write_ok env "messages.json" = true ->
  forall m, In m messages -> archivable thirtyDaysAgo m = true ->
    disk w' !! archiveFile = disk w !! archiveFile /\
    stored_archive (disk w') archiveFile = Some archive /\
    exists active,
      file_state (disk w') "messages.json" = Parsed (JArr active) /\
      ~ In m active /\
      (length active < length messages)%nat.
Proof.
  intros cutoff archiveFile w' Hfile Hrec Harch Hwa Hwm m Hin Hold.
  pose proof (archiveOldMessages_run env w messages archive Hfile Hrec Harch) as Hrun.
  cbv zeta in Hrun. fold cutoff archiveFile w' in Hrun.
  assert (Hne : archiveFile <> "messages.json") by apply archive_name_not_messages.
  assert (Hinold : In m (List.filter (archivable cutoff) messages)).
  { apply filter_In. now split. }
  destruct (List.filter (archivable cutoff) messages) as [ | m0 old ] eqn:E;
    [ destruct Hinold | ].
  assert (Hdisk : disk w' !! archiveFile = disk w !! archiveFile).
  { rewrite Hrun. rewrite lookup_written_other by exact Hne.
    rewrite disk_written, Hwa. reflexivity. }
  split; [ exact Hdisk | ].
  split.
  { unfold stored_archive, file_state in *. now rewrite Hdisk. }
  exists (List.filter (fun x => negb (archivable cutoff x)) messages).
  split; [ rewrite Hrun; now apply file_state_written_same | ].
  split.
  - intros Hc. apply filter_In in Hc as [_ Hc]. now rewrite Hold in Hc.
  - apply filter_shorter. apply List.Exists_exists. exists m.
    split; [ exact Hin | now rewrite Hold ].
Qed.

Lemma written_frame (f : string) (v : json) (env : Env) (w : World) :
  users (written f v env w) = users w /\ outbox (written f v env w) = outbox w.
Proof. unfold written. destruct (write_ok env f); split; reflexivity. Qed.

(** X13. Whatever the data directory holds, a run of the job returns
    without an error, changes no account and sends no mail, and leaves
    every file but the active file and the archive of the year with the
    bytes it had. *)
Theorem archive_job_frame `{Calendar} (env : Env) (w : World) :
  let archiveFile := archiveMessages.archive_name (clock env (S (ticks w))) in
  let run := archiveMessages.archiveOldMessages env w in
  fst run = Ok tt /\
  users (snd run) = users w /\
  outbox (snd run) = outbox w /\
  forall f, f <> "messages.json" -> f <> archiveFile ->
    disk (snd run) !! f = disk w !! f.
Proof.
  intros archiveFile run. unfold run, archiveMessages.archiveOldMessages, try_catch, bind.
  change (archiveMessages.loadData "messages.json") with (loadData "messages.json").
  rewrite loadData_spec. cbn [now lift ticks set_ticks].
  destruct (as_array (or_else (loaded_value (file_state (disk w) "messages.json")) (JArr [])))
    as [ entries | e ]; [ | cbn; auto ].
  destruct (archiveMessages.split_messages _ entries) as [ [old current] | e ];
    [ | cbn; auto ].
  cbn [fst snd]. destruct old as [ | m0 old ]; [ cbn; auto | ].
  cbn [now lift ticks set_ticks disk]. fold archiveFile.
  change (archiveMessages.loadData archiveFile) with (loadData archiveFile).
  rewrite loadData_spec. cbn [disk set_ticks].
  destruct (as_array (or_else (loaded_value (file_state (disk w) archiveFile)) (JArr [])))
    as [ stored | e ]; [ | cbn; auto ].
  change (archiveMessages.saveData ?f ?v) with (saveData f v).
  rewrite !saveData_spec. cbn [fst snd ret].
  split; [ reflexivity | ].
  split; [ now rewrite !(proj1 (written_frame _ _ _ _)) | ].
  split; [ now rewrite !(proj2 (written_frame _ _ _ _)) | ].
  intros f Hm Ha. now rewrite !lookup_written_other.
Qed.

(* ===================================================================== *)
(** ** The reset flow from the request to the new password                   *)
(* ===================================================================== *)

Lemma active_reset_rehash (f : string -> string) (t : Z) (u : User) :
  active_reset t (rehash f u) = active_reset t u.
Proof. unfold active_reset, rehash. cbn. now destruct (resetToken u). Qed.

Lemma filter_active_rehash (f : string -> string) (t : Z) (us : list User) :
  List.filter (active_reset t) (map (rehash f) us) =
  map (rehash f) (List.filter (active_reset t) us).
Proof.
  induction us as [ | u us IH ]; [ reflexivity | ].
  cbn [map List.filter]. rewrite active_reset_rehash.
  destruct (active_reset t u); cbn [map]; now rewrite IH.
Qed.

Lemma first_match_rehash `{Crypto} (f : string -> string) (token : string)
  (clk : nat -> Z) (cs : list User) :
  forall n,
  first_match token clk n (map (rehash f) cs) =
  option_map (fun iu => (fst iu, rehash f (snd iu))) (first_match token clk n cs).
Proof.
  induction cs as [ | u cs IH ]; intros n; [ reflexivity | ].
  cbn [map first_match].
  change (prefix_matches token (clk n) (rehash f u)) with (prefix_matches token (clk n) u).
  destruct (prefix_matches token (clk n) u); [ reflexivity | ].
  rewrite IH. now destruct (first_match token clk (S n) cs) as [ [i v] | ].
Qed.

Lemma replace_user_rehash (f : string -> string) (user : User) (us : list User) :
  resetToken user = None ->
  replace_user user (map (rehash f) us) = map (rehash f) (replace_user user us).
Proof.
  intros Hnone. unfold replace_user. rewrite !map_map. apply map_ext. intros u.
  cbn [rehash _id]. destruct (String.eqb (_id u) (_id user)); [ | reflexivity ].
  destruct user as [i n p e rt rte]. cbn in Hnone. subst rt. reflexivity.
Qed.

(** The end of the consume endpoint does not look at the stored hash. *)
Lemma consume_reset_rehash `{Crypto} (f : string -> string) (pv : option json)
  (m : option User) (env : Env) (w : World) :
  (forall h, String.eqb (f h) "" = String.eqb h "") ->
  consume_reset pv (option_map (rehash f) m) env
    (set_users (map (rehash f) (users w)) w) =
  (fst (consume_reset pv m env w),
   set_users (map (rehash f) (users (snd (consume_reset pv m env w))))
     (snd (consume_reset pv m env w))).
Proof.
  intros Hf. destruct m as [ u | ]; [ | reflexivity ].
  cbn [option_map]. unfold consume_reset, reset_expired, bind.
  cbn [rehash resetToken resetTokenExpires _id username email].
  destruct (resetToken u) as [ h | ]; cbn [option_map]; [ | reflexivity ].
  destruct (resetTokenExpires u) as [ e | ]; [ | reflexivity ].
  rewrite Hf. destruct (String.eqb h ""); [ reflexivity | ].
  unfold now, ret. cbn [ticks set_users].
  destruct (e <? clock env (ticks w))%Z; [ reflexivity | ].
  destruct pv as [ [ | b | n | s | xs | ms ] | ]; try reflexivity.
  cbn [lift as_string]. unfold hash_with_salt, save_user.
  cbn [fst snd users set_users set_ticks _id].
  pose proof (replace_user_rehash f
          {| _id := _id u; username := username u; password := bcrypt_hash (salt env) s;
             email := email u; resetToken := None; resetTokenExpires := None |}
          (users w) eq_refl) as Hr.
  unfold replace_user in Hr. cbn [_id] in Hr. rewrite Hr. reflexivity.
Qed.

Lemma reset_password_try_rehash `{Crypto} (f : string -> string) (req : Request)
  (env : Env) (w : World) :
  (forall h, String.eqb (f h) "" = String.eqb h "") ->
  reset_password_try req env (set_users (map (rehash f) (users w)) w) =
  (fst (reset_password_try req env w),
   set_users (map (rehash f) (users (snd (reset_password_try req env w))))
     (snd (reset_password_try req env w))).
Proof.
  intros Hf.
  destruct (negb (truthy_opt (field "token" req)) || negb (truthy_opt (field "password" req)))
    eqn:Hvalid.
  { unfold reset_password_try. rewrite Hvalid. reflexivity. }
  apply orb_false_elim in Hvalid as [Htok Hpw].
  apply negb_false_iff in Htok, Hpw.
  destruct (field "token" req) as [ [ | b | n | tok | xs | ms ] | ] eqn:Etok;
    try discriminate Htok;
    try (unfold reset_password_try; rewrite Etok, Hpw, Htok; reflexivity).
  assert (Hne : tok <> "").
  { cbn in Htok. apply negb_true_iff in Htok. now apply String.eqb_neq. }
  rewrite (reset_password_try_spec req env w tok Etok Hne Hpw).
  rewrite (reset_password_try_spec req env _ tok Etok Hne Hpw).
  cbn [ticks users set_users]. rewrite filter_active_rehash, first_match_rehash.
  destruct (first_match tok (clock env) (S (ticks w))
              (List.filter (active_reset (clock env (ticks w))) (users w)))
    as [ [i u] | ]; cbn [option_map fst snd].
  - exact (consume_reset_rehash f (field "password" req) (Some u) env
             (set_ticks (S (S (ticks w) + i)) w) Hf).
  - rewrite length_map.
    exact (consume_reset_rehash f (field "password" req) None env
             (set_ticks (S (ticks w) + length _) w) Hf).
Qed.

(** X14. The consume endpoint never compares the token it receives with
    the hash the request endpoint stored: with every stored hash replaced
    by any other non-empty string, the answer to any request is the same
    and the accounts end up the same but for those hashes. *)
Theorem reset_password_never_reads_hash `{Crypto} (f : string -> string)
  (req : Request) (env : Env) (w : World) :
  (forall h, String.eqb (f h) "" = String.eqb h "") ->
  let served := serve (reset_password req) env w in
  let served' := serve (reset_password req) env (set_users (map (rehash f) (users w)) w) in
  fst served' = fst served /\
  users (snd served') = map (rehash f) (users (snd served)).
Proof.
  intros Hf served served'. unfold served, served', serve, reset_password, try_catch.
  rewrite (reset_password_try_rehash f req env w Hf).
  destruct (reset_password_try req env w) as [ [ r | e ] w' ]; cbn; auto.
Qed.
Lemma candidates_after_request (t : Z) (stored : User) (us : list User) (user : User) :
  In user us ->
  _id stored = _id user ->
  active_reset t stored = true ->
  (forall v, In v us -> _id v <> _id user -> resetToken v = None) ->
  exists rest,
    List.filter (active_reset t) (replace_user stored us) = stored :: rest.
Proof.
  intros Hin Hid Hactive Hothers. unfold replace_user. rewrite Hid.
  induction us as [ | v us IH ]; [ destruct Hin | ].
  cbn [map List.filter].
  destruct (String.eqb (_id v) (_id user)) eqn:E.
  - rewrite Hactive. eauto.
  - assert (Hv : active_reset t v = false).
    { unfold active_reset. rewrite (Hothers v (or_introl eq_refl)); [ reflexivity | ].
      now apply String.eqb_neq. }
    rewrite Hv. destruct Hin as [ -> | Hin ].
    + now rewrite String.eqb_refl in E.
    + apply (IH Hin). intros x Hx. apply Hothers. now right.
Qed.

(** X15. The reset flow end to end.  An account asks for a reset and gets
    the link; nobody else has a reset pending.  The 64 characters of the
    link are presented with a new password within the hour, and signing
    afresh for the account gives a token with the same 64 leading
    characters.  Then the consume endpoint answers with the success
    message and every document of the account has the hash of the new
    password and no reset token. *)
Theorem reset_flow_completes `{Crypto} `{Regex} (req1 req2 : Request) (env : Env)
  (w : World) (address : string) (matches : string -> bool) (user : User)
  (T pw : string) :
  field "email" req1 = Some (JStr address) -> address <> "" ->
  regex_i ("^" +:+ address +:+ "$") = Some matches ->
  List.find (fun u => matches (email u)) (users w) = Some user ->
  jwt_sign (reset_payload user) JWT_SECRET 3600 (clock env (ticks w)) = Some T ->
  mail_ok env = true ->
  bcrypt_hash (salt env) T <> "" ->
  (forall v, In v (users w) -> _id v <> _id user -> resetToken v = None) ->
  let w1 := snd (serve (request_password_reset req1) env w) in
  let expires := clock env (S (ticks w)) + 3600000 in
  field "token" req2 = Some (JStr (String.substring 0 64 T)) ->
  String.substring 0 64 T <> "" ->
  field "password" req2 = Some (JStr pw) -> pw <> "" ->
  sample_prefix (clock env (S (ticks w1))) user = Some (String.substring 0 64 T) ->
  clock env (ticks w1) < expires ->
  clock env (S (S (ticks w1))) <= expires ->
  let served := serve (reset_password req2) env w1 in
  outbox w1 = ResetMail address (shortResetUrl (port env) T) :: outbox w /\
  fst served = message_response "Password has been reset successfully." /\
  forall v, In v (users (snd served)) -> _id v = _id user ->
    password v = bcrypt_hash (salt env) pw /\ resetToken v = None /\
    resetTokenExpires v = None.
Proof.
  intros Hemail Hane Hre Hfind Hsign Hmail Hhash Hothers w1 expires
    Htok Htne Hpw Hpne Hprefix Hquery Hcheck served.
  set (stored := with_reset (bcrypt_hash (salt env) T) expires user).
  assert (Hw1 : w1 =
    set_outbox (ResetMail address (shortResetUrl (port env) T) :: outbox w)
      (set_users (replace_user stored (users w)) (set_ticks (S (S (S (ticks w)))) w))).
  { unfold w1. rewrite (request_password_reset_spec req1 env w address matches Hemail Hane Hre).
    rewrite Hfind, Hsign. cbv zeta. now rewrite Hmail. }
  assert (Hticks : ticks w1 = S (S (S (ticks w)))) by now rewrite Hw1.
  assert (Husers : users w1 = replace_user stored (users w)) by now rewrite Hw1.
  assert (Hin : In user (users w)).
  { apply find_some in Hfind. tauto. }
  assert (Hactive : active_reset (clock env (ticks w1)) stored = true).
  { unfold active_reset. cbn. now apply Z.ltb_lt. }
  destruct (candidates_after_request (clock env (ticks w1)) stored (users w) user
              Hin eq_refl Hactive Hothers) as [rest Hcands].
  rewrite <- Husers in Hcands.
  assert (Htruthy : truthy_opt (field "password" req2) = true).
  { rewrite Hpw. cbn. apply String.eqb_neq in Hpne. now rewrite Hpne. }
  assert (Htry : reset_password_try req2 env w1 =
    consume_reset (field "password" req2) (Some stored) env
      (set_ticks (S (S (ticks w1) + 0)) w1)).
  { apply (reset_password_try_target req2 env w1 (String.substring 0 64 T) 0%nat stored
             Htok Htne Htruthy).
    - now rewrite Hcands.
    - rewrite Nat.add_0_r. exact Hprefix.
    - intros j v Hj. lia. }
  assert (Hserved : served =
    (message_response "Password has been reset successfully.",
     set_users (replace_user (after_reset (bcrypt_hash (salt env) pw) stored) (users w1))
       (set_ticks (S (S (S (ticks w1) + 0))) w1))).
  { unfold served, serve, reset_password, try_catch. rewrite Htry.
    unfold consume_reset, reset_expired. cbn [stored with_reset resetToken resetTokenExpires].
    apply String.eqb_neq in Hhash. rewrite Hhash.
    unfold bind, now, ret. cbn [ticks set_ticks]. rewrite Nat.add_0_r.
    assert (Hlt : (expires <? clock env (S (S (ticks w1))))%Z = false)
      by (apply Z.ltb_ge; exact Hcheck).
    rewrite Hlt, Hpw. reflexivity. }
  split; [ now rewrite Hw1 | ].
  split; [ now rewrite Hserved | ].
  intros v Hv Hid. rewrite Hserved in Hv. cbn [snd users set_users] in Hv.
  unfold replace_user in Hv. apply in_map_iff in Hv as (x & Hx & _).
  cbn [after_reset _id stored with_reset] in Hx.
  destruct (String.eqb (_id x) (_id user)) eqn:E.
  - subst v. cbn. auto.
  - subst v. apply String.eqb_neq in E. contradiction.
Qed.

(* ===================================================================== *)
(** ** The default account                                                  *)
(* ===================================================================== *)

(** X16. [initializeDefaultUser] leaves a collection that has a document
    as it is.  On an empty collection it creates the account [admin] with
    the hash of [admin123]; when [bcrypt] accepts that password against
    its own hash, a login as [admin] with [admin123] is then answered
    with a session token for the new account. *)
Theorem default_account_logs_in `{Crypto} `{Driver} (objectId : string) (req : Request)
  (env : Env) (w : World) (token : string) :
  let w1 := snd (initializeDefaultUser objectId env w) in
  let account :=
    {| _id := objectId; username := "admin";
       password := bcrypt_hash (salt env) "admin123"; email := "admin@example.com";
       resetToken := None; resetTokenExpires := None |} in
  field "username" req = Some (JStr "admin") ->
  field "password" req = Some (JStr "admin123") ->
  bcrypt_compare "admin123" (bcrypt_hash (salt env) "admin123") = true ->
  jwt_sign (session_payload account) JWT_SECRET 3600 (clock env (ticks w)) = Some token ->
  (users w <> [] -> w1 = w) /\
  (users w = [] ->
     users w1 = [account] /\
     fst (serve (login req) env w1) = json_response 200 (JObj [("token", JStr token)])).
Proof.
  intros w1 account Hname Hpw Hcmp Hsign. subst account.
  unfold w1, initializeDefaultUser, try_catch, bind, countDocuments.
  destruct (users w) as [ | u us ] eqn:Hus; cbn [length Nat.eqb].
  - split; [ congruence | intros _ ].
    unfold hash_with_salt, insert_user. cbn [fst snd users set_users]. rewrite Hus.
    cbn [app]. split; [ reflexivity | ].
    unfold serve, login, try_catch. rewrite Hname, Hpw.
    cbn [truthy_opt truthy String.eqb Ascii.eqb Bool.eqb negb orb].
    unfold bind at 1. unfold ret at 1. unfold bind at 1. unfold findOne_user at 1.
    change (trim "admin") with "admin".
    cbn [users set_users List.find username String.eqb Ascii.eqb Bool.eqb].
    unfold bind at 1. cbn [lift as_string]. cbn [password]. rewrite Hcmp.
    unfold sign_1h. unfold bind, now, ret. cbn [ticks set_users]. rewrite Hsign. reflexivity.
  - split; [ intros _; reflexivity | discriminate ].
Qed.

(* ===================================================================== *)
(** ** Statistics                                                           *)
(* ===================================================================== *)

Lemma stored_or_loaded (d : gmap string string) (filename : string) (dflt v : json) :
  stored_or d filename dflt = Some v ->
  or_else (loaded_value (file_state d filename)) dflt = v.
Proof.
  unfold stored_or.
  destruct (file_state d filename) as [ | text | u ]; cbn [loaded_value].
  - now intros [= <-].
  - destruct (is_json text); [ discriminate | now intros [= <-] ].
  - now intros [= <-].
Qed.

(** Adding one to a safe integer is exact. *)
Lemma double_of_Z_exact (n : Z) : Z.abs n <= 2 ^ 53 -> double_of_Z n = Some n.
Proof.
  intros Hn. unfold double_of_Z. apply Z.leb_le in Hn. cbv zeta. now rewrite Hn.
Qed.

Lemma plus_one_safe (n : Z) :
  safe_integer n -> plus_one (Some (JNum n)) = Ok (JNum (n + 1)).
Proof.
  unfold safe_integer. intros Hn. cbn [plus_one].
  now rewrite !double_of_Z_exact by lia.
Qed.

(** Beyond the safe integers the count stands still: 2^53 + 1 is no
    double, and the sum is rounded back to 2^53. *)
Lemma plus_one_at_2_53 :
  plus_one (Some (JNum 9007199254740992)) = Ok (JNum 9007199254740992).
Proof. vm_compute. reflexivity. Qed.

(** X17. [POST /api/stats/visitor] on statistics that are an object with
    a number of visitors and a table of months that has a number for the
    current month (a missing file stands for such statistics), both
    numbers being safe integers: the answer is the success object, the
    file then holds the visitors plus one and the table with the current
    month plus one, and every other property as it was. *)
Theorem post_visitor_counts `{Calendar} (req : Request) (env : Env) (w : World)
  (ms : list (string * json)) (months : list json) (n k : Z) :
  let m := getMonth (clock env (ticks w)) in
  stored_stats (disk w) = Some (JObj ms) ->
  obj_get "visitors" ms = Some (JNum n) ->
  safe_integer n ->
  obj_get "monthlyVisitors" ms = Some (JArr months) ->
  0 <= m ->
  months !! Z.to_nat m = Some (JNum k) ->
  safe_integer k ->
  write_ok env "stats.json" = true ->
  let served := serve (post_visitor req) env w in
  fst served = success_response /\
  exists ms',
    file_state (disk (snd served)) "stats.json" = Parsed (JObj ms') /\
    obj_get "visitors" ms' = Some (JNum (n + 1)) /\
    obj_get "monthlyVisitors" ms' =
      Some (JArr (<[Z.to_nat m := JNum (k + 1)]> months)) /\
    forall key, key <> "visitors" -> key <> "monthlyVisitors" ->
      obj_get key ms' = obj_get key ms.
Proof.
  intros m Hstats Hv Hsafe Hmv Hm Hk Hksafe Hw served.
  set (ms' := obj_set "monthlyVisitors" (JArr (<[Z.to_nat m := JNum (k + 1)]> months))
                (obj_set "visitors" (JNum (n + 1)) ms)).
  assert (Hlen : (Z.to_nat m <? length months)%nat = true).
  { apply Nat.ltb_lt. eapply lookup_lt_Some. exact Hk. }
  assert (Hserved : served =
    (success_response, written "stats.json" (JObj ms') env (set_ticks (S (ticks w)) w))).
  { unfold served, serve, post_visitor, try_catch, bind. rewrite loadData_spec.
    rewrite (stored_or_loaded _ _ _ _ Hstats). cbn [prop lift]. rewrite Hv.
    rewrite (plus_one_safe n Hsafe). cbn [set_named obj_assign now prop].
    rewrite (obj_get_set_other "monthlyVisitors" "visitors") by discriminate.
    rewrite Hmv. cbn [at_index]. fold m.
    assert (H0 : (0 <=? m)%Z = true) by now apply Z.leb_le.
    rewrite H0, Hk. cbn [lift]. rewrite (plus_one_safe k Hksafe).
    cbn [set_index]. rewrite H0, Hlen.
    rewrite saveData_spec. reflexivity. }
  split; [ now rewrite Hserved | ].
  exists ms'. rewrite Hserved. cbn [snd].
  split; [ now apply file_state_written_same | ].
  split.
  { unfold ms'. rewrite obj_get_set_other by discriminate. apply obj_get_set_same. }
  split; [ apply obj_get_set_same | ].
  intros key Hk1 Hk2. unfold ms'. now rewrite !obj_get_set_other by congruence.
Qed.

(** The run of [incrementCounter] over statistics that are an object. *)
Lemma incrementCounter_run (c : Counter) (env : Env) (w : World)
  (ms : list (string * json)) (n : Z) :
  or_else (loaded_value (file_state (disk w) "stats.json")) (JObj []) = JObj ms ->
  or_default (obj_get (counter_name c) ms) (JNum 0) = JNum n ->
  safe_integer n ->
  incrementCounter c env w =
  (Ok tt, written "stats.json" (JObj (obj_set (counter_name c) (JNum (n + 1)) ms)) env w).
Proof.
  intros Hstats Hn Hsafe. unfold incrementCounter, try_catch, bind. rewrite loadData_spec.
  rewrite Hstats. cbn [prop]. rewrite Hn. rewrite (plus_one_safe n Hsafe).
  cbn [lift set_named obj_assign].
  rewrite saveData_spec. reflexivity.
Qed.

Lemma stored_count_run (k : string) (env : Env) (w : World) :
  stored_count k env w =
  (Ok (or_default (prop k (or_else (loaded_value (file_state (disk w) "stats.json"))
                             (JObj []))) (JNum 0)), w).
Proof. unfold stored_count, try_catch, bind. now rewrite loadData_spec. Qed.

Lemma or_default_num (n : Z) : or_default (Some (JNum n)) (JNum 0) = JNum n.
Proof.
  unfold or_default, or_else. cbn [truthy].
  destruct (n =? 0)%Z eqn:E; [ | reflexivity ].
  apply Z.eqb_eq in E. now subst n.
Qed.

(** X18. [incrementCounter] and the count functions agree.  On
    statistics that are an object whose counter is a safe integer or is
    not there (a missing file stands for the empty object), one call with
    the file writable returns without an error, the counter then reads
    one more than it read before, and every other count reads as before. *)
Theorem increment_then_count (c : Counter) (env : Env) (w : World)
  (ms : list (string * json)) (n : Z) :
  stored_counters (disk w) = Some (JObj ms) ->
  fst (stored_count (counter_name c) env w) = Ok (JNum n) ->
  safe_integer n ->
  write_ok env "stats.json" = true ->
  let run := incrementCounter c env w in
  fst run = Ok tt /\
  fst (stored_count (counter_name c) env (snd run)) = Ok (JNum (n + 1)) /\
  forall k, k <> counter_name c ->
    fst (stored_count k env (snd run)) = fst (stored_count k env w).
Proof.
  intros Hstats Hn Hsafe Hw run. apply stored_or_loaded in Hstats.
  rewrite stored_count_run, Hstats in Hn. cbn [fst prop] in Hn. injection Hn as Hn.
  assert (Hrun : run = (Ok tt, written "stats.json"
                                 (JObj (obj_set (counter_name c) (JNum (n + 1)) ms)) env w))
    by exact (incrementCounter_run c env w ms n Hstats Hn Hsafe).
  rewrite Hrun. cbn [fst snd].
  assert (Hafter : or_else (loaded_value (file_state
                      (disk (written "stats.json"
                               (JObj (obj_set (counter_name c) (JNum (n + 1)) ms)) env w))
                      "stats.json")) (JObj [])
                   = JObj (obj_set (counter_name c) (JNum (n + 1)) ms)).
  { now rewrite (file_state_written_same _ _ _ _ Hw). }
  split; [ reflexivity | ].
  split.
  - rewrite stored_count_run, Hafter. cbn [fst prop].
    now rewrite obj_get_set_same, or_default_num.
  - intros k Hk. rewrite !stored_count_run, Hafter, Hstats. cbn [fst prop].
    now rewrite obj_get_set_other by exact Hk.
Qed.

(** [POST /api/stats/visitor] on statistics without a table of months. *)
Lemma post_visitor_without_months `{Calendar} (req : Request) (env : Env) (w : World)
  (ms : list (string * json)) :
  file_state (disk w) "stats.json" = Parsed (JObj ms) ->
  obj_get "monthlyVisitors" ms = None ->
  fst (serve (post_visitor req) env w) = error_response 500 "Failed to record visitor" /\
  disk (snd (serve (post_visitor req) env w)) = disk w.
Proof.
  intros Hfile Hnone. unfold serve, post_visitor, try_catch, bind. rewrite loadData_spec.
  rewrite Hfile. cbn [loaded_value or_else truthy prop lift].
  destruct (plus_one (obj_get "visitors" ms)) as [ visitors | e ]; [ | cbn; auto ].
  cbn [set_named obj_assign now prop].
  rewrite (obj_get_set_other "monthlyVisitors" "visitors") by discriminate.
  rewrite Hnone. cbn. auto.
Qed.

(** X19. The order of the first requests on a fresh installation
    matters.  With no [stats.json], recording a CV view creates the file
    with that one counter; the statistics then have no table of months,
    and recording a visitor fails with 500 and writes nothing. *)
Theorem cv_view_first_breaks_visitors `{Calendar} (req1 req2 : Request) (env : Env)
  (w : World) :
  disk w !! "stats.json" = None ->
  write_ok env "stats.json" = true ->
  let first := serve (post_cv_view req1) env w in
  let second := serve (post_visitor req2) env (snd first) in
  fst first = success_response /\
  file_state (disk (snd first)) "stats.json" = Parsed (JObj [("cvViews", JNum 1)]) /\
  fst second = error_response 500 "Failed to record visitor" /\
  disk (snd second) = disk (snd first).
Proof.
  intros Hmissing Hw first second.
  assert (Hstats : or_else (loaded_value (file_state (disk w) "stats.json")) (JObj [])
                   = JObj []).
  { unfold file_state. now rewrite Hmissing. }
  assert (Hfirst : first =
    (success_response, written "stats.json" (JObj [("cvViews", JNum 1)]) env w)).
  { unfold first, serve, post_cv_view, try_catch, bind.
    now rewrite (incrementCounter_run cvViews env w [] 0 Hstats eq_refl). }
  assert (Hfile : file_state (disk (snd first)) "stats.json"
                  = Parsed (JObj [("cvViews", JNum 1)])).
  { rewrite Hfirst. now apply file_state_written_same. }
  split; [ now rewrite Hfirst | ].
  split; [ exact Hfile | ].
  exact (post_visitor_without_months req2 env (snd first) _ Hfile eq_refl).
Qed.

(** X20. [GET /api/stats] writes: over statistics that are an object and
    stored messages that are an array, the answer is 200 with the
    statistics in which [messageCount] is the number of stored messages,
    and the file is rewritten with that same object. *)
Theorem get_stats_counts_messages (req : Request) (env : Env) (w : World)
  (ms : list (string * json)) (xs : list json) :
  stored_stats (disk w) = Some (JObj ms) ->
  stored_collection MessagesC (disk w) = Some xs ->
  write_ok env "stats.json" = true ->
  let served := serve (get_stats req) env w in
  let stats := JObj (obj_set "messageCount" (JNum (Z.of_nat (length xs))) ms) in
  fst served = json_response 200 stats /\
  file_state (disk (snd served)) "stats.json" = Parsed stats /\
  writes (snd served) = "stats.json" :: writes w.
Proof.
  intros Hstats Hstored Hw served stats.
  pose proof (stored_collection_loaded MessagesC _ _ ltac:(discriminate) Hstored) as Hload.
  cbn [collection_file] in Hload.
  assert (Hmessages : or_else (loaded_value (file_state (disk w) "messages.json")) (JArr [])
                      = JArr xs).
  { destruct (or_else (loaded_value (file_state (disk w) "messages.json")) (JArr []));
      try discriminate Hload. now injection Hload as ->. }
  assert (Hserved : served = (json_response 200 stats, written "stats.json" stats env w)).
  { unfold served, serve, get_stats, try_catch, bind. rewrite !loadData_spec.
    rewrite (stored_or_loaded _ _ _ _ Hstats), Hmessages.
    cbn [length_of set_named obj_assign]. rewrite saveData_spec. reflexivity. }
  rewrite Hserved. cbn [fst snd].
  split; [ reflexivity | ].
  split; [ now apply file_state_written_same | ].
  unfold written. now rewrite Hw.
Qed.

(* ===================================================================== *)
(** ** Personal information                                                 *)
(* ===================================================================== *)

Lemma writeFile_run (f text : string) (env : Env) (w : World) :
  write_ok env f = true ->
  writeFile f text env w =
  (Ok tt, set_disk (<[f := text]> (disk w)) (set_writes (f :: writes w) w)).
Proof. intros Hok. unfold writeFile. now rewrite Hok. Qed.

(** The answer of [GET /personal-info] by the state of the file. *)
Lemma get_personal_info_run (req : Request) (env : Env) (w : World) :
  serve (get_personal_info req) env w =
  match file_state (disk w) "personal-info.json" with
  | Parsed v => (json_response 200 v, w)
  | Unparsable _ => (json_response 200 defaultPersonalInfo, w)
  | Missing =>
      (json_response 200 defaultPersonalInfo,
       if write_ok env "personal-info.json"
       then set_disk (<["personal-info.json" := JSON_stringify defaultPersonalInfo]> (disk w))
              (set_writes ("personal-info.json" :: writes w) w)
       else set_writes ("personal-info.json" :: writes w) w)
  end.
Proof.
  unfold serve, get_personal_info, try_catch, bind, ensurePersonalInfoFile, file_state.
  destruct (disk w !! "personal-info.json") as [ text | ] eqn:Hfile.
  - unfold readFile. rewrite Hfile. unfold JSON_parse_throw.
    cbn [parse json_serializer]. destruct (JSON_parse text); reflexivity.
  - unfold writeFile. destruct (write_ok env "personal-info.json"); [ | reflexivity ].
    unfold readFile. cbn [disk set_disk set_writes]. rewrite lookup_insert_eq.
    unfold JSON_parse_throw. cbn [parse json_serializer].
    now rewrite JSON_parse_stringify.
Qed.

(** X21. [GET /personal-info] always answers 200: with the stored value
    when the file holds one, and with the default data when the file is
    missing or its text is not JSON.  A missing file is created with the
    default data when it can be written; in all other cases no file
    changes. *)
Theorem get_personal_info_always_answers (req : Request) (env : Env) (w : World) :
  let served := serve (get_personal_info req) env w in
  status (fst served) = 200 /\
  (forall v, file_state (disk w) "personal-info.json" = Parsed v ->
     body (fst served) = v /\ snd served = w) /\
  (forall text, disk w !! "personal-info.json" = Some text -> is_json text = false ->
     body (fst served) = defaultPersonalInfo /\ snd served = w) /\
  (file_state (disk w) "personal-info.json" = Missing ->
     body (fst served) = defaultPersonalInfo /\
     (write_ok env "personal-info.json" = true ->
        file_state (disk (snd served)) "personal-info.json" = Parsed defaultPersonalInfo) /\
     (write_ok env "personal-info.json" = false -> disk (snd served) = disk w)).
Proof.
  intros served. unfold served. rewrite get_personal_info_run.
  destruct (file_state (disk w) "personal-info.json") as [ | text | v ] eqn:Hstate;
    cbn [fst snd].
  - split; [ reflexivity | ].
    split; [ discriminate | split; [ | intros _ ] ].
    { intros t Ht Hj. rewrite (file_state_not_json _ _ _ Ht Hj) in Hstate.
      discriminate Hstate. }
    split; [ reflexivity | ].
    split; intros Hw; rewrite Hw; cbn [disk set_disk set_writes]; [ | reflexivity ].
    apply file_state_stringify. apply lookup_insert_eq.
  - split; [ reflexivity | ].
    split; [ discriminate | ].
    split; [ intros t _ _; now split | discriminate ].
  - split; [ reflexivity | ].
    split; [ intros v' [= <-]; now split | ].
    split; [ | discriminate ].
    intros t Ht Hj. rewrite (file_state_not_json _ _ _ Ht Hj) in Hstate.
    discriminate Hstate.
Qed.

(** X22. [PUT /personal-info] with the header [Bearer admin], a truthy
    value for each of the four required fields and a writable file
    answers with the success object and stores the body; a [GET] that
    follows answers with that body. *)
Theorem put_personal_info_then_get (req req' : Request) (env : Env) (w : World) :
  authorization req = Some "Bearer admin" ->
  missing_field req = None ->
  write_ok env "personal-info.json" = true ->
  let served := serve (put_personal_info req) env w in
  status (fst served) = 200 /\
  prop "success" (body (fst served)) = Some (JBool true) /\
  file_state (disk (snd served)) "personal-info.json" = Parsed (JObj (req_body req)) /\
  fst (serve (get_personal_info req') env (snd served))
    = json_response 200 (JObj (req_body req)).
Proof.
  intros Hauth Hfields Hw served.
  assert (Hserved : exists w',
    served = (json_response 200
                (JObj [("success", JBool true);
                       ("message", JStr "Personal information updated successfully")]), w') /\
    disk w' !! "personal-info.json" = Some (JSON_stringify (JObj (req_body req)))).
  { unfold served, serve, put_personal_info, try_catch. rewrite Hauth, Hfields.
    cbn [String.eqb Ascii.eqb Bool.eqb negb].
    unfold bind, ensurePersonalInfoFile.
    destruct (disk w !! "personal-info.json") as [ text | ].
    - rewrite (writeFile_run _ _ _ _ Hw). eexists. split; [ reflexivity | ].
      cbn [disk set_disk]. apply lookup_insert_eq.
    - rewrite !(writeFile_run _ _ _ _ Hw). eexists. split; [ reflexivity | ].
      cbn [disk set_disk]. apply lookup_insert_eq. }
  destruct Hserved as (w' & -> & Hfile). cbn [fst snd].
  pose proof (file_state_stringify _ _ _ Hfile) as Hstate.
  split; [ reflexivity | split; [ reflexivity | split; [ exact Hstate | ] ] ].
  now rewrite get_personal_info_run, Hstate.
Qed.

(** X23. [PUT /personal-info] changes nothing unless the header is
    exactly [Bearer admin] and all four required fields are truthy: any
    other header, or none, is answered 401, and a body that lacks one of
    the fields is answered 400 naming the first that is missing. *)
Theorem put_personal_info_rejected (req : Request) (env : Env) (w : World) :
  (authorization req <> Some "Bearer admin" ->
     serve (put_personal_info req) env w = (error_response 401 "Unauthorized", w)) /\
  (forall f, authorization req = Some "Bearer admin" -> missing_field req = Some f ->
     serve (put_personal_info req) env w =
       (error_response 400 ("Missing required field: " +:+ f), w)).
Proof.
  unfold serve, put_personal_info, try_catch. split.
  - intros Hbad. destruct (authorization req) as [ h | ]; [ | reflexivity ].
    destruct (String.eqb h "Bearer admin") eqn:E; [ | reflexivity ].
    apply String.eqb_eq in E. congruence.
  - intros f -> ->. reflexivity.
Qed.

(* ===================================================================== *)
(** ** Projects and skills                                                  *)
(* ===================================================================== *)

Lemma find_r_app_absent (id : string) (xs : list json) (p : json) :
  absent id xs -> holds_id id p = true ->
  find_r (id_is id) (xs ++ [p]) = Ok (Some p).
Proof.
  intros Habs Hp. induction Habs as [ | x xs [Hx Hid] _ IH ].
  - cbn [app find_r]. destruct (holds_id_object _ _ Hp) as [ms ->].
    rewrite id_is_holds by discriminate. now rewrite Hp.
  - cbn [app find_r]. rewrite (id_is_absent _ _ Hx Hid). exact IH.
Qed.

(** X24. [POST /api/projects] and [GET /api/projects/:id] agree.  A
    project posted over stored projects none of which has the clock
    reading as its id, with technologies that are a string or missing and
    the file writable, is answered 201 with the new project, whose id is
    that clock reading; the file then holds the old projects followed by
    the new one, and [GET] with that id answers the new project. *)
Theorem post_project_then_get `{Calendar} (req req' : Request) (env : Env) (w : World)
  (xs : list json) (technologies : json) :
  let id := string_of_Z (clock env (ticks w)) in
  stored_collection ProjectsC (disk w) = Some xs ->
  absent id xs ->
  technologies_list (field "technologies" req) = Ok technologies ->
  write_ok env "projects.json" = true ->
  params_id req' = id ->
  let served := serve (post_project req) env w in
  exists newProject,
    fst served = json_response 201 newProject /\
    prop "id" newProject = Some (JStr id) /\
    prop "technologies" newProject = Some technologies /\
    stored_collection ProjectsC (disk (snd served)) = Some (xs ++ [newProject]) /\
    fst (serve (get_project req') env (snd served)) = json_response 200 newProject.
Proof.
  intros id Hstored Habs Htech Hw Hid served.
  assert (Harray : match or_else (loaded_value (file_state (disk w) "projects.json")) (JArr [])
                   with JArr ys => ys | _ => [] end = xs).
  { pose proof (stored_collection_loaded ProjectsC _ _ ltac:(discriminate) Hstored) as Hl.
    cbn [collection_file] in Hl.
    destruct (or_else (loaded_value (file_state (disk w) "projects.json")) (JArr []));
      try discriminate Hl. now injection Hl as ->. }
  assert (Hserved : exists fields,
    served = (json_response 201 (JObj (("id", JStr id) :: fields)),
              written "projects.json" (JArr (xs ++ [JObj (("id", JStr id) :: fields)])) env
                (set_ticks (S (S (ticks w))) w)) /\
    obj_get "technologies" (("id", JStr id) :: fields) = Some technologies).
  { unfold served, serve, post_project, try_catch, bind. rewrite loadData_spec.
    rewrite Harray. unfold fresh_id, timestamp, bind, now, ret. cbn [ticks set_ticks].
    fold id. rewrite Htech. cbn [lift]. rewrite saveData_spec, Hw.
    cbn [object_literal]. eexists. split; [ reflexivity | ].
    destruct (field "title" req), (field "description" req); reflexivity. }
  destruct Hserved as (fields & -> & Htechs). cbn [fst snd].
  set (newProject := JObj (("id", JStr id) :: fields)).
  assert (Hfile : file_state (disk (written "projects.json" (JArr (xs ++ [newProject])) env
                     (set_ticks (S (S (ticks w))) w))) "projects.json"
                  = Parsed (JArr (xs ++ [newProject]))).
  { now apply file_state_written_same. }
  exists newProject.
  split; [ reflexivity | ].
  split; [ reflexivity | ].
  split; [ exact Htechs | ].
  split.
  { unfold stored_collection. cbn [collection_file]. now rewrite Hfile. }
  unfold serve, get_project, try_catch, bind. rewrite loadData_spec, Hfile.
  cbn [loaded_value lift]. rewrite Hid.
  rewrite (find_r_app_absent id xs newProject Habs); [ reflexivity | ].
  unfold holds_id, newProject. cbn [prop obj_get String.eqb]. cbn.
  apply String.eqb_refl.
Qed.

(** X25. [PUT /api/projects/:id] with a new image when the old image file
    cannot be removed.  The handler means to go on, but the [catch] block
    of the removal names [oldFilePath], a constant of the [try] block:
    the request is answered 500 with the message of the ReferenceError
    and the project is not updated. *)
Theorem put_project_fails_on_old_image `{Calendar} (req : Request) (env : Env) (w : World)
  (projects : list json) (i : nat) (ms : list (string * json))
  (title description technologies filename old : string) :
  file_state (disk w) "projects.json" = Parsed (JArr projects) ->
  Forall (fun p => p <> JNull) projects ->
  projects !! i = Some (JObj ms) ->
  holds_id (params_id req) (JObj ms) = true ->
  (forall j p, (j < i)%nat -> projects !! j = Some p -> holds_id (params_id req) p = false) ->
  field "title" req = Some (JStr title) -> trim title <> "" ->
  field "description" req = Some (JStr description) -> trim description <> "" ->
  field "technologies" req = Some (JStr technologies) -> trim technologies <> "" ->
  req_file req = Some filename ->
  obj_get "image" ms = Some (JStr old) -> old <> "" ->
  old <> "/assets/images/" +:+ filename ->
  asset_removed env old = false ->
  let served := serve (put_project req) env w in
  fst served = error_response 500 "oldFilePath is not defined" /\
  disk (snd served) = disk w /\
  writes (snd served) = writes w.
Proof.
  intros Hfile Hall Hi Hid Hbefore Ht Htne Hd Hdne Hs Hsne Hupload Himage Hone Hdiff Hgone
    served.
  assert (Hnonempty : forall s, trim s <> "" -> String.eqb s "" = false).
  { intros s Hs0. apply String.eqb_neq. intros ->. now apply Hs0. }
  unfold served, serve, put_project, try_catch, bind. rewrite loadData_spec, Hfile.
  cbn [loaded_value or_else truthy lift].
  rewrite (findIndex_r_first _ _ _ _ Hall Hi Hid Hbefore).
  pose proof (Hnonempty _ Htne) as Ht0. pose proof (Hnonempty _ Hdne) as Hd0.
  pose proof (Hnonempty _ Hsne) as Hs0.
  apply String.eqb_neq in Htne, Hdne, Hsne.
  rewrite Ht, Hd, Hs. unfold blank, trimmed, technologies_list. cbn [truthy_opt truthy].
  rewrite Ht0, Hd0, Hs0, Htne, Hdne, Hsne. cbn [negb lift app].
  unfold timestamp, bind, now, ret. cbn [ticks set_ticks].
  unfold updated_image, members_at. rewrite Hi, Hupload, Himage.
  cbn [truthy_opt truthy strict_eq_str public_path].
  apply String.eqb_neq in Hone, Hdiff. rewrite Hone, Hdiff. cbn [negb andb].
  rewrite Hgone. cbn. auto.
Qed.

(** X26. [PUT /api/skills/:id] merges the body over the stored skill.  On
    a wrapper whose skills are records, the first with the id being at
    position [i], the answer is 200 with the updated skill: [updatedAt]
    is the time stamp of the server, every other property is the one of
    the body when the body has it (the id included) and the stored one
    otherwise.  The file keeps the wrapper with the updated skill in
    place of the old one. *)
Theorem put_skill_merges `{Calendar} (req : Request) (env : Env) (w : World)
  (wrapper : list (string * json)) (entries : list json) (i : nat)
  (ms : list (string * json)) :
  file_state (disk w) "skills.json" = Parsed (JObj wrapper) ->
  obj_get "skills" wrapper = Some (JArr entries) ->
  Forall (fun p => p <> JNull) entries ->
  entries !! i = Some (JObj ms) ->
  holds_id (params_id req) (JObj ms) = true ->
  (forall j p, (j < i)%nat -> entries !! j = Some p -> holds_id (params_id req) p = false) ->
  List.NoDup (map fst (req_body req)) ->
  write_ok env "skills.json" = true ->
  let served := serve (put_skill req) env w in
  exists updated,
    fst served = json_response 200 (JObj updated) /\
    file_state (disk (snd served)) "skills.json" =
      Parsed (JObj (obj_set "skills" (JArr (<[i := JObj updated]> entries)) wrapper)) /\
    obj_get "updatedAt" updated = Some (JStr (toISOString (clock env (ticks w)))) /\
    forall k, k <> "updatedAt" ->
      obj_get k updated =
      match field k req with Some v => Some v | None => obj_get k ms end.
Proof.
  intros Hfile Hskills Hall Hi Hid Hbefore Hnd Hw served.
  set (updated := obj_set "updatedAt" (JStr (toISOString (clock env (ticks w))))
                    (obj_spread ms (req_body req))).
  assert (Hserved : served =
    (json_response 200 (JObj updated),
     written "skills.json"
       (JObj (obj_set "skills" (JArr (<[i := JObj updated]> entries)) wrapper)) env
       (set_ticks (S (ticks w)) w))).
  { unfold served, serve, put_skill, try_catch, bind. rewrite loadData_spec, Hfile.
    cbn [loaded_value]. unfold no_skills, skills_array. cbn [truthy prop negb orb].
    rewrite Hskills. cbn [truthy_opt truthy negb as_array lift].
    rewrite (findIndex_r_first _ _ _ _ Hall Hi Hid Hbefore).
    unfold merged_record, timestamp, bind, now, ret, members_at. rewrite Hi.
    cbn [ticks set_ticks]. rewrite saveData_spec. reflexivity. }
  exists updated. rewrite Hserved. cbn [fst snd].
  split; [ reflexivity | ].
  split; [ now apply file_state_written_same | ].
  split; [ apply obj_get_set_same | ].
  intros k Hk. unfold updated. rewrite obj_get_set_other by exact Hk.
  apply obj_get_spread. exact Hnd.
Qed.

(** X27. The token-has-expired answer of the consume endpoint.  When the
    first candidate whose regenerated prefix is the token has an expiry
    that was ahead at the candidate query and has passed at the expiry
    check that follows the loop, the answer is the token-has-expired
    error, and no account, file or mail changes. *)
Theorem reset_token_expires_during_request `{Crypto} (req : Request) (env : Env)
  (w : World) (t : string) (i : nat) (u : User) (e : Z) :
  field "token" req = Some (JStr t) -> t <> "" ->
  truthy_opt (field "password" req) = true ->
  let candidates := List.filter (active_reset (clock env (ticks w))) (users w) in
  candidates !! i = Some u ->
  sample_prefix (clock env (S (ticks w) + i)%nat) u = Some t ->
  (forall j v, (j < i)%nat -> candidates !! j = Some v ->
     sample_prefix (clock env (S (ticks w) + j)%nat) v <> Some t) ->
  resetTokenExpires u = Some e ->
  e < clock env (S (S (ticks w) + i)) ->
  let served := serve (reset_password req) env w in
  clock env (ticks w) < e /\
  fst served = error_response 400 "Password reset token has expired." /\
  users (snd served) = users w /\
  disk (snd served) = disk w /\
  outbox (snd served) = outbox w.
Proof.
  intros Htok Hne Hpw candidates Hi Hs Hbefore He Hpassed served.
  pose proof (reset_password_try_target req env w t i u Htok Hne Hpw Hi Hs Hbefore) as Htry.
  destruct (candidates_lookup_in _ _ _ _ Hi) as [_ Hactive].
  apply active_reset_spec in Hactive as (h & e' & Hh & He' & Hahead).
  rewrite He in He'. injection He' as <-.
  split; [ exact Hahead | ].
  unfold served, serve, reset_password, try_catch. rewrite Htry.
  unfold consume_reset, reset_expired. rewrite Hh, He.
  destruct (String.eqb h ""); [ cbn; auto | ].
  unfold bind, now, ret. cbn [ticks set_ticks].
  apply Z.ltb_lt in Hpassed. rewrite Hpassed. cbn. auto.
Qed.

(* ===================================================================== *)
(** ** The theme preference                                                 *)
(* ===================================================================== *)

Lemma findIndex_r_same_id_none (user : json) (xs : list json) :
  prop "id" user = None -> user <> JNull ->
  Forall (fun u => prop "id" u <> None) xs ->
  findIndex_r (same_id user) xs = Ok None.
Proof.
  intros Hnone Huser.
  assert (Hmember : member "id" user = Ok None).
  { unfold member. rewrite Hnone. destruct user; congruence. }
  induction 1 as [ | u xs Hu _ IH ]; [ reflexivity | ].
  assert (Hu' : same_id user u = Ok false).
  { unfold same_id. rewrite Hmember.
    destruct u as [ | b | n | s | ys | ms ]; try (cbn in Hu; congruence).
    cbn [member prop rbind]. cbn [prop] in Hu.
    destruct (obj_get "id" ms) as [ v | ]; [ | congruence ].
    now destruct v. }
  cbn [findIndex_r]. rewrite Hu'. cbn [rbind]. now rewrite IH.
Qed.

(** X28. [PUT /api/user/theme] looks the user up by [req.user.id], and
    the tokens of the login carry the id as [userId].  Behind a token
    whose payload has no [id], with a theme given and a [users.json]
    whose records all have an id (or no such file), the answer is 404 and
    nothing is written. *)
Theorem put_theme_never_finds_user `{Crypto} `{Calendar} (req : Request) (env : Env)
  (w : World) (tok : string) (user : json) (xs : list json) :
  bearer_token req = Some tok -> tok <> "" ->
  jwt_verify tok JWT_SECRET (clock env (ticks w)) = Some user ->
  user <> JNull -> prop "id" user = None ->
  truthy_opt (field "theme" req) = true ->
  file_state (disk w) "users.json" = Parsed (JArr xs) \/
    (file_state (disk w) "users.json" = Missing /\ xs = []) ->
  Forall (fun u => prop "id" u <> None) xs ->
  let served := serve (authenticateToken_user put_theme req) env w in
  fst served = error_response 404 "User not found" /\
  disk (snd served) = disk w /\
  writes (snd served) = writes w.
Proof.
  intros Htok Hne Hverify Huser Hid Htheme Hfile Hall served.
  assert (Hload : as_array (or_else (loaded_value (file_state (disk w) "users.json"))
                              (JArr [])) = Ok xs).
  { destruct Hfile as [ -> | [ -> -> ] ]; reflexivity. }
  assert (Hserved : served =
    (error_response 404 "User not found", set_ticks (S (ticks w)) w));
    [ | now rewrite Hserved ].
  unfold served, serve, authenticateToken_user.
  change (match authorization req with
          | Some authHeader =>
              if String.eqb authHeader "" then None
              else nth_error (split_on " " authHeader) 1
          | None => None
          end) with (bearer_token req).
  rewrite Htok. apply String.eqb_neq in Hne. rewrite Hne.
  unfold bind at 1. unfold now at 1. rewrite Hverify.
  unfold put_theme, try_catch.
  destruct (field "theme" req) as [ theme | ]; [ | discriminate Htheme ].
  cbn [truthy_opt] in Htheme. rewrite Htheme. cbn [negb].
  unfold bind. rewrite loadData_spec. cbn [disk set_ticks lift]. rewrite Hload.
  now rewrite (findIndex_r_same_id_none user xs Hid Huser Hall).
Qed.

(* ===================================================================== *)
(** ** What the request endpoint gives away and leaves behind               *)
(* ===================================================================== *)

(** X29. The request endpoint tells whether an address is registered: for
    an address that is a non-empty string and makes a pattern, the answer
    is 404 exactly when the pattern matches the address of no account,
    and then nothing has changed. *)
Theorem reset_request_tells_registered `{Crypto} `{Regex} (req : Request) (env : Env)
  (w : World) (address : string) (matches : string -> bool) :
  field "email" req = Some (JStr address) -> address <> "" ->
  regex_i ("^" +:+ address +:+ "$") = Some matches ->
  let served := serve (request_password_reset req) env w in
  (status (fst served) = 404 <->
   forall u, In u (users w) -> matches (email u) = false) /\
  (status (fst served) = 404 -> snd served = w).
Proof.
  intros Hemail Hne Hre served. unfold served.
  rewrite (request_password_reset_spec req env w address matches Hemail Hne Hre).
  destruct (List.find (fun u => matches (email u)) (users w)) as [ user | ] eqn:Hfind.
  - assert (Hnot : forall r : Response * World,
              status (fst r) <> 404 ->
              (status (fst r) = 404 <->
               forall u, In u (users w) -> matches (email u) = false) /\
              (status (fst r) = 404 -> snd r = w)).
    { intros r Hr. split; [ split; [ contradiction | ] | contradiction ].
      intros Hall. apply find_some in Hfind as [Hin Hm].
      rewrite (Hall user Hin) in Hm. discriminate Hm. }
    apply Hnot.
    destruct (jwt_sign (reset_payload user) JWT_SECRET 3600 (clock env (ticks w)));
      cbv zeta; [ destruct (mail_ok env) | ]; cbn; discriminate.
  - cbn [fst snd status error_response json_response].
    split; [ | reflexivity ].
    split; [ intros _ | reflexivity ].
    apply (proj1 (find_none_iff _ _) Hfind).
Qed.

(** X30. The request endpoint stores before it mails: when the transport
    rejects the mail the answer is 500, and the account keeps the hash of
    a token nobody received and an expiry an hour ahead, in place of
    whatever reset it had pending. *)
Theorem reset_request_mail_failure_keeps_token `{Crypto} `{Regex} (req : Request)
  (env : Env) (w : World) (address : string) (matches : string -> bool) (user : User)
  (T : string) :
  field "email" req = Some (JStr address) -> address <> "" ->
  regex_i ("^" +:+ address +:+ "$") = Some matches ->
  List.find (fun u => matches (email u)) (users w) = Some user ->
  jwt_sign (reset_payload user) JWT_SECRET 3600 (clock env (ticks w)) = Some T ->
  mail_ok env = false ->
  let served := serve (request_password_reset req) env w in
  fst served = error_response 500 "Could not send password reset email." /\
  outbox (snd served) = outbox w /\
  forall v, In v (users (snd served)) -> _id v = _id user ->
    resetToken v = Some (bcrypt_hash (salt env) T) /\
    resetTokenExpires v = Some (clock env (S (ticks w)) + 3600000).
Proof.
  intros Hemail Hne Hre Hfind Hsign Hmail served. unfold served.
  rewrite (request_password_reset_spec req env w address matches Hemail Hne Hre).
  rewrite Hfind, Hsign. cbv zeta. rewrite Hmail. cbn [fst snd outbox users set_users set_ticks].
  split; [ reflexivity | split; [ reflexivity | ] ].
  intros v Hv Hid. unfold replace_user in Hv. apply in_map_iff in Hv as (x & Hx & _).
  cbn [with_reset _id] in Hx.
  destruct (String.eqb (_id x) (_id user)) eqn:E.
  - subst v. cbn. auto.
  - subst v. apply String.eqb_neq in E. contradiction.
Qed.

(* ===================================================================== *)
(** ** The properties at work on the sample installation                    *)
(* ===================================================================== *)

(** C5 on [projects.json] of the sample installation. *)
Lemma record_store_round_trip_witness :
  parse (stringify (JArr Sample.projects)) = Some (JArr Sample.projects) /\
  disk (Sample.world []) !! "projects.json" = Some (stringify (JArr Sample.projects)) /\
  loadData "projects.json" Sample.env (Sample.world [])
    = (Ok (JArr Sample.projects), Sample.world []) /\
  writes (snd (saveData "projects.json" (JArr Sample.projects) Sample.env (Sample.world [])))
    = ["projects.json"] /\
  disk (snd (saveData "projects.json" (JArr Sample.projects) Sample.env (Sample.world [])))
    = disk (Sample.world []).
Proof.
  assert (Hlaw : parse (stringify (JArr Sample.projects)) = Some (JArr Sample.projects))
    by (vm_compute; reflexivity).
  assert (H : disk (Sample.world []) !! "projects.json"
              = Some (stringify (JArr Sample.projects)))
    by (vm_compute; reflexivity).
  destruct (record_store_round_trip "projects.json" (JArr Sample.projects) Sample.env
              (Sample.world []) Hlaw H) as (H1 & _ & H3 & _ & H5 & _).
  split; [ exact Hlaw | split; [ exact H | split; [ exact H1 | split; [ exact H3 | exact H5 ] ] ] ].
Defined.

(** X3 on the sample installation: a new list of skills is saved and read
    back. *)
Lemma saved_value_loads_back_witness :
  let v := JObj [("skills", JArr [])] in
  let saved := saveData "skills.json" v Sample.env (Sample.world []) in
  parse (stringify v) = Some v /\
  write_ok Sample.env "skills.json" = true /\
  fst saved = Ok true /\
  loadData "skills.json" Sample.env (snd saved) = (Ok v, snd saved).
Proof.
  intros v saved.
  assert (Hlaw : parse (stringify v) = Some v) by (vm_compute; reflexivity).
  destruct (saved_value_loads_back "skills.json" v Sample.env (Sample.world []) Hlaw)
    as (_ & Hwritten & _).
  destruct (Hwritten eq_refl) as (Hanswer & _ & _ & Hload).
  split; [ exact Hlaw | split; [ reflexivity | split; [ exact Hanswer | exact Hload ] ] ].
Defined.

Lemma sample_authorized (id : string) (fields : list (string * json))
  (accounts : list User) :
  @authorized Reference.crypto (Sample.request id fields) Sample.env (Sample.world accounts).
Proof.
  exists ("Bearer " +:+ Sample.session_token), Sample.session_token.
  eexists.
  split; [ reflexivity | ].
  split; [ vm_compute; discriminate | ].
  split; [ vm_compute; reflexivity | ].
  split; [ vm_compute; discriminate | vm_compute; reflexivity ].
Defined.

(** C9 on the sample installation: deleting the message [404]. *)
Lemma delete_absent_id_not_found_witness :
  stored_collection MessagesC (disk (Sample.world [])) = Some Sample.messages /\
  absent "404" Sample.messages /\
  status (fst (serve (@route Reference.crypto UTC.calendar DELETE_message
                        (Sample.request "404" []))
                 Sample.env (Sample.world []))) = 404 /\
  disk (snd (serve (@route Reference.crypto UTC.calendar DELETE_message
                      (Sample.request "404" []))
               Sample.env (Sample.world []))) = disk (Sample.world []).
Proof.
  assert (Hs : stored_collection MessagesC (disk (Sample.world [])) = Some Sample.messages)
    by (vm_compute; reflexivity).
  assert (Ha : absent "404" Sample.messages).
  { unfold absent.
    repeat (apply List.Forall_cons;
            [ split; [ vm_compute; discriminate | vm_compute; reflexivity ] | ]).
    apply List.Forall_nil. }
  destruct (@delete_absent_id_not_found Reference.crypto UTC.calendar MessagesC
              (Sample.request "404" []) Sample.env (Sample.world []) Sample.messages
              (sample_authorized "404" [] []) Hs Ha) as (H1 & H2 & _).
  split; [ exact Hs | split; [ exact Ha | split; [ exact H1 | exact H2 ] ] ].
Defined.

(** C6 on the sample installation: a skill is added under the wrapper. *)
Lemma crud_keeps_shape_witness :
  file_shape (disk (Sample.world [])) (resource_file Skills)
    = Some (resource_shape Skills) /\
  file_shape
    (disk (snd (serve (@route Reference.crypto UTC.calendar POST_skills
                         (Sample.request "" [("name", JStr "Lean"); ("level", JNum 40)]))
                  Sample.env (Sample.world []))))
    (resource_file Skills) = Some (resource_shape Skills).
Proof.
  assert (H : file_shape (disk (Sample.world [])) (resource_file Skills)
              = Some (resource_shape Skills)) by (vm_compute; reflexivity).
  split; [ exact H | ].
  exact (@crud_keeps_shape Reference.crypto UTC.calendar POST_skills Skills
           (Sample.request "" [("name", JStr "Lean"); ("level", JNum 40)])
           Sample.env (Sample.world []) H).
Defined.

Example post_skill_sample :
  file_state
    (disk (snd (serve (@route Reference.crypto UTC.calendar POST_skills
                         (Sample.request "" [("name", JStr "Lean"); ("level", JNum 40)]))
                  Sample.env (Sample.world [])))) "skills.json" =
  Parsed (JObj [("skills",
    JArr (Sample.skills ++
          [JObj [("id", JStr "1700000000001"); ("name", JStr "Lean"); ("level", JNum 40);
                 ("createdAt", JStr "2023-11-14T22:13:20.002Z")]]))]).
Proof. vm_compute. reflexivity. Qed.

(** C7 on the sample installation: of three messages, the one that is
    read and 31 days old goes to the archive of 2023. *)
Lemma archive_old_messages_witness :
  file_state (disk (Sample.world [])) "messages.json" = Parsed (JArr Sample.messages) /\
  stored_archive (disk (Sample.world [])) "message-archive-2023.json" = Some [] /\
  @whole_days UTC.calendar /\
  file_state (disk (snd (@archiveMessages.archiveOldMessages UTC.calendar Sample.env
                           (Sample.world []))))
    "message-archive-2023.json" = Parsed (JArr [Sample.old_read]) /\
  file_state (disk (snd (@archiveMessages.archiveOldMessages UTC.calendar Sample.env
                           (Sample.world []))))
    "messages.json" = Parsed (JArr [Sample.recent_read; Sample.old_unread]).
Proof.
  assert (Hm : file_state (disk (Sample.world [])) "messages.json"
               = Parsed (JArr Sample.messages)) by (vm_compute; reflexivity).
  assert (Hr : Forall (fun m => m <> JNull) Sample.messages).
  { repeat (apply List.Forall_cons; [ vm_compute; discriminate | ]). apply List.Forall_nil. }
  assert (Ha : stored_archive (disk (Sample.world []))
                 (@archiveMessages.archive_name UTC.calendar (clock Sample.env 1)) = Some [])
    by (vm_compute; reflexivity).
  assert (Hd : @whole_days UTC.calendar) by (intros n t; reflexivity).
  destruct (@archive_old_messages UTC.calendar Sample.env (Sample.world [])
              Sample.messages [] Hm Hr Ha eq_refl eq_refl) as (_ & _ & Hex).
  destruct (Hex Hd Sample.old_read ltac:(vm_compute; tauto) ltac:(vm_compute; reflexivity))
    as (Hread & _).
  destruct (Hread eq_refl) as (_ & _ & Harchive & Hactive).
  split; [ exact Hm | ].
  split; [ vm_cast_no_check Ha | ].
  split; [ exact Hd | ].
  split; [ vm_cast_no_check Harchive | vm_cast_no_check Hactive ].
Defined.


Lemma sample_tokens_hashed (expires : Z) :
  tokens_hashed (users (Sample.world [Sample.admin_pending expires])).
Proof.
  intros u [ <- | [] ]. vm_compute. discriminate.
Defined.

(** C2 on the sample installation: the reset goes through and [admin] has
    the new password and no reset token. *)
Lemma reset_password_updates_target_witness :
  let w := Sample.world [Sample.admin_pending (Sample.start + 3600000)] in
  let served := serve (@reset_password Reference.crypto Sample.consume_request) Sample.env w in
  field "password" Sample.consume_request = Some (JStr "s3cret-pass") /\
  tokens_hashed (users w) /\
  resetTokenExpires (Sample.admin_pending (Sample.start + 3600000))
    = Some (Sample.start + 3600000) /\
  clock Sample.env 2 <= Sample.start + 3600000 /\
  fst served = message_response "Password has been reset successfully." /\
  users (snd served) =
    [after_reset (Reference.hash "N9qo8uLOickgx2ZMRZoMye" "s3cret-pass")
       (Sample.admin_pending (Sample.start + 3600000))].
Proof.
  intros w served.
  assert (Hne : Sample.short_token <> "") by (vm_compute; discriminate).
  assert (Hclock : clock Sample.env 2 <= Sample.start + 3600000) by (vm_compute; discriminate).
  destruct (@reset_password_updates_target Reference.crypto Sample.consume_request
              Sample.env w Sample.short_token "s3cret-pass" 0%nat
              (Sample.admin_pending (Sample.start + 3600000)) (Sample.start + 3600000)
              eq_refl Hne eq_refl ltac:(discriminate)
              (sample_tokens_hashed (Sample.start + 3600000))
              ltac:(vm_compute; reflexivity) ltac:(vm_compute; reflexivity)
              ltac:(intros j v Hj; lia) eq_refl Hclock) as (Hanswer & Husers & _).
  split; [ reflexivity | ].
  split; [ exact (sample_tokens_hashed (Sample.start + 3600000)) | ].
  split; [ reflexivity | ].
  split; [ exact Hclock | ].
  split; [ exact Hanswer | vm_cast_no_check Husers ].
Defined.

(** C3 as the claim has it fails: [admin]'s reset expired a millisecond
    before the request, the token is the prefix regenerated for [admin],
    and the answer is the invalid-or-expired error, not the
    token-has-expired one. *)
Lemma expired_token_counterexample :
  let expired := Sample.admin_pending (Sample.start - 1) in
  let w := Sample.world [expired] in
  let served := serve (@reset_password Reference.crypto Sample.consume_request) Sample.env w in
  In expired (users w) /\
  resetTokenExpires expired = Some (Sample.start - 1) /\
  Sample.start - 1 < clock Sample.env (ticks w) /\
  field "token" Sample.consume_request = Some (JStr Sample.short_token) /\
  @sample_prefix Reference.crypto (clock Sample.env 1) expired = Some Sample.short_token /\
  fst served = error_response 400 "Invalid or expired password reset token." /\
  fst served <> error_response 400 "Password reset token has expired.".
Proof.
  cbv zeta.
  split; [ now left | ].
  split; [ reflexivity | ].
  split; [ vm_compute; reflexivity | ].
  split; [ reflexivity | ].
  split; [ vm_compute; reflexivity | ].
  split; [ vm_compute; reflexivity | vm_compute; discriminate ].
Qed.

(** C3 as the code has it, on the same input. *)
Lemma expired_account_is_no_candidate_witness :
  let expired := Sample.admin_pending (Sample.start - 1) in
  let w := Sample.world [expired] in
  let served := serve (@reset_password Reference.crypto Sample.consume_request) Sample.env w in
  tokens_hashed (users w) /\
  In expired (users w) /\
  Sample.start - 1 <= clock Sample.env (ticks w) /\
  ~ In expired (List.filter (active_reset (clock Sample.env (ticks w))) (users w)) /\
  fst served = error_response 400 "Invalid or expired password reset token." /\
  users (snd served) = users w.
Proof.
  intros expired w served.
  assert (Hne : Sample.short_token <> "") by (vm_compute; discriminate).
  assert (Hin : In expired (users w)) by now left.
  assert (Hpassed : Sample.start - 1 <= clock Sample.env (ticks w))
    by (vm_compute; discriminate).
  destruct (@expired_account_is_no_candidate Reference.crypto Sample.consume_request
              Sample.env w Sample.short_token expired (Sample.start - 1)
              eq_refl Hne eq_refl (sample_tokens_hashed (Sample.start - 1))
              Hin eq_refl Hpassed) as (Hnot & Hnone & _).
  destruct Hnone as (Hanswer & Husers).
  { intros i v Hi. vm_compute in Hi. discriminate Hi. }
  split; [ exact (sample_tokens_hashed (Sample.start - 1)) | ].
  split; [ exact Hin | ].
  split; [ exact Hpassed | ].
  split; [ exact Hnot | ].
  split; [ exact Hanswer | exact Husers ].
Defined.

(** C8 on the sample installation: [admin] logs in with [admin123], the
    name given with a space on either side; the token is the signature of
    the account's id and name. *)
Lemma login_outcomes_witness :
  let req :=
    Sample.public_request [("username", JStr " admin "); ("password", JStr "admin123")] in
  field "username" req = Some (JStr " admin ") /\
  field "password" req = Some (JStr "admin123") /\
  trim " admin " = "admin" /\
  List.find (fun u => String.eqb "admin" (username u)) (users (Sample.world [Sample.admin]))
    = Some Sample.admin /\
  @bcrypt_compare Reference.crypto "admin123" (password Sample.admin) = true /\
  exists token,
    @jwt_sign Reference.crypto
      [("userId", JStr "65a1b2c3d4e5f60718293a4b"); ("username", JStr "admin")]
      JWT_SECRET 3600 (clock Sample.env 0) = Some token /\
    serve (@login Reference.crypto Reference.driver req) Sample.env
      (Sample.world [Sample.admin]) =
    (json_response 200 (JObj [("token", JStr token)]),
     set_ticks 1 (Sample.world [Sample.admin])).
Proof.
  intros req.
  assert (Hfind : List.find (fun u => String.eqb (trim " admin ") (username u))
                    (users (Sample.world [Sample.admin])) = Some Sample.admin)
    by reflexivity.
  assert (Hcmp : @bcrypt_compare Reference.crypto "admin123" (password Sample.admin) = true)
    by (vm_compute; reflexivity).
  destruct (@login_outcomes Reference.crypto Reference.driver req Sample.env
              (Sample.world [Sample.admin]) " admin " "admin123"
              eq_refl ltac:(discriminate) eq_refl ltac:(discriminate))
    as (_ & Hfound).
  destruct (Hfound Sample.admin Hfind) as (_ & _ & _ & Hok).
  split; [ reflexivity | split; [ reflexivity | split; [ reflexivity | ] ] ].
  split; [ exact Hfind | split; [ exact Hcmp | ] ].
  eexists. split; [ vm_compute; reflexivity | ].
  apply Hok; [ exact Hcmp | vm_compute; reflexivity ].
Defined.

(** C8 as the claim has it, by exact name: no account is named [" admin "],
    and the login under that name with the password of [admin] is not
    answered [username_not_found] but with a token for [admin]. *)
Lemma login_exact_name_counterexample :
  let req :=
    Sample.public_request [("username", JStr " admin "); ("password", JStr "admin123")] in
  let w := Sample.world [Sample.admin] in
  let served := serve (@login Reference.crypto Reference.driver req) Sample.env w in
  field "username" req = Some (JStr " admin ") /\
  (forall u, In u (users w) -> username u <> " admin ") /\
  fst served <> invalid_credentials "username_not_found" /\
  status (fst served) = 200 /\
  exists token,
    @jwt_sign Reference.crypto
      [("userId", JStr (_id Sample.admin)); ("username", JStr (username Sample.admin))]
      JWT_SECRET 3600 (clock Sample.env 0) = Some token /\
    fst served = json_response 200 (JObj [("token", JStr token)]).
Proof.
  cbv zeta.
  split; [ reflexivity | ].
  split; [ intros u [ <- | [] ]; discriminate | ].
  split; [ vm_compute; discriminate | ].
  split; [ vm_compute; reflexivity | ].
  eexists. split; vm_compute; reflexivity.
Qed.

(** C4 on the sample installation: asking a reset for [a@b.c.com], an
    address no account has, stores a token on [visitor], whose address is
    [a@bxc.com], and mails the link to [a@b.c.com]. *)
Lemma reset_request_pattern_selects_other_account_witness :
  let req := Sample.public_request [("email", JStr "a@b.c.com")] in
  let w := Sample.world [Sample.admin; Sample.visitor] in
  let served := serve (@request_password_reset Reference.crypto Reference.regex req)
                  Sample.env w in
  (forall u, In u (users w) -> same_email (email u) "a@b.c.com" = false) /\
  (exists matches,
     @regex_i Reference.regex "^a@b.c.com$" = Some matches /\
     List.find (fun u => matches (email u)) (users w) = Some Sample.visitor) /\
  status (fst served) = 200 /\
  (exists T,
     users (snd served) =
       [Sample.admin;
        with_reset (Reference.hash "N9qo8uLOickgx2ZMRZoMye" T) (Sample.start + 1 + 3600000)
          Sample.visitor] /\
     outbox (snd served) = [ResetMail "a@b.c.com" (shortResetUrl "3001" T)]).
Proof.
  intros req w served.
  assert (Hsign : exists T,
    @jwt_sign Reference.crypto (reset_payload Sample.visitor) JWT_SECRET 3600
      (clock Sample.env (ticks w)) = Some T) by (eexists; vm_compute; reflexivity).
  destruct Hsign as [T Hsign].
  destruct (@reset_request_pattern_selects_other_account Reference.crypto Reference.regex
              req Sample.env w "a@b.c.com" (Reference.match_body "a@b.c.com$")
              Sample.visitor T eq_refl ltac:(discriminate) eq_refl
              ltac:(vm_compute; reflexivity) ltac:(vm_compute; reflexivity) Hsign eq_refl)
    as (Hstatus & Husers & _ & Hmail).
  split.
  { intros u [ <- | [ <- | [] ] ]; vm_compute; reflexivity. }
  split.
  { exists (Reference.match_body "a@b.c.com$"). split; [ reflexivity | vm_compute; reflexivity ]. }
  split; [ exact Hstatus | ].
  exists T. split; [ vm_cast_no_check Husers | exact Hmail ].
Defined.

(** X1 on the sample installation, with the skills kept as a bare array. *)
Lemma delete_technology_rewrites_as_wrapper_witness :
  let w := set_disk (<["skills.json" := JSON_stringify (JArr Sample.skills)]> Sample.data)
             (Sample.world []) in
  let served := serve (@route Reference.crypto UTC.calendar DELETE_technology
                         (Sample.request "7" [])) Sample.env w in
  file_state (disk w) "skills.json" = Parsed (JArr Sample.skills) /\
  filter_r (id_is_not "7") Sample.skills = Ok [] /\
  file_shape (disk w) "skills.json" = Some BareArray /\
  file_shape (disk (snd served)) "skills.json" = Some SkillsWrapper.
Proof.
  intros w served.
  assert (Hauth : @authorized Reference.crypto (Sample.request "7" []) Sample.env w).
  { exists ("Bearer " +:+ Sample.session_token), Sample.session_token.
    eexists.
    split; [ reflexivity | ].
    split; [ vm_compute; discriminate | ].
    split; [ vm_compute; reflexivity | ].
    split; [ vm_compute; discriminate | vm_compute; reflexivity ]. }
  assert (Hfile : file_state (disk w) "skills.json" = Parsed (JArr Sample.skills))
    by (vm_compute; reflexivity).
  assert (Hkept : filter_r (id_is_not "7") Sample.skills = Ok [])
    by (vm_compute; reflexivity).
  destruct (@delete_technology_rewrites_as_wrapper Reference.crypto UTC.calendar
              (Sample.request "7" []) Sample.env w Sample.skills [] Hauth Hfile Hkept
              ltac:(discriminate) eq_refl) as (_ & _ & Hbefore & Hafter).
  split; [ exact Hfile | split; [ exact Hkept | split; [ exact Hbefore | exact Hafter ] ] ].
Defined.

(** X2 on the sample installation: adding a technology. *)
Lemma technology_routes_fail_on_wrapper_witness :
  let served := serve (@route Reference.crypto UTC.calendar POST_technologies
                         (Sample.request "" [("name", JStr "Lean")]))
                  Sample.env (Sample.world []) in
  file_state (disk (Sample.world [])) "skills.json"
    = Parsed (JObj [("skills", JArr Sample.skills)]) /\
  status (fst served) = 500 /\
  disk (snd served) = disk (Sample.world []).
Proof.
  intros served.
  assert (Hfile : file_state (disk (Sample.world [])) "skills.json"
                  = Parsed (JObj [("skills", JArr Sample.skills)]))
    by (vm_compute; reflexivity).
  destruct (@technology_routes_fail_on_wrapper Reference.crypto UTC.calendar
              POST_technologies (Sample.request "" [("name", JStr "Lean")])
              Sample.env (Sample.world []) _ (sample_authorized "" _ []) Hfile eq_refl
              ltac:(now left)) as (Hstatus & Hdisk & _).
  split; [ exact Hfile | split; [ exact Hstatus | exact Hdisk ] ].
Defined.

(** X4 on the sample installation: a DELETE without a token. *)
Lemma protected_routes_need_token_witness :
  protected DELETE_project = true /\
  bearer_token (Sample.public_request []) = None /\
  fst (serve (@route Reference.crypto UTC.calendar DELETE_project (Sample.public_request []))
         Sample.env (Sample.world []))
    = error_response 401 "Authentication required" /\
  disk (snd (serve (@route Reference.crypto UTC.calendar DELETE_project
                      (Sample.public_request [])) Sample.env (Sample.world [])))
    = disk (Sample.world []).
Proof.
  destruct (@protected_routes_need_token Reference.crypto UTC.calendar DELETE_project
              (Sample.public_request []) Sample.env (Sample.world []) eq_refl)
    as (Hanswer & Hdisk & _).
  { intros tok Htok. discriminate Htok. }
  split; [ reflexivity | split; [ reflexivity | split; [ exact Hanswer | exact Hdisk ] ] ].
Defined.

Lemma sample_messages_stored :
  stored_collection MessagesC (disk (Sample.world [])) = Some Sample.messages.
Proof. vm_compute. reflexivity. Defined.

Lemma sample_messages_file :
  file_state (disk (Sample.world [])) "messages.json" = Parsed (JArr Sample.messages).
Proof. vm_compute. reflexivity. Defined.

Lemma sample_messages_records : Forall (fun m => m <> JNull) Sample.messages.
Proof.
  repeat (apply List.Forall_cons; [ vm_compute; discriminate | ]). apply List.Forall_nil.
Defined.

(** X5 on the sample installation: a visitor posts a message that claims
    to be read. *)
Lemma post_message_stores_unread_first_witness :
  let req := Sample.public_request [("name", JStr "Bob"); ("read", JBool true)] in
  let served := serve (@post_message UTC.calendar req) Sample.env (Sample.world []) in
  stored_collection MessagesC (disk (Sample.world [])) = Some Sample.messages /\
  List.NoDup (map fst (req_body req)) /\
  forallb (fun k => has_text (field k req)) mail_fields = true /\
  exists newMessage,
    fst served = json_response 201 (JObj newMessage) /\
    file_state (disk (snd served)) "messages.json"
      = Parsed (JArr (JObj newMessage :: Sample.messages)) /\
    obj_get "read" newMessage = Some (JBool false) /\
    obj_get "name" newMessage = Some (JStr "Bob").
Proof.
  intros req served.
  assert (Hnd : List.NoDup (map fst (req_body req))).
  { repeat (apply List.NoDup_cons; [ cbn; intuition discriminate | ]). apply List.NoDup_nil. }
  destruct (@post_message_stores_unread_first UTC.calendar req Sample.env (Sample.world [])
              Sample.messages sample_messages_stored Hnd eq_refl eq_refl eq_refl)
    as (newMessage & Hanswer & Hfile & _ & Hread & _ & _ & Hother).
  split; [ exact sample_messages_stored | split; [ exact Hnd | split; [ reflexivity | ] ] ].
  exists newMessage.
  split; [ exact Hanswer | split; [ exact Hfile | split; [ exact Hread | ] ] ].
  apply (Hother "name"); discriminate.
Defined.

(** X6 on the sample installation: with the mail transport down; and with
    the transport at work for a body whose name is an object that has a
    [toString] property. *)
Lemma post_message_saved_before_mail_witness :
  let req := Sample.public_request [("name", JStr "Bob")] in
  let served := serve (@post_message UTC.calendar req) Outage.no_mail (Sample.world []) in
  let req' := Sample.public_request [("name", JObj [("toString", JNum 1)])] in
  let served' := serve (@post_message UTC.calendar req') Sample.env (Sample.world []) in
  stored_collection MessagesC (disk (Sample.world [])) = Some Sample.messages /\
  mail_ok Outage.no_mail = false /\
  fst served = error_response 500 "Failed to create message" /\
  (exists newMessage,
     file_state (disk (snd served)) "messages.json"
       = Parsed (JArr (JObj newMessage :: Sample.messages))) /\
  mail_ok Sample.env = true /\
  has_text (field "name" req') = false /\
  fst served' = error_response 500 "Failed to create message" /\
  outbox (snd served') = [] /\
  exists newMessage,
    file_state (disk (snd served')) "messages.json"
      = Parsed (JArr (JObj newMessage :: Sample.messages)).
Proof.
  intros req served req' served'.
  destruct (@post_message_saved_before_mail UTC.calendar req Outage.no_mail (Sample.world [])
              Sample.messages sample_messages_stored eq_refl (or_introl eq_refl))
    as (Hanswer & _ & Hfile & _).
  assert (Hnd : List.NoDup (map fst (req_body req'))).
  { repeat (apply List.NoDup_cons; [ cbn; intuition discriminate | ]). apply List.NoDup_nil. }
  destruct (@post_message_saved_before_mail UTC.calendar req' Sample.env (Sample.world [])
              Sample.messages sample_messages_stored eq_refl
              (or_intror (conj Hnd eq_refl)))
    as (Hanswer' & Hout' & Hfile' & _).
  split; [ exact sample_messages_stored | split; [ reflexivity | ] ].
  split; [ exact Hanswer | split; [ exact Hfile | ] ].
  split; [ reflexivity | split; [ reflexivity | ] ].
  split; [ exact Hanswer' | split; [ exact Hout' | exact Hfile' ] ].
Defined.

(** X7 on the sample installation with a data directory that cannot be
    written. *)
Lemma post_message_hides_failed_write_witness :
  let req := Sample.public_request [("name", JStr "Bob")] in
  let served := serve (@post_message UTC.calendar req) Outage.read_only (Sample.world []) in
  stored_collection MessagesC (disk (Sample.world [])) = Some Sample.messages /\
  forallb (fun k => has_text (field k req)) mail_fields = true /\
  write_ok Outage.read_only "messages.json" = false /\
  status (fst served) = 201 /\
  disk (snd served) = disk (Sample.world []).
Proof.
  intros req served.
  assert (Hnd : List.NoDup (map fst (req_body req))).
  { repeat (apply List.NoDup_cons; [ cbn; intuition discriminate | ]). apply List.NoDup_nil. }
  destruct (@post_message_hides_failed_write UTC.calendar req Outage.read_only
              (Sample.world []) Sample.messages sample_messages_stored Hnd eq_refl eq_refl
              eq_refl)
    as (Hstatus & Hdisk & _).
  split; [ exact sample_messages_stored | split; [ reflexivity | split; [ reflexivity | ] ] ].
  split; [ exact Hstatus | exact Hdisk ].
Defined.

(** X8 on the sample installation: the one unread message is marked. *)
Lemma put_message_read_marks_one_witness :
  let req := Sample.request "1697321600001" [] in
  let served := serve (@put_message_read UTC.calendar req) Sample.env (Sample.world []) in
  file_state (disk (Sample.world [])) "messages.json" = Parsed (JArr Sample.messages) /\
  Sample.messages !! 2%nat = Some Sample.old_unread /\
  holds_id "1697321600001" Sample.old_unread = true /\
  is_unread Sample.old_unread = true /\
  fst (serve (get_unread_count req) Sample.env (Sample.world []))
    = json_response 200 (JObj [("count", JNum 1)]) /\
  fst (serve (get_unread_count req) Sample.env (snd served))
    = json_response 200 (JObj [("count", JNum 0)]).
Proof.
  intros req served.
  destruct (@put_message_read_marks_one UTC.calendar req req Sample.env (Sample.world [])
              Sample.messages 2%nat Sample.old_unread sample_messages_file
              sample_messages_records eq_refl eq_refl)
    as (marked & _ & _ & _ & _ & _ & Hcount).
  { intros [ | [ | j ] ] p Hj Hp; [ | | lia ];
      cbn in Hp; injection Hp as <-; vm_compute; reflexivity. }
  { reflexivity. }
  split; [ exact sample_messages_file | ].
  split; [ reflexivity | split; [ reflexivity | split; [ reflexivity | ] ] ].
  split; [ vm_compute; reflexivity | exact Hcount ].
Defined.

(** X9 on the sample installation. *)
Lemma get_messages_newest_first_witness :
  file_state (disk (Sample.world [])) "messages.json" = Parsed (JArr Sample.messages) /\
  Forall (@dated UTC.calendar) Sample.messages /\
  exists sorted,
    serve (@get_messages UTC.calendar (Sample.request "" [])) Sample.env (Sample.world [])
      = (json_response 200 (JArr sorted), Sample.world []) /\
    Permutation sorted Sample.messages /\
    @newest_first UTC.calendar sorted.
Proof.
  assert (Hdated : Forall (@dated UTC.calendar) Sample.messages).
  { repeat (apply List.Forall_cons;
            [ split; [ discriminate | vm_compute; discriminate ] | ]).
    apply List.Forall_nil. }
  split; [ exact sample_messages_file | split; [ exact Hdated | ] ].
  exact (@get_messages_newest_first UTC.calendar (Sample.request "" []) Sample.env
           (Sample.world []) Sample.messages sample_messages_file Hdated).
Defined.

(** X10 on the sample installation: the project [1] is deleted. *)
Lemma delete_removes_records_with_id_witness :
  let req := Sample.request "1" [] in
  let served := serve (@route Reference.crypto UTC.calendar DELETE_project req)
                  Sample.env (Sample.world []) in
  stored_collection ProjectsC (disk (Sample.world [])) = Some Sample.projects /\
  Exists (fun p => holds_id "1" p = true) Sample.projects /\
  status (fst served) = 200 /\
  stored_collection ProjectsC (disk (snd served)) = Some [Sample.project "2" "Parser"].
Proof.
  intros req served.
  assert (Hstored : stored_collection ProjectsC (disk (Sample.world []))
                    = Some Sample.projects) by (vm_compute; reflexivity).
  assert (Hex : Exists (fun p => holds_id "1" p = true) Sample.projects).
  { apply List.Exists_cons_hd. reflexivity. }
  assert (Hrec : Forall (fun p => p <> JNull) Sample.projects).
  { repeat (apply List.Forall_cons; [ discriminate | ]). apply List.Forall_nil. }
  destruct (@delete_removes_records_with_id Reference.crypto UTC.calendar ProjectsC req
              Sample.env (Sample.world []) Sample.projects ltac:(now left)
              (sample_authorized "1" [] []) Hstored Hrec Hex eq_refl)
    as (Hstatus & Hkept & _).
  split; [ exact Hstored | split; [ exact Hex | split; [ exact Hstatus | ] ] ].
  vm_cast_no_check Hkept.
Defined.

Lemma sample_archive_missing (env : Env) :
  clock env = clock Sample.env ->
  stored_archive (disk (Sample.world []))
    (@archiveMessages.archive_name UTC.calendar (clock env 1)) = Some [].
Proof. intros ->. vm_compute. reflexivity. Defined.

(** X11 on the sample installation. *)
Lemma archive_keeps_every_message_witness :
  let w' := snd (@archiveMessages.archiveOldMessages UTC.calendar Sample.env
                   (Sample.world [])) in
  file_state (disk (Sample.world [])) "messages.json" = Parsed (JArr Sample.messages) /\
  exists archived active,
    stored_archive (disk w') "message-archive-2023.json" = Some archived /\
    file_state (disk w') "messages.json" = Parsed (JArr active) /\
    Permutation (archived ++ active) ([] ++ Sample.messages).
Proof.
  intros w'.
  split; [ exact sample_messages_file | ].
  exact (@archive_keeps_every_message UTC.calendar Sample.env (Sample.world [])
           Sample.messages [] sample_messages_file sample_messages_records
           (sample_archive_missing Sample.env eq_refl) eq_refl eq_refl).
Defined.

(** X12 on the sample installation when only the active file can be
    written: the read message of 31 days ago is gone. *)
Lemma archive_failed_write_loses_old_witness :
  let w' := snd (@archiveMessages.archiveOldMessages UTC.calendar Outage.no_archive
                   (Sample.world [])) in
  write_ok Outage.no_archive "message-archive-2023.json" = false /\
  write_ok Outage.no_archive "messages.json" = true /\
  In Sample.old_read Sample.messages /\
  disk w' !! "message-archive-2023.json" = None /\
  exists active,
    file_state (disk w') "messages.json" = Parsed (JArr active) /\
    ~ In Sample.old_read active.
Proof.
  intros w'.
  assert (Hin : In Sample.old_read Sample.messages) by (right; left; reflexivity).
  destruct (@archive_failed_write_loses_old UTC.calendar Outage.no_archive (Sample.world [])
              Sample.messages [] sample_messages_file sample_messages_records
              (sample_archive_missing Outage.no_archive eq_refl) eq_refl eq_refl
              Sample.old_read Hin ltac:(vm_compute; reflexivity))
    as (Hdisk & _ & active & Hfile & Hgone & _).
  split; [ reflexivity | split; [ reflexivity | split; [ exact Hin | ] ] ].
  split; [ vm_cast_no_check Hdisk | ].
  exists active. split; [ exact Hfile | exact Hgone ].
Defined.

(** X14 on the sample installation: the stored hash is replaced by
    [forged] and the reset goes through as before. *)
Lemma reset_password_never_reads_hash_witness :
  let forge := fun h : string => if String.eqb h "" then "" else "forged" in
  let w := Sample.world [Sample.admin_pending (Sample.start + 3600000)] in
  let w' := set_users (map (rehash forge) (users w)) w in
  (forall h, String.eqb (forge h) "" = String.eqb h "") /\
  resetToken (rehash forge (Sample.admin_pending (Sample.start + 3600000))) = Some "forged" /\
  fst (serve (@reset_password Reference.crypto Sample.consume_request) Sample.env w')
    = message_response "Password has been reset successfully.".
Proof.
  intros forge w w'.
  assert (Hf : forall h, String.eqb (forge h) "" = String.eqb h "").
  { intros h. unfold forge. destruct (String.eqb h "") eqn:E; [ reflexivity | reflexivity ]. }
  destruct (@reset_password_never_reads_hash Reference.crypto forge Sample.consume_request
              Sample.env w Hf) as (Hanswer & _).
  split; [ exact Hf | split; [ vm_compute; reflexivity | ] ].
  etransitivity; [ exact Hanswer | vm_compute; reflexivity ].
Defined.

(** X15 on the sample installation: [admin] asks for a reset and uses the
    link. *)
Lemma reset_flow_completes_witness :
  let req1 := Sample.public_request [("email", JStr "admin@example.com")] in
  let w := Sample.world [Sample.admin] in
  let w1 := snd (serve (@request_password_reset Reference.crypto Reference.regex req1)
                   Sample.env w) in
  let served := serve (@reset_password Reference.crypto Sample.consume_request)
                  Sample.env w1 in
  @jwt_sign Reference.crypto (reset_payload Sample.admin) JWT_SECRET 3600
    (clock Sample.env (ticks w)) = Some Sample.reset_token /\
  @sample_prefix Reference.crypto (clock Sample.env (S (ticks w1))) Sample.admin
    = Some Sample.short_token /\
  outbox w1 = [ResetMail "admin@example.com" (shortResetUrl "3001" Sample.reset_token)] /\
  fst served = message_response "Password has been reset successfully." /\
  forall v, In v (users (snd served)) -> _id v = _id Sample.admin ->
    password v = Reference.hash "N9qo8uLOickgx2ZMRZoMye" "s3cret-pass" /\
    resetToken v = None /\ resetTokenExpires v = None.
Proof.
  intros req1 w w1 served.
  assert (Hsign : @jwt_sign Reference.crypto (reset_payload Sample.admin) JWT_SECRET 3600
                    (clock Sample.env (ticks w)) = Some Sample.reset_token)
    by (vm_compute; reflexivity).
  assert (Hprefix : @sample_prefix Reference.crypto (clock Sample.env (S (ticks w1)))
                      Sample.admin = Some Sample.short_token)
    by (vm_compute; reflexivity).
  destruct (@reset_flow_completes Reference.crypto Reference.regex req1
              Sample.consume_request Sample.env w "admin@example.com"
              (Reference.match_body "admin@example.com$") Sample.admin
              Sample.reset_token "s3cret-pass"
              eq_refl ltac:(discriminate) eq_refl ltac:(vm_compute; reflexivity) Hsign
              eq_refl ltac:(vm_compute; discriminate)
              ltac:(intros v [ <- | [] ] Hv; congruence)
              eq_refl ltac:(vm_compute; discriminate) eq_refl ltac:(discriminate)
              Hprefix ltac:(vm_compute; reflexivity) ltac:(vm_compute; discriminate))
    as (Hmail & Hanswer & Hdone).
  split; [ exact Hsign | split; [ exact Hprefix | ] ].
  split; [ exact Hmail | split; [ exact Hanswer | exact Hdone ] ].
Defined.

(** X16 on the reference host: a fresh installation. *)
Lemma default_account_logs_in_witness :
  let req := Sample.public_request
               [("username", JStr "admin"); ("password", JStr "admin123")] in
  let w1 := snd (@initializeDefaultUser Reference.crypto "65a1b2c3d4e5f60718293a4b"
                   Sample.env (Sample.world [])) in
  @bcrypt_compare Reference.crypto "admin123"
    (@bcrypt_hash Reference.crypto (salt Sample.env) "admin123") = true /\
  length (users w1) = 1%nat /\
  status (fst (serve (@login Reference.crypto Reference.driver req) Sample.env w1)) = 200.
Proof.
  intros req w1.
  assert (Hcmp : @bcrypt_compare Reference.crypto "admin123"
                   (@bcrypt_hash Reference.crypto (salt Sample.env) "admin123") = true)
    by (vm_compute; reflexivity).
  assert (Hsign : exists token,
    @jwt_sign Reference.crypto
      (session_payload
         {| _id := "65a1b2c3d4e5f60718293a4b"; username := "admin";
            password := @bcrypt_hash Reference.crypto (salt Sample.env) "admin123";
            email := "admin@example.com"; resetToken := None; resetTokenExpires := None |})
      JWT_SECRET 3600 (clock Sample.env (ticks (Sample.world []))) = Some token)
    by (eexists; vm_compute; reflexivity).
  destruct Hsign as [token Hsign].
  destruct (@default_account_logs_in Reference.crypto Reference.driver
              "65a1b2c3d4e5f60718293a4b" req Sample.env (Sample.world []) token
              eq_refl eq_refl Hcmp Hsign) as (_ & Hfresh).
  destruct (Hfresh eq_refl) as (Husers & Hlogin).
  split; [ exact Hcmp | split ].
  - unfold w1. now rewrite Husers.
  - unfold w1. now rewrite Hlogin.
Defined.

(** X17 on the sample installation, which has no [stats.json]: the first
    visitor, in November. *)
Lemma post_visitor_counts_witness :
  let served := serve (@post_visitor UTC.calendar (Sample.public_request []))
                  Sample.env (Sample.world []) in
  stored_stats (disk (Sample.world [])) = Some default_stats /\
  @getMonth UTC.calendar (clock Sample.env 0) = 10 /\
  safe_integer 0 /\
  fst served = success_response /\
  exists ms',
    file_state (disk (snd served)) "stats.json" = Parsed (JObj ms') /\
    obj_get "visitors" ms' = Some (JNum 1) /\
    obj_get "monthlyVisitors" ms' =
      Some (JArr (repeat (JNum 0) 10 ++ [JNum 1; JNum 0])).
Proof.
  intros served.
  destruct (@post_visitor_counts UTC.calendar (Sample.public_request []) Sample.env
              (Sample.world []) _ (repeat (JNum 0) 12) 0 0
              eq_refl eq_refl ltac:(split; reflexivity) eq_refl
              ltac:(vm_compute; discriminate)
              ltac:(vm_compute; reflexivity) ltac:(split; reflexivity) eq_refl)
    as (Hanswer & ms' & Hfile & Hvisitors & Hmonths & _).
  split; [ reflexivity | split; [ vm_compute; reflexivity | ] ].
  split; [ split; reflexivity | split; [ exact Hanswer | ] ].
  exists ms'. split; [ exact Hfile | split; [ exact Hvisitors | ] ].
  vm_cast_no_check Hmonths.
Defined.

(** X18 on the sample installation: the first CV download. *)
Lemma increment_then_count_witness :
  let run := incrementCounter cvDownloads Sample.env (Sample.world []) in
  fst (getCVDownloadCount Sample.env (Sample.world [])) = Ok (JNum 0) /\
  fst run = Ok tt /\
  fst (getCVDownloadCount Sample.env (snd run)) = Ok (JNum 1) /\
  fst (getCVViewCount Sample.env (snd run)) = Ok (JNum 0).
Proof.
  intros run.
  assert (H0 : fst (stored_count (counter_name cvDownloads) Sample.env (Sample.world []))
               = Ok (JNum 0)) by (vm_compute; reflexivity).
  destruct (increment_then_count cvDownloads Sample.env (Sample.world []) [] 0
              ltac:(vm_compute; reflexivity) H0 ltac:(split; reflexivity) eq_refl)
    as (Hrun & Hcount & Hothers).
  split; [ exact H0 | split; [ exact Hrun | split; [ exact Hcount | ] ] ].
  etransitivity; [ exact (Hothers "cvViews" ltac:(discriminate)) | vm_compute; reflexivity ].
Defined.

(** X19 on the sample installation. *)
Lemma cv_view_first_breaks_visitors_witness :
  let first := serve (post_cv_view (Sample.public_request [])) Sample.env (Sample.world []) in
  let second := serve (@post_visitor UTC.calendar (Sample.public_request []))
                  Sample.env (snd first) in
  disk (Sample.world []) !! "stats.json" = None /\
  fst first = success_response /\
  fst second = error_response 500 "Failed to record visitor".
Proof.
  intros first second.
  destruct (@cv_view_first_breaks_visitors UTC.calendar (Sample.public_request [])
              (Sample.public_request []) Sample.env (Sample.world [])
              ltac:(vm_compute; reflexivity) eq_refl) as (Hfirst & _ & Hsecond & _).
  split; [ vm_compute; reflexivity | split; [ exact Hfirst | exact Hsecond ] ].
Defined.

(** X20 on the sample installation: three messages. *)
Lemma get_stats_counts_messages_witness :
  let served := serve (get_stats (Sample.request "" [])) Sample.env (Sample.world []) in
  stored_stats (disk (Sample.world [])) = Some default_stats /\
  stored_collection MessagesC (disk (Sample.world [])) = Some Sample.messages /\
  prop "messageCount" (body (fst served)) = Some (JNum 3) /\
  file_state (disk (snd served)) "stats.json" = Parsed (body (fst served)).
Proof.
  intros served.
  destruct (get_stats_counts_messages (Sample.request "" []) Sample.env (Sample.world [])
              _ Sample.messages eq_refl sample_messages_stored eq_refl)
    as (Hanswer & Hfile & _).
  split; [ reflexivity | split; [ exact sample_messages_stored | ] ].
  unfold served. rewrite Hanswer. cbn [fst body json_response].
  split; [ reflexivity | exact Hfile ].
Defined.

(** X22 on the sample installation. *)
Lemma put_personal_info_then_get_witness :
  let info := [("name", JStr "Ada"); ("profession", JStr "Engineer");
               ("experience", JStr "10 years"); ("education", JStr "Mathematics")] in
  let req := {| authorization := Some "Bearer admin"; params_id := "";
                req_body := info; req_file := None |} in
  let served := serve (put_personal_info req) Sample.env (Sample.world []) in
  missing_field req = None /\
  status (fst served) = 200 /\
  fst (serve (get_personal_info (Sample.public_request [])) Sample.env (snd served))
    = json_response 200 (JObj info).
Proof.
  intros info req served.
  destruct (put_personal_info_then_get req (Sample.public_request []) Sample.env
              (Sample.world []) eq_refl eq_refl eq_refl) as (Hstatus & _ & _ & Hget).
  split; [ reflexivity | split; [ exact Hstatus | exact Hget ] ].
Defined.

(** X23 on the sample installation: a session token of the dashboard is
    not the header this route asks for. *)
Lemma put_personal_info_rejected_witness :
  let req := Sample.request "" [("name", JStr "Ada")] in
  let served := serve (put_personal_info req) Sample.env (Sample.world []) in
  authorization req <> Some "Bearer admin" /\
  snd served = Sample.world [] /\
  fst served = error_response 401 "Unauthorized".
Proof.
  intros req served.
  assert (Hauth : authorization req <> Some "Bearer admin")
    by (vm_compute; discriminate).
  destruct (put_personal_info_rejected req Sample.env (Sample.world [])) as (Hanswer & _).
  specialize (Hanswer Hauth). fold served in Hanswer.
  split; [ exact Hauth | ]. now rewrite Hanswer.
Defined.

(** X24 on the sample installation. *)
Lemma post_project_then_get_witness :
  let req := Sample.request "" [("title", JStr "Checker"); ("technologies", JStr "Rocq, OCaml")] in
  let req' := Sample.request "1700000000000" [] in
  let served := serve (@post_project UTC.calendar req) Sample.env (Sample.world []) in
  stored_collection ProjectsC (disk (Sample.world [])) = Some Sample.projects /\
  absent "1700000000000" Sample.projects /\
  technologies_list (field "technologies" req) = Ok (JArr [JStr "Rocq"; JStr "OCaml"]) /\
  exists newProject,
    fst served = json_response 201 newProject /\
    prop "technologies" newProject = Some (JArr [JStr "Rocq"; JStr "OCaml"]) /\
    fst (serve (get_project req') Sample.env (snd served)) = json_response 200 newProject.
Proof.
  intros req req' served.
  assert (Hstored : stored_collection ProjectsC (disk (Sample.world []))
                    = Some Sample.projects) by (vm_compute; reflexivity).
  assert (Habs : absent "1700000000000" Sample.projects).
  { unfold absent.
    repeat (apply List.Forall_cons; [ split; [ discriminate | vm_compute; reflexivity ] | ]).
    apply List.Forall_nil. }
  assert (Htech : technologies_list (field "technologies" req)
                  = Ok (JArr [JStr "Rocq"; JStr "OCaml"])) by (vm_compute; reflexivity).
  destruct (@post_project_then_get UTC.calendar req req' Sample.env (Sample.world [])
              Sample.projects (JArr [JStr "Rocq"; JStr "OCaml"]) Hstored
              ltac:(vm_cast_no_check Habs) Htech eq_refl ltac:(vm_compute; reflexivity))
    as (newProject & Hanswer & _ & Htechs & _ & Hget).
  split; [ exact Hstored | split; [ exact Habs | split; [ exact Htech | ] ] ].
  exists newProject. split; [ exact Hanswer | split; [ exact Htechs | exact Hget ] ].
Defined.

(** X25 on a host where the old image cannot be removed. *)
Lemma put_project_fails_on_old_image_witness :
  let served := serve (@put_project UTC.calendar Trial.new_image) Trial.no_assets
                  Trial.gallery in
  file_state (disk Trial.gallery) "projects.json" = Parsed (JArr [Trial.pictured]) /\
  asset_removed Trial.no_assets "/assets/images/old.png" = false /\
  fst served = error_response 500 "oldFilePath is not defined" /\
  disk (snd served) = disk Trial.gallery.
Proof.
  intros served.
  assert (Hfile : file_state (disk Trial.gallery) "projects.json"
                  = Parsed (JArr [Trial.pictured])) by (vm_compute; reflexivity).
  destruct (@put_project_fails_on_old_image UTC.calendar Trial.new_image Trial.no_assets
              Trial.gallery [Trial.pictured] 0%nat _ "Portfolio" "My site" "Rocq, OCaml"
              "1700000000000-new.png" "/assets/images/old.png"
              Hfile ltac:(repeat constructor; discriminate) eq_refl eq_refl
              ltac:(intros j p Hj; lia)
              eq_refl ltac:(vm_compute; discriminate)
              eq_refl ltac:(vm_compute; discriminate)
              eq_refl ltac:(vm_compute; discriminate)
              eq_refl eq_refl ltac:(discriminate) ltac:(vm_compute; discriminate) eq_refl)
    as (Hanswer & Hdisk & _).
  split; [ exact Hfile | split; [ reflexivity | split; [ exact Hanswer | exact Hdisk ] ] ].
Defined.

(** X26 on the sample installation: the level of the skill [7] is
    raised. *)
Lemma put_skill_merges_witness :
  let req := Sample.request "7" [("level", JNum 95)] in
  let served := serve (@put_skill UTC.calendar req) Sample.env (Sample.world []) in
  file_state (disk (Sample.world [])) "skills.json"
    = Parsed (JObj [("skills", JArr Sample.skills)]) /\
  exists updated,
    fst served = json_response 200 (JObj updated) /\
    obj_get "level" updated = Some (JNum 95) /\
    obj_get "name" updated = Some (JStr "Rocq").
Proof.
  intros req served.
  assert (Hfile : file_state (disk (Sample.world [])) "skills.json"
                  = Parsed (JObj [("skills", JArr Sample.skills)]))
    by (vm_compute; reflexivity).
  destruct (@put_skill_merges UTC.calendar req Sample.env (Sample.world [])
              _ Sample.skills 0%nat _ Hfile eq_refl
              ltac:(repeat constructor; discriminate) eq_refl eq_refl
              ltac:(intros j p Hj; lia)
              ltac:(repeat (apply List.NoDup_cons; [ cbn; intuition discriminate | ]);
                    apply List.NoDup_nil)
              eq_refl)
    as (updated & Hanswer & _ & _ & Hmerge).
  split; [ exact Hfile | ].
  exists updated. split; [ exact Hanswer | split ].
  - exact (Hmerge "level" ltac:(discriminate)).
  - exact (Hmerge "name" ltac:(discriminate)).
Defined.

(** X27 on a host that stalls between the candidate loop and the expiry
    check, for a reset that had one second left. *)
Lemma reset_token_expires_during_request_witness :
  let pending := Sample.admin_pending (Sample.start + 1000) in
  let w := Sample.world [pending] in
  let served := serve (@reset_password Reference.crypto Sample.consume_request)
                  Trial.stalled w in
  @sample_prefix Reference.crypto (clock Trial.stalled 1) pending = Some Sample.short_token /\
  Sample.start + 1000 < clock Trial.stalled 2 /\
  clock Trial.stalled 0 < Sample.start + 1000 /\
  fst served = error_response 400 "Password reset token has expired." /\
  users (snd served) = users w.
Proof.
  intros pending w served.
  assert (Hprefix : @sample_prefix Reference.crypto (clock Trial.stalled 1) pending
                    = Some Sample.short_token) by (vm_compute; reflexivity).
  assert (Hpassed : Sample.start + 1000 < clock Trial.stalled 2)
    by (vm_compute; reflexivity).
  destruct (@reset_token_expires_during_request Reference.crypto Sample.consume_request
              Trial.stalled w Sample.short_token 0%nat pending (Sample.start + 1000)
              eq_refl ltac:(vm_compute; discriminate) eq_refl
              ltac:(vm_compute; reflexivity) Hprefix ltac:(intros j v Hj; lia)
              eq_refl Hpassed)
    as (Hahead & Hanswer & Husers & _).
  split; [ exact Hprefix | split; [ exact Hpassed | split; [ exact Hahead | ] ] ].
  split; [ exact Hanswer | exact Husers ].
Defined.

(** X28 on the sample installation: [admin], logged in, sets a theme. *)
Lemma put_theme_never_finds_user_witness :
  let req := Sample.request "" [("theme", JStr "light")] in
  let w := set_disk (<["users.json" :=
                        JSON_stringify (JArr [JObj [("id", JStr "65a1b2c3d4e5f60718293a4b");
                                                    ("username", JStr "admin")]])]>
                       Sample.data) (Sample.world [Sample.admin]) in
  let served := serve (@authenticateToken_user Reference.crypto (@put_theme UTC.calendar) req)
                  Sample.env w in
  bearer_token req = Some Sample.session_token /\
  (exists user,
     @jwt_verify Reference.crypto Sample.session_token JWT_SECRET (clock Sample.env 0)
       = Some user /\
     prop "userId" user = Some (JStr "65a1b2c3d4e5f60718293a4b") /\
     prop "id" user = None) /\
  fst served = error_response 404 "User not found" /\
  disk (snd served) = disk w.
Proof.
  intros req w served.
  assert (Htok : bearer_token req = Some Sample.session_token)
    by (vm_compute; reflexivity).
  assert (Hverify : exists user,
    @jwt_verify Reference.crypto Sample.session_token JWT_SECRET (clock Sample.env 0)
      = Some user /\
    prop "userId" user = Some (JStr "65a1b2c3d4e5f60718293a4b") /\
    prop "id" user = None /\ user <> JNull).
  { eexists. split; [ vm_compute; reflexivity | ].
    split; [ reflexivity | split; [ reflexivity | discriminate ] ]. }
  destruct Hverify as (user & Hv & Huid & Hid & Hnn).
  destruct (@put_theme_never_finds_user Reference.crypto UTC.calendar req Sample.env w
              Sample.session_token user
              [JObj [("id", JStr "65a1b2c3d4e5f60718293a4b"); ("username", JStr "admin")]]
              Htok ltac:(vm_compute; discriminate) Hv Hnn Hid eq_refl
              ltac:(left; vm_compute; reflexivity)
              ltac:(repeat constructor; discriminate))
    as (Hanswer & Hdisk & _).
  split; [ exact Htok | ].
  split; [ exists user; split; [ exact Hv | split; [ exact Huid | exact Hid ] ] | ].
  split; [ exact Hanswer | exact Hdisk ].
Defined.

(** X29 on the sample installation: an address nobody has. *)
Lemma reset_request_tells_registered_witness :
  let req := Sample.public_request [("email", JStr "nobody@example.com")] in
  let w := Sample.world [Sample.admin] in
  let served := serve (@request_password_reset Reference.crypto Reference.regex req)
                  Sample.env w in
  (forall u, In u (users w) ->
     Reference.match_body "nobody@example.com$" (email u) = false) /\
  status (fst served) = 404 /\
  snd served = w.
Proof.
  intros req w served.
  assert (Hnone : forall u, In u (users w) ->
            Reference.match_body "nobody@example.com$" (email u) = false).
  { intros u [ <- | [] ]. vm_compute. reflexivity. }
  destruct (@reset_request_tells_registered Reference.crypto Reference.regex req Sample.env w
              "nobody@example.com" (Reference.match_body "nobody@example.com$")
              eq_refl ltac:(discriminate) eq_refl) as (Hiff & Hsame).
  pose proof (proj2 Hiff Hnone) as Hstatus.
  split; [ exact Hnone | split; [ exact Hstatus | exact (Hsame Hstatus) ] ].
Defined.

(** X30 on the sample installation with the mail transport down. *)
Lemma reset_request_mail_failure_keeps_token_witness :
  let req := Sample.public_request [("email", JStr "admin@example.com")] in
  let w := Sample.world [Sample.admin] in
  let served := serve (@request_password_reset Reference.crypto Reference.regex req)
                  Outage.no_mail w in
  mail_ok Outage.no_mail = false /\
  fst served = error_response 500 "Could not send password reset email." /\
  forall v, In v (users (snd served)) -> _id v = _id Sample.admin ->
    resetToken v = Some (Reference.hash "N9qo8uLOickgx2ZMRZoMye" Sample.reset_token) /\
    resetTokenExpires v = Some (Sample.start + 1 + 3600000).
Proof.
  intros req w served.
  destruct (@reset_request_mail_failure_keeps_token Reference.crypto Reference.regex req
              Outage.no_mail w "admin@example.com"
              (Reference.match_body "admin@example.com$") Sample.admin Sample.reset_token
              eq_refl ltac:(discriminate) eq_refl ltac:(vm_compute; reflexivity)
              ltac:(vm_compute; reflexivity) eq_refl) as (Hanswer & _ & Hstored).
  split; [ reflexivity | split; [ exact Hanswer | exact Hstored ] ].
Defined.

(** C10 on the sample installation with [projects.json] cut short: the
    text is not JSON and the answer is the empty array; with the file as
    installed the answer is the stored array. *)
Lemma get_projects_always_array_witness :
  let w := set_disk (<["projects.json" := "[{"]> Sample.data) (Sample.world []) in
  is_json "[{" = false /\
  serve (get_projects (Sample.public_request [])) Sample.env w
    = (json_response 200 (JArr []), w) /\
  body (fst (serve (get_projects (Sample.public_request [])) Sample.env (Sample.world [])))
    = JArr Sample.projects.
Proof.
  intros w.
  destruct (get_projects_always_array (Sample.public_request []) Sample.env w)
    as (_ & Hworld & Hstatus & _ & _ & Hbroken & _).
  destruct (get_projects_always_array (Sample.public_request []) Sample.env (Sample.world []))
    as (_ & _ & _ & _ & _ & _ & Hstored & _).
  split; [ reflexivity | ].
  split; [ | apply Hstored; vm_compute; reflexivity ].
  specialize (Hbroken "[{" ltac:(vm_compute; reflexivity) eq_refl).
  destruct (serve (get_projects (Sample.public_request [])) Sample.env w)
    as [ [ st bd ] w1 ].
  cbn [fst snd status body] in Hworld, Hstatus, Hbroken.
  rewrite Hworld, Hstatus, Hbroken. reflexivity.
Defined.

(** X21 on the sample installation with a [personal-info.json] cut short:
    the text is not JSON and the answer is the default data. *)
Lemma get_personal_info_always_answers_witness :
  let w := set_disk (<["personal-info.json" := "{"]> Sample.data) (Sample.world []) in
  let served := serve (get_personal_info (Sample.public_request [])) Sample.env w in
  is_json "{" = false /\
  status (fst served) = 200 /\
  body (fst served) = defaultPersonalInfo /\
  snd served = w.
Proof.
  intros w served.
  destruct (get_personal_info_always_answers (Sample.public_request []) Sample.env w)
    as (Hstatus & _ & Hbroken & _).
  destruct (Hbroken "{" ltac:(vm_compute; reflexivity) eq_refl) as (Hbody & Hworld).
  split; [ reflexivity | split; [ exact Hstatus | split; [ exact Hbody | exact Hworld ] ] ].
Defined.
